(** * Aircraft metadata resolution: the [/api/aircraft-info] route

    A shallow embedding of the route handler that resolves static aircraft
    metadata from several providers (OpenSky, Planespotters, Supabase,
    FlightAware, Aviation Stack and the OpenSky CSV dump), with the theorems
    that relate its behaviour to the specification.

    Conventions of the embedding.
    - A TypeScript [string | null] is a [value] ([None] is [null]).  Strings are
      ASCII text; [toUpperCase], [toLowerCase] and [trim] follow ECMAScript on
      that range and leave other code units alone.
    - A [Partial<AircraftInfo>] is a record of [option value]: [None] means that
      the key is absent from the object, [Some None] that it is present and
      [null].
    - Network answers, the clock and the process environment form a [World];
      [tick] counts the external interactions performed so far, so that the
      same endpoint may answer differently each time it is asked.
    - An [async] function is a computation in the monad [M]: it threads the
      module-level caches and either returns or throws.
    - What a provider sends is read at the types that the [AircraftInfo]
      interface declares: a property is a string or [null].
    - The server action [fetchAircraftMetadata] reaches the route through an
      endpoint; [route] is that endpoint when the handler serves it and answers
      in time. *)

From Stdlib Require Import ZArith String Ascii List Bool Lia.
From stdpp Require Import gmap strings.
Import ListNotations.

Local Open Scope string_scope.
Local Open Scope list_scope.

(** ** ECMAScript string primitives *)

Module JS.

Definition is_lower (c : ascii) : bool :=
  let n := nat_of_ascii c in (97 <=? n)%nat && (n <=? 122)%nat.

Definition is_upper (c : ascii) : bool :=
  let n := nat_of_ascii c in (65 <=? n)%nat && (n <=? 90)%nat.

Definition is_digit (c : ascii) : bool :=
  let n := nat_of_ascii c in (48 <=? n)%nat && (n <=? 57)%nat.

(** White space stripped by [String.prototype.trim] (ASCII range): TAB, LF, VT,
    FF, CR and SPACE. *)
Definition is_white (c : ascii) : bool :=
  let n := nat_of_ascii c in ((9 <=? n)%nat && (n <=? 13)%nat) || (n =? 32)%nat.

Definition upper_char (c : ascii) : ascii :=
  if is_lower c then ascii_of_nat (nat_of_ascii c - 32) else c.

Definition lower_char (c : ascii) : ascii :=
  if is_upper c then ascii_of_nat (nat_of_ascii c + 32) else c.

Fixpoint map_chars (f : ascii -> ascii) (s : string) : string :=
  match s with
  | EmptyString => EmptyString
  | String c s' => String (f c) (map_chars f s')
  end.

Definition toUpperCase : string -> string := map_chars upper_char.
Definition toLowerCase : string -> string := map_chars lower_char.

Fixpoint trimStart (s : string) : string :=
  match s with
  | EmptyString => EmptyString
  | String c s' => if is_white c then trimStart s' else s
  end.

Fixpoint trimEnd (s : string) : string :=
  match s with
  | EmptyString => EmptyString
  | String c s' =>
      match trimEnd s' with
      | EmptyString => if is_white c then EmptyString else String c EmptyString
      | r => String c r
      end
  end.

Definition trim (s : string) : string := trimEnd (trimStart s).

(** [s.startsWith(p)] *)
Definition startsWith (p s : string) : bool := String.prefix p s.

(** [s.includes(needle)] *)
Fixpoint includes (needle s : string) : bool :=
  startsWith needle s ||
  match s with
  | EmptyString => false
  | String _ s' => includes needle s'
  end.

(** [s.substring(n)] *)
Fixpoint substringFrom (n : nat) (s : string) : string :=
  match n, s with
  | O, _ => s
  | S n', String _ s' => substringFrom n' s'
  | S _, EmptyString => EmptyString
  end.

(** [s.split(sep)] for a non-empty separator: [cur] is the piece being read,
    [skip] the number of characters of a separator just matched that are still
    to be passed over. *)
Fixpoint splitFrom (sep : string) (skip : nat) (cur : string) (s : string)
  : list string :=
  match s with
  | EmptyString => [cur]
  | String c s' =>
      match skip with
      | S k => splitFrom sep k cur s'
      | O =>
          if startsWith sep s
          then cur :: splitFrom sep (String.length sep - 1) EmptyString s'
          else splitFrom sep 0 (cur +:+ String c EmptyString) s'
      end
  end.

Definition split (sep s : string) : list string := splitFrom sep 0 EmptyString s.

(** The double quote character, and [s.replace(/QUOTE/g, '')]: every double
    quote of [s] is removed. *)
Definition dquote : ascii := "034"%char.

Fixpoint removeQuotes (s : string) : string :=
  match s with
  | EmptyString => EmptyString
  | String c s' =>
      if Ascii.eqb c dquote then removeQuotes s' else String c (removeQuotes s')
  end.

End JS.

(** ** Values and records *)

(** A [string | null]. *)
Definition value : Type := option string.

(** JavaScript truthiness of a [string | null]: [null] and [''] are falsy. *)
Definition truthy (v : value) : bool :=
  match v with
  | Some s => negb (String.eqb s "")
  | None => false
  end.

(** [a || b] *)
Definition or_else (a b : value) : value := if truthy a then a else b.

(** [a || null] *)
Definition or_null (a : value) : value := or_else a None.

(** ** The category classifier *)

Definition any_included (tokens : list string) (s : string) : bool :=
  existsb (fun t => JS.includes t s) tokens.

Definition getAircraftCategory (model : value) : string :=
  if negb (truthy model) then "unknown" else
  match model with
  | None => "unknown"
  | Some m =>
      let modelUpper := JS.trim (JS.toUpperCase m) in
      (* Large commercial jets *)
      if any_included ["A350"; "A380"; "B747"; "B777"; "B787"; "B767"] modelUpper
      then "A5"
      (* Medium commercial jets *)
      else if any_included ["A3"; "B7"; "B757"; "A300"; "A310"; "MD80"; "MD90"] modelUpper
      then "A3"
      (* Regional jets *)
      else if any_included ["E170"; "E175"; "E190"; "E195"; "E275"; "E290"; "E295";
                            "CRJ"; "ATR"; "DASH8"; "Q400"] modelUpper
      then "A2"
      (* Small aircraft *)
      else if any_included ["CESSNA"; "PIPER"; "BEECHCRAFT"; "CIRRUS"; "DIAMOND"; "ROBIN"]
                           modelUpper
      then "A1"
      (* Helicopters *)
      else if any_included ["HELICOPTER"; "ROTORCRAFT"; "H125"; "H135"; "H145"; "H175";
                            "AW139"; "AW169"; "AW189"] modelUpper
      then "B1"
      else "unknown"
  end.

(** ** Registration from callsign *)

(** The prefix table, in the order of the source (duplicates included). *)
Definition registrationPrefixes : list string := [
    (* Czech Republic *)
    "OK"; "OL"; "OM"; "ON"; "OO"; "OP"; "OQ"; "OR"; "OS"; "OT"; "OU"; "OV"; "OW"; "OX"; "OY"; "OZ";
    (* Poland *)
    "SP"; "SN"; "SO"; "SO"; "SQ"; "SR"; "SS"; "ST"; "SU"; "SV"; "SW"; "SX"; "SY"; "SZ";
    (* Germany *)
    "D"; "DA"; "DB"; "DC"; "DD"; "DE"; "DF"; "DG"; "DH"; "DI"; "DJ"; "DK"; "DL"; "DM"; "DN"; "DO"; "DP"; "DQ"; "DR"; "DS"; "DT"; "DU"; "DV"; "DW"; "DX"; "DY"; "DZ";
    (* Austria *)
    "OE"; "OF"; "OG"; "OH"; "OI"; "OJ"; "OK"; "OL"; "OM"; "ON"; "OO"; "OP"; "OQ"; "OR"; "OS"; "OT"; "OU"; "OV"; "OW"; "OX"; "OY"; "OZ";
    (* United Kingdom *)
    "G"; "GA"; "GB"; "GC"; "GD"; "GE"; "GF"; "GG"; "GH"; "GI"; "GJ"; "GK"; "GL"; "GM"; "GN"; "GO"; "GP"; "GQ"; "GR"; "GS"; "GT"; "GU"; "GV"; "GW"; "GX"; "GY"; "GZ";
    (* Switzerland *)
    "HB"; "HC"; "HD"; "HE"; "HF"; "HG"; "HH"; "HI"; "HJ"; "HK"; "HL"; "HM"; "HN"; "HO"; "HP"; "HQ"; "HR"; "HS"; "HT"; "HU"; "HV"; "HW"; "HX"; "HY"; "HZ";
    (* Luxembourg *)
    "LX"; "LY"; "LZ";
    (* Hungary *)
    "HA"; "HB"; "HC"; "HD"; "HE"; "HF"; "HG"; "HH"; "HI"; "HJ"; "HK"; "HL"; "HM"; "HN"; "HO"; "HP"; "HQ"; "HR"; "HS"; "HT"; "HU"; "HV"; "HW"; "HX"; "HY"; "HZ";
    (* France *)
    "F"; "FA"; "FB"; "FC"; "FD"; "FE"; "FF"; "FG"; "FH"; "FI"; "FJ"; "FK"; "FL"; "FM"; "FN"; "FO"; "FP"; "FQ"; "FR"; "FS"; "FT"; "FU"; "FV"; "FW"; "FX"; "FY"; "FZ";
    (* Italy *)
    "I"; "IA"; "IB"; "IC"; "ID"; "IE"; "IF"; "IG"; "IH"; "II"; "IJ"; "IK"; "IL"; "IM"; "IN"; "IO"; "IP"; "IQ"; "IR"; "IS"; "IT"; "IU"; "IV"; "IW"; "IX"; "IY"; "IZ";
    (* Spain *)
    "EC"; "ED"; "EE"; "EF"; "EG"; "EH"; "EI"; "EJ"; "EK"; "EL"; "EM"; "EN"; "EO"; "EP"; "EQ"; "ER"; "ES"; "ET"; "EU"; "EV"; "EW"; "EX"; "EY"; "EZ";
    (* Netherlands *)
    "PH"; "PI"; "PJ"; "PK"; "PL"; "PM"; "PN"; "PO"; "PP"; "PQ"; "PR"; "PS"; "PT"; "PU"; "PV"; "PW"; "PX"; "PY"; "PZ";
    (* Belgium *)
    "OO"; "OP"; "OQ"; "OR"; "OS"; "OT"; "OU"; "OV"; "OW"; "OX"; "OY"; "OZ";
    (* Denmark *)
    "OY"; "OZ";
    (* Norway *)
    "LN"; "LO"; "LP"; "LQ"; "LR"; "LS"; "LT"; "LU"; "LV"; "LW"; "LX"; "LY"; "LZ";
    (* Sweden *)
    "SE"; "SF"; "SG"; "SH"; "SI"; "SJ"; "SK"; "SL"; "SM"; "SN"; "SO"; "SP"; "SQ"; "SR"; "SS"; "ST"; "SU"; "SV"; "SW"; "SX"; "SY"; "SZ";
    (* Finland *)
    "OH"; "OI"; "OJ"; "OK"; "OL"; "OM"; "ON"; "OO"; "OP"; "OQ"; "OR"; "OS"; "OT"; "OU"; "OV"; "OW"; "OX"; "OY"; "OZ";
    (* Estonia *)
    "ES"; "ET"; "EU"; "EV"; "EW"; "EX"; "EY"; "EZ";
    (* Latvia *)
    "YL"; "YM"; "YN"; "YO"; "YP"; "YQ"; "YR"; "YS"; "YT"; "YU"; "YV"; "YW"; "YX"; "YY"; "YZ";
    (* Lithuania *)
    "LY"; "LZ";
    (* Slovakia *)
    "OM"; "ON"; "OO"; "OP"; "OQ"; "OR"; "OS"; "OT"; "OU"; "OV"; "OW"; "OX"; "OY"; "OZ";
    (* Slovenia *)
    "S5"; "S6"; "S7"; "S8"; "S9";
    (* Croatia *)
    "9A"; "9B"; "9C"; "9D"; "9E"; "9F"; "9G"; "9H"; "9I"; "9J"; "9K"; "9L"; "9M"; "9N"; "9O"; "9P"; "9Q"; "9R"; "9S"; "9T"; "9U"; "9V"; "9W"; "9X"; "9Y"; "9Z";
    (* Serbia *)
    "YU"; "YV"; "YW"; "YX"; "YY"; "YZ";
    (* Bulgaria *)
    "LZ"; "L1"; "L2"; "L3"; "L4"; "L5"; "L6"; "L7"; "L8"; "L9";
    (* Romania *)
    "YR"; "YS"; "YT"; "YU"; "YV"; "YW"; "YX"; "YY"; "YZ";
    (* Greece *)
    "SX"; "SY"; "SZ";
    (* Cyprus *)
    "5B"; "5C"; "5D"; "5E"; "5F"; "5G"; "5H"; "5I"; "5J"; "5K"; "5L"; "5M"; "5N"; "5O"; "5P"; "5Q"; "5R"; "5S"; "5T"; "5U"; "5V"; "5W"; "5X"; "5Y"; "5Z";
    (* Malta *)
    "9H"; "9I"; "9J"; "9K"; "9L"; "9M"; "9N"; "9O"; "9P"; "9Q"; "9R"; "9S"; "9T"; "9U"; "9V"; "9W"; "9X"; "9Y"; "9Z";
    (* Ireland *)
    "EI"; "EJ"; "EK"; "EL"; "EM"; "EN"; "EO"; "EP"; "EQ"; "ER"; "ES"; "ET"; "EU"; "EV"; "EW"; "EX"; "EY"; "EZ";
    (* Portugal *)
    "CS"; "CT"; "CU"; "CV"; "CW"; "CX"; "CY"; "CZ";
    (* Iceland *)
    "TF"; "TG"; "TH"; "TI"; "TJ"; "TK"; "TL"; "TM"; "TN"; "TO"; "TP"; "TQ"; "TR"; "TS"; "TT"; "TU"; "TV"; "TW"; "TX"; "TY"; "TZ"
  ].

(** [/^[A-Z0-9]+$/.test(suffix)] *)
Definition upper_alnum (s : string) : bool :=
  negb (String.eqb s "") &&
  forallb (fun c => JS.is_upper c || JS.is_digit c) (list_ascii_of_string s).

(** The [for (const prefix of registrationPrefixes)] loop. *)
Fixpoint scanPrefixes (cleanCallsign : string) (prefixes : list string) : value :=
  match prefixes with
  | [] => None
  | prefix :: rest =>
      if JS.startsWith prefix cleanCallsign then
        let suffix := JS.substringFrom (String.length prefix) cleanCallsign in
        if (1 <=? String.length suffix)%nat && (String.length suffix <=? 3)%nat then
          if upper_alnum suffix
          then Some (prefix +:+ "-" +:+ suffix)
          else scanPrefixes cleanCallsign rest
        else scanPrefixes cleanCallsign rest
      else scanPrefixes cleanCallsign rest
  end.

Definition extractRegistrationFromCallsign (callsign : value) : value :=
  match callsign with
  | None => None
  | Some c =>
      if negb (truthy callsign) then None
      else scanPrefixes (JS.toUpperCase (JS.trim c)) registrationPrefixes
  end.

(** ** Records *)

Record AircraftInfo : Type := mkAircraftInfo {
  registration : value;
  model : value;
  manufacturer : value;
  owner : value;
  operator : value;
  yearBuilt : value;
  engineType : value;
  category : value;
  photoUrl : value
}.

(** [Partial<AircraftInfo>]: each key may be absent. *)
Record PartialInfo : Type := mkPartialInfo {
  p_registration : option value;
  p_model : option value;
  p_manufacturer : option value;
  p_owner : option value;
  p_operator : option value;
  p_yearBuilt : option value;
  p_engineType : option value;
  p_category : option value;
  p_photoUrl : option value
}.

(** The object literal [{}]. *)
Definition emptyPartial : PartialInfo :=
  mkPartialInfo None None None None None None None None None.

(** The initial accumulator of the handler: every field [null]. *)
Definition nullInfo : AircraftInfo :=
  mkAircraftInfo None None None None None None None None None.

(** Reading a property of a partial object: an absent key reads as a falsy
    non-string, like [null]. *)
Definition read (o : option value) : value :=
  match o with
  | Some v => v
  | None => None
  end.

(** One key of an object spread [{ ...a, ...p }]: a key of [p] wins, whatever
    it holds. *)
Definition overwrite (o : option value) (old : value) : value :=
  match o with
  | Some v => v
  | None => old
  end.

(** [{ ...a, ...p }] *)
Definition spread (a : AircraftInfo) (p : PartialInfo) : AircraftInfo :=
  {| registration := overwrite (p_registration p) (registration a);
     model := overwrite (p_model p) (model a);
     manufacturer := overwrite (p_manufacturer p) (manufacturer a);
     owner := overwrite (p_owner p) (owner a);
     operator := overwrite (p_operator p) (operator a);
     yearBuilt := overwrite (p_yearBuilt p) (yearBuilt a);
     engineType := overwrite (p_engineType p) (engineType a);
     category := overwrite (p_category p) (category a);
     photoUrl := overwrite (p_photoUrl p) (photoUrl a) |}.

Definition set_registration (v : value) (a : AircraftInfo) : AircraftInfo :=
  mkAircraftInfo v (model a) (manufacturer a) (owner a) (operator a)
                 (yearBuilt a) (engineType a) (category a) (photoUrl a).

Definition set_category (v : value) (a : AircraftInfo) : AircraftInfo :=
  mkAircraftInfo (registration a) (model a) (manufacturer a) (owner a) (operator a)
                 (yearBuilt a) (engineType a) v (photoUrl a).

Definition set_photoUrl (v : value) (a : AircraftInfo) : AircraftInfo :=
  mkAircraftInfo (registration a) (model a) (manufacturer a) (owner a) (operator a)
                 (yearBuilt a) (engineType a) (category a) v.

(** [{ ...p, photoUrl }] *)
Definition with_photoUrl (v : value) (p : PartialInfo) : PartialInfo :=
  mkPartialInfo (p_registration p) (p_model p) (p_manufacturer p) (p_owner p)
                (p_operator p) (p_yearBuilt p) (p_engineType p) (p_category p) (Some v).

(** The fields of a record, to quantify over them. *)
Inductive Field : Type :=
  FRegistration | FModel | FManufacturer | FOwner | FOperator
| FYearBuilt | FEngineType | FCategory | FPhotoUrl.

Definition get (f : Field) (a : AircraftInfo) : value :=
  match f with
  | FRegistration => registration a
  | FModel => model a
  | FManufacturer => manufacturer a
  | FOwner => owner a
  | FOperator => operator a
  | FYearBuilt => yearBuilt a
  | FEngineType => engineType a
  | FCategory => category a
  | FPhotoUrl => photoUrl a
  end.

Definition key (f : Field) (p : PartialInfo) : option value :=
  match f with
  | FRegistration => p_registration p
  | FModel => p_model p
  | FManufacturer => p_manufacturer p
  | FOwner => p_owner p
  | FOperator => p_operator p
  | FYearBuilt => p_yearBuilt p
  | FEngineType => p_engineType p
  | FCategory => p_category p
  | FPhotoUrl => p_photoUrl p
  end.

(** ** The outside world *)

(** What a [fetch] of an endpoint gives: the promise rejects because the
    timeout aborted it, or for another reason, or it resolves with a status and
    a body.  A body [None] cannot be read as the JSON document the adapter
    expects (reading it throws). *)
Inductive HttpReply (J : Type) : Type :=
| Aborted
| Failed
| Replied (status : Z) (body : option J).
Arguments Aborted {J}.
Arguments Failed {J}.
Arguments Replied {J} status body.

(** [response.ok] *)
Definition ok (status : Z) : bool := (200 <=? status)%Z && (status <=? 299)%Z.

(** OpenSky metadata document (the properties the adapter reads). *)
Record OpenSkyData : Type := mkOpenSkyData {
  os_registration : value;
  os_model : value;
  os_manufacturerName : value;
  os_owner : value;
  os_operator : value;
  os_yearBuilt : value;
  os_engineType : value
}.

(** One element of [photosData.photos]: [thumbnail_large?.src] and
    [thumbnail?.src]. *)
Record Photo : Type := mkPhoto {
  thumbnail_large_src : value;
  thumbnail_src : value
}.

Record PlanespottersAircraft : Type := mkPlanespottersAircraft {
  ps_model : value;
  ps_manufacturer : value;
  ps_owner : value;
  ps_operator : value;
  ps_yearBuilt : value
}.

(** Document of the Planespotters aircraft endpoint: [data.error] (as a
    boolean) and [data.aircraft]. *)
Record PlanespottersAircraftDoc : Type := mkPlanespottersAircraftDoc {
  ps_error : bool;
  ps_aircraft : list PlanespottersAircraft
}.

Record FlightAwareData : Type := mkFlightAwareData {
  fa_aircraft_type : value;
  fa_manufacturer : value;
  fa_owner : value;
  fa_operator : value;
  fa_year_built : value
}.

Record AviationStackAirplane : Type := mkAviationStackAirplane {
  as_airplane_name : value;
  as_manufacturer : value;
  as_year_built : value
}.

(** A row of the [aircraft_metadata] table. *)
Record SupabaseRow : Type := mkSupabaseRow {
  sb_registration : value;
  sb_model : value;
  sb_type_code : value;
  sb_manufacturer_name : value;
  sb_manufacturer_icao : value;
  sb_owner : value;
  sb_operator : value;
  sb_built : value;
  sb_engines : value
}.

(** What the Supabase query gives: the client throws, or it resolves with
    [{ data, error }]. *)
Inductive SupabaseReply : Type :=
| QueryThrows
| QueryResult (error : bool) (data : option SupabaseRow).

(** [process.env] *)
Record Env : Type := mkEnv {
  FLIGHTAWARE_API_KEY : value;
  AVIATIONSTACK_API_KEY : value;
  NEXT_PUBLIC_SUPABASE_URL : value;
  SUPABASE_SERVICE_ROLE_KEY : value
}.

(** Every endpoint is asked with the identifier put in its URL and answers
    according to the moment ([nat]) it is asked. *)
Record World : Type := mkWorld {
  env : Env;
  clock : nat -> Z;
  opensky_metadata : string -> nat -> HttpReply (option OpenSkyData);
  planespotters_photos : string -> nat -> HttpReply (list Photo);
  planespotters_aircraft : string -> nat -> HttpReply PlanespottersAircraftDoc;
  supabase_aircraft_metadata : string -> nat -> SupabaseReply;
  flightaware_aircraft : string -> nat -> HttpReply FlightAwareData;
  aviationstack_airplanes : string -> nat -> HttpReply (list AviationStackAirplane);
  opensky_csv : nat -> HttpReply string
}.

(** ** Module state and the monad of asynchronous functions *)

Definition CACHE_DURATION : Z := 5 * 60 * 1000.
Definition OPENSKY_CSV_CACHE_DURATION : Z := 24 * 60 * 60 * 1000.

(** The two module-level maps; a cache entry is [{ data, timestamp }]. *)
Record State : Type := mkState {
  apiCache : gmap string (AircraftInfo * Z);
  openskyCSVCache : gmap string (PartialInfo * Z);
  tick : nat
}.

Definition initial : State := mkState ∅ ∅ 0.

Inductive Provider : Type :=
  OpenSky | Planespotters | Supabase | FlightAware | AviationStack.

(** One provider invocation made by the handler: which adapter was called with
    which identifier, what it contributed, and the accumulator before and after
    the handler merged the contribution. *)
Record Step : Type := mkStep {
  provider : Provider;
  argument : string;
  contribution : PartialInfo;
  before : AircraftInfo;
  after : AircraftInfo
}.

Inductive Error : Type := AbortError | OtherError.

Inductive Outcome (A : Type) : Type :=
| Returns (a : A)
| Throws (e : Error).
Arguments Returns {A} a.
Arguments Throws {A} e.

(** A run of an asynchronous function: how it ended, the provider invocations
    it made, and the module state it left. *)
Record Run (A : Type) : Type := mkRun {
  outcome : Outcome A;
  calls : list Step;
  final : State
}.
Arguments mkRun {A} outcome calls final.
Arguments outcome {A} r.
Arguments calls {A} r.
Arguments final {A} r.

Definition M (A : Type) : Type := State -> Run A.

Definition ret {A} (a : A) : M A := fun s => mkRun (Returns a) [] s.

Definition throw {A} (e : Error) : M A := fun s => mkRun (Throws e) [] s.

Definition bind {A B} (m : M A) (k : A -> M B) : M B :=
  fun s =>
    let r := m s in
    match outcome r with
    | Returns a =>
        let r' := k a (final r) in
        mkRun (outcome r') (calls r ++ calls r') (final r')
    | Throws e => mkRun (Throws e) (calls r) (final r)
    end.

(** [try { m } catch (error) { h error }] *)
Definition try_catch {A} (m : M A) (h : Error -> M A) : M A :=
  fun s =>
    let r := m s in
    match outcome r with
    | Returns a => r
    | Throws e =>
        let r' := h e (final r) in
        mkRun (outcome r') (calls r ++ calls r') (final r')
    end.

Notation "'do' x <- m ; k" := (bind m (fun x => k))
  (at level 10, x name, m at level 100, k at level 200,
   format "'[v' 'do'  x  <-  m ; '/' k ']'").
Notation "'run' m ; k" := (bind m (fun _ => k))
  (at level 10, m at level 100, k at level 200,
   format "'[v' 'run'  m ; '/' k ']'").

Definition advance (n : nat) (s : State) : State :=
  mkState (apiCache s) (openskyCSVCache s) (n + tick s).

(** The handler notes a provider invocation. *)
Definition note (st : Step) : M unit := fun s => mkRun (Returns tt) [st] s.

(** The string held by a value known to be truthy. *)
Definition str (v : value) : string :=
  match v with
  | Some s => s
  | None => ""
  end.

(** ** Provider adapters *)

Section Route.

Variable w : World.

(** [Date.now()] *)
Definition dateNow : M Z :=
  fun s => mkRun (Returns (clock w (tick s))) [] (advance 1 s).

(** [await fetch(url, { signal })] on an endpoint of the world. *)
Definition fetch {J} (endpoint : nat -> HttpReply J) : M (Z * option J) :=
  fun s =>
    match endpoint (tick s) with
    | Aborted => mkRun (Throws AbortError) [] (advance 1 s)
    | Failed => mkRun (Throws OtherError) [] (advance 1 s)
    | Replied status body => mkRun (Returns (status, body)) [] (advance 1 s)
    end.

(** [await response.json()] (or [response.text()]) *)
Definition json {J} (body : option J) : M J :=
  match body with
  | Some j => ret j
  | None => throw OtherError
  end.

(** [getOpenSkyInfo], source lines 24-67. *)
Definition getOpenSkyInfo (icao24 : string) : M PartialInfo :=
  try_catch
    (do response <- fetch (opensky_metadata w (JS.toLowerCase icao24));
     if negb (ok (fst response)) then ret emptyPartial else
     do data <- json (snd response);
     match data with
     | None => ret emptyPartial
     | Some data =>
         ret {| p_registration := Some (or_null (os_registration data));
                p_model := Some (or_null (os_model data));
                p_manufacturer := Some (or_null (os_manufacturerName data));
                p_owner := Some (or_null (os_owner data));
                p_operator := Some (or_null (os_operator data));
                p_yearBuilt := Some (or_null (os_yearBuilt data));
                p_engineType := Some (or_null (os_engineType data));
                p_category := None;
                p_photoUrl := None |}
     end)
    (fun error => ret emptyPartial).

(** [getPlanespottersInfo], source lines 70-154. *)
Definition getPlanespottersInfo (registration : string) : M PartialInfo :=
  try_catch
    (do photosResponse <- fetch (planespotters_photos w registration);
     do photoUrl <-
       (if ok (fst photosResponse) then
          do photosData <- json (snd photosResponse);
          match photosData with
          | firstPhoto :: _ =>
              ret (or_else (thumbnail_large_src firstPhoto)
                           (or_else (thumbnail_src firstPhoto) None))
          | [] => ret None
          end
        else ret None);
     do aircraftInfo <-
       try_catch
         (do aircraftResponse <- fetch (planespotters_aircraft w registration);
          if ok (fst aircraftResponse) then
            do data <- json (snd aircraftResponse);
            if negb (ps_error data) then
              match ps_aircraft data with
              | aircraft :: _ =>
                  ret {| p_registration := None;
                         p_model := Some (or_null (ps_model aircraft));
                         p_manufacturer := Some (or_null (ps_manufacturer aircraft));
                         p_owner := Some (or_null (ps_owner aircraft));
                         p_operator := Some (or_null (ps_operator aircraft));
                         p_yearBuilt := Some (or_null (ps_yearBuilt aircraft));
                         p_engineType := None;
                         p_category := None;
                         p_photoUrl := None |}
              | [] => ret emptyPartial
              end
            else ret emptyPartial
          else ret emptyPartial)
         (fun error => ret emptyPartial);
     ret (with_photoUrl photoUrl aircraftInfo))
    (fun error => ret emptyPartial).

(** [getFlightAwareInfo], source lines 157-194. *)
Definition getFlightAwareInfo (registration : string) : M PartialInfo :=
  try_catch
    (let apiKey := FLIGHTAWARE_API_KEY (env w) in
     if negb (truthy apiKey) then ret emptyPartial else
     do response <- fetch (flightaware_aircraft w registration);
     if negb (ok (fst response)) then ret emptyPartial else
     do data <- json (snd response);
     ret {| p_registration := None;
            p_model := Some (or_null (fa_aircraft_type data));
            p_manufacturer := Some (or_null (fa_manufacturer data));
            p_owner := Some (or_null (fa_owner data));
            p_operator := Some (or_null (fa_operator data));
            p_yearBuilt := Some (or_null (fa_year_built data));
            p_engineType := None;
            p_category := None;
            p_photoUrl := None |})
    (fun error => ret emptyPartial).

(** [getAviationStackInfo], source lines 209-242. *)
Definition getAviationStackInfo (registration : string) : M PartialInfo :=
  try_catch
    (let apiKey := AVIATIONSTACK_API_KEY (env w) in
     if negb (truthy apiKey) then ret emptyPartial else
     do response <- fetch (aviationstack_airplanes w registration);
     if negb (ok (fst response)) then ret emptyPartial else
     do data <- json (snd response);
     match data with
     | [] => ret emptyPartial
     | aircraft :: _ =>
         ret {| p_registration := None;
                p_model := Some (or_null (as_airplane_name aircraft));
                p_manufacturer := Some (or_null (as_manufacturer aircraft));
                p_owner := None;
                p_operator := None;
                p_yearBuilt := Some (or_null (as_year_built aircraft));
                p_engineType := None;
                p_category := None;
                p_photoUrl := None |}
     end)
    (fun error => ret emptyPartial).

(** The Supabase query [from('aircraft_metadata').select('*').eq(...).single()]. *)
Definition supabaseQuery (registration : string) : M (bool * option SupabaseRow) :=
  fun s =>
    match supabase_aircraft_metadata w registration (tick s) with
    | QueryThrows => mkRun (Throws OtherError) [] (advance 1 s)
    | QueryResult error data => mkRun (Returns (error, data)) [] (advance 1 s)
    end.

(** [getSupabaseAircraftInfo], source lines 377-425. *)
Definition getSupabaseAircraftInfo (registration : string) : M PartialInfo :=
  try_catch
    (let supabaseUrl := NEXT_PUBLIC_SUPABASE_URL (env w) in
     let supabaseServiceKey := SUPABASE_SERVICE_ROLE_KEY (env w) in
     if negb (truthy supabaseUrl) || negb (truthy supabaseServiceKey)
     then ret emptyPartial else
     do result <- supabaseQuery registration;
     if fst result then ret emptyPartial else
     match snd result with
     | None => ret emptyPartial
     | Some data =>
         ret {| p_registration := Some (sb_registration data);
                p_model := Some (or_else (sb_model data) (or_else (sb_type_code data) None));
                p_manufacturer :=
                  Some (or_else (sb_manufacturer_name data)
                                (or_else (sb_manufacturer_icao data) None));
                p_owner := Some (or_null (sb_owner data));
                p_operator := Some (or_null (sb_operator data));
                p_yearBuilt := Some (or_null (sb_built data));
                p_engineType := Some (or_null (sb_engines data));
                p_category := None;
                p_photoUrl := None |}
     end)
    (fun error => ret emptyPartial).

(** *** The OpenSky CSV adapter *)

Definition newline : string := String "010"%char EmptyString.

(** The separator of [line.split(...)]: quote, comma, quote. *)
Definition quoteCommaQuote : string :=
  String JS.dquote (String ","%char (String JS.dquote EmptyString)).

(** [values[i]] on an array long enough. *)
Definition at_index (i : nat) (values : list string) : string := nth i values "".

(** The object built for a matching row, source lines 339-349. *)
Definition csvAircraftInfo (values : list string) : PartialInfo :=
  let reg := at_index 1 values in
  let manufacturerIcao := at_index 2 values in
  let manufacturerName := at_index 3 values in
  let model := at_index 4 values in
  let typeCode := at_index 5 values in
  let operator := at_index 9 values in
  let owner := at_index 13 values in
  let built := at_index 18 values in
  let manufacturer := or_else (Some manufacturerName) (Some manufacturerIcao) in
  {| p_registration := Some (Some reg);
     p_model := Some (or_else (Some model) (or_else (Some typeCode) None));
     p_manufacturer := Some (or_null manufacturer);
     p_owner := Some (or_null (Some owner));
     p_operator := Some (or_null (Some operator));
     p_yearBuilt := Some (or_null (Some built));
     p_engineType := Some None;
     p_category := Some None;
     p_photoUrl := Some None |}.

(** The loop [for (let i = 1; i < lines.length; i++)] over the lines that
    remain to be read, source lines 283-360. *)
Fixpoint scanLines (registration : string) (lines : list string) : M PartialInfo :=
  match lines with
  | [] => ret emptyPartial
  | line :: rest =>
      if String.eqb (JS.trim line) "" then scanLines registration rest else
      let values := map JS.removeQuotes (JS.split quoteCommaQuote line) in
      if (20 <=? length values)%nat then
        if String.eqb (at_index 1 values) registration then
          let aircraftInfo := csvAircraftInfo values in
          do now <- dateNow;
          run (fun s => mkRun (Returns tt) []
                 (mkState (apiCache s)
                          (<[registration := (aircraftInfo, now)]> (openskyCSVCache s))
                          (tick s)));
          ret aircraftInfo
        else scanLines registration rest
      else scanLines registration rest
  end.

(** [getOpenSkyCSVInfo], source lines 245-374. *)
Definition getOpenSkyCSVInfo (registration : string) : M PartialInfo :=
  try_catch
    (do cached <- (fun s => mkRun (Returns (openskyCSVCache s !! registration)) [] s);
     do hit <-
       match cached with
       | Some (data, timestamp) =>
           do now <- dateNow;
           ret (if (now - timestamp <? OPENSKY_CSV_CACHE_DURATION)%Z
                then Some data else None)
       | None => ret None
       end;
     match hit with
     | Some data => ret data
     | None =>
         do response <- fetch (opensky_csv w);
         if negb (ok (fst response)) then ret emptyPartial else
         do csvText <- json (snd response);
         let lines := JS.split newline csvText in
         (* Skip header line *)
         scanLines registration (tail lines)
     end)
    (fun error => ret emptyPartial).

(** ** The route handler *)

(** The query parameters read from the request URL. *)
Record Request : Type := mkRequest {
  q_icao24 : value;
  q_registration : value;
  q_callsign : value
}.

(** The [sources] object of a response. *)
Record Sources : Type := mkSources {
  src_opensky : bool;
  src_planespotters : bool;
  src_supabase : bool;
  src_flightaware : bool;
  src_aviationstack : bool
}.

Inductive Response : Type :=
| BadRequest    (* status 400, error 'ICAO24 or registration is required' *)
| ServerError   (* status 500, error 'Failed to fetch aircraft information' *)
| Success (data : AircraftInfo) (cached : bool) (sources : Sources).

(** [v === s] and [v === null] *)
Definition strict_eq (v : value) (s : string) : bool :=
  match v with
  | Some x => String.eqb x s
  | None => false
  end.

Definition is_null (v : value) : bool :=
  match v with
  | Some _ => false
  | None => true
  end.

(** [if (info.photoUrl) aircraftInfo.photoUrl = info.photoUrl] *)
Definition takePhoto (info : PartialInfo) (aircraftInfo : AircraftInfo) : AircraftInfo :=
  if truthy (read (p_photoUrl info))
  then set_photoUrl (read (p_photoUrl info)) aircraftInfo
  else aircraftInfo.

(** [{ ...aircraftInfo, ...info, photoUrl: aircraftInfo.photoUrl }] *)
Definition spreadKeepingPhoto (aircraftInfo : AircraftInfo) (info : PartialInfo)
  : AircraftInfo :=
  set_photoUrl (photoUrl aircraftInfo) (spread aircraftInfo info).

(** [apiCache.get(cacheKey)] *)
Definition cacheGet (cacheKey : string) : M (option (AircraftInfo * Z)) :=
  fun s => mkRun (Returns (apiCache s !! cacheKey)) [] s.

(** [apiCache.set(cacheKey, { data: aircraftInfo, timestamp: Date.now() })] *)
Definition cacheSet (cacheKey : string) (aircraftInfo : AircraftInfo) : M unit :=
  do now <- dateNow;
  fun s => mkRun (Returns tt) []
             (mkState (<[cacheKey := (aircraftInfo, now)]> (apiCache s))
                      (openskyCSVCache s) (tick s)).

(** The block [if (icao24) { ... }], source lines 609-657.  It either returns
    the response early ([inr]) or falls through with the accumulator ([inl]). *)
Definition lookupByIcao24 (icao24 cacheKey : string) (aircraftInfo : AircraftInfo)
  : M (AircraftInfo + Response) :=
  do openskyInfo <- getOpenSkyInfo icao24;
  let merged := spread aircraftInfo openskyInfo in
  run note (mkStep OpenSky icao24 openskyInfo aircraftInfo merged);
  let aircraftInfo := merged in
  do aircraftInfo <-
    (if (negb (truthy (read (p_model openskyInfo)))
         || strict_eq (read (p_model openskyInfo)) ""
         || is_null (read (p_model openskyInfo)))
        && truthy (read (p_registration openskyInfo))
     then
       do supabaseInfo <- getSupabaseAircraftInfo (str (read (p_registration openskyInfo)));
       let merged := spread aircraftInfo supabaseInfo in
       run note (mkStep Supabase (str (read (p_registration openskyInfo)))
                        supabaseInfo aircraftInfo merged);
       ret merged
     else ret aircraftInfo);
  (* If we got basic info, return early for faster response *)
  if truthy (registration aircraftInfo) || truthy (model aircraftInfo) then
    let aircraftInfo :=
      set_category (Some (getAircraftCategory (model aircraftInfo))) aircraftInfo in
    do aircraftInfo <-
      (if truthy (registration aircraftInfo) then
         do planespottersInfo <- getPlanespottersInfo (str (registration aircraftInfo));
         let merged := takePhoto planespottersInfo aircraftInfo in
         run note (mkStep Planespotters (str (registration aircraftInfo))
                          planespottersInfo aircraftInfo merged);
         ret merged
       else ret aircraftInfo);
    run cacheSet cacheKey aircraftInfo;
    ret (inr (Success aircraftInfo false
                {| src_opensky := true;
                   src_planespotters := truthy (photoUrl aircraftInfo);
                   src_supabase := truthy (registration aircraftInfo);
                   src_flightaware := false;
                   src_aviationstack := false |}))
  else ret (inl aircraftInfo).

(** The rest of the [try] block, source lines 659-732. *)
Definition lookupByRegistration (icao24 registrationParam callsign : value)
    (cacheKey : string) (aircraftInfo : AircraftInfo) : M Response :=
  let targetRegistration := or_else (registration aircraftInfo) registrationParam in
  do derived <-
    (if negb (truthy targetRegistration) && truthy callsign then
       let extractedRegistration := extractRegistrationFromCallsign callsign in
       if truthy extractedRegistration then
         ret (extractedRegistration, set_registration extractedRegistration aircraftInfo)
       else
         (* callsign tried as a registration, for the photo only *)
         do planespottersInfo <- getPlanespottersInfo (str callsign);
         let merged := takePhoto planespottersInfo aircraftInfo in
         run note (mkStep Planespotters (str callsign) planespottersInfo aircraftInfo merged);
         ret (targetRegistration, merged)
     else ret (targetRegistration, aircraftInfo));
  let targetRegistration := fst derived in
  let aircraftInfo := snd derived in
  do aircraftInfo <-
    (if truthy targetRegistration then
       do planespottersInfo <- getPlanespottersInfo (str targetRegistration);
       let merged :=
         spreadKeepingPhoto (takePhoto planespottersInfo aircraftInfo) planespottersInfo in
       run note (mkStep Planespotters (str targetRegistration)
                        planespottersInfo aircraftInfo merged);
       let aircraftInfo := merged in
       do supabaseInfo <- getSupabaseAircraftInfo (str targetRegistration);
       let merged := spreadKeepingPhoto aircraftInfo supabaseInfo in
       run note (mkStep Supabase (str targetRegistration) supabaseInfo aircraftInfo merged);
       let aircraftInfo := merged in
       do aircraftInfo <-
         (if truthy (FLIGHTAWARE_API_KEY (env w)) then
            do flightAwareInfo <- getFlightAwareInfo (str targetRegistration);
            let merged := spreadKeepingPhoto aircraftInfo flightAwareInfo in
            run note (mkStep FlightAware (str targetRegistration)
                             flightAwareInfo aircraftInfo merged);
            ret merged
          else ret aircraftInfo);
       if truthy (AVIATIONSTACK_API_KEY (env w)) then
         do aviationStackInfo <- getAviationStackInfo (str targetRegistration);
         let merged := spreadKeepingPhoto aircraftInfo aviationStackInfo in
         run note (mkStep AviationStack (str targetRegistration)
                          aviationStackInfo aircraftInfo merged);
         ret merged
       else ret aircraftInfo
     else ret aircraftInfo);
  (* Determine aircraft category based on model *)
  let aircraftInfo :=
    set_category (Some (getAircraftCategory (model aircraftInfo))) aircraftInfo in
  run cacheSet cacheKey aircraftInfo;
  ret (Success aircraftInfo false
         {| src_opensky := truthy icao24;
            src_planespotters := truthy targetRegistration;
            src_supabase := truthy targetRegistration;
            src_flightaware := truthy (FLIGHTAWARE_API_KEY (env w));
            src_aviationstack := truthy (AVIATIONSTACK_API_KEY (env w)) |}).

(** [cacheKey = icao24 || registration || ''] *)
Definition cacheKeyOf (request : Request) : string :=
  str (or_else (q_icao24 request) (or_else (q_registration request) (Some ""))).

(** The [try { ... } catch] block of the handler, source lines 595-740: the
    resolution proper, run when the cache holds no fresh entry. *)
Definition resolve (request : Request) : M Response :=
  let icao24 := q_icao24 request in
  let registrationParam := q_registration request in
  let callsign := q_callsign request in
  let cacheKey := cacheKeyOf request in
  try_catch
    (do primary <-
       (if truthy icao24
        then lookupByIcao24 (str icao24) cacheKey nullInfo
        else ret (inl nullInfo));
     match primary with
     | inr response => ret response
     | inl aircraftInfo =>
         lookupByRegistration icao24 registrationParam callsign cacheKey aircraftInfo
     end)
    (fun error => ret ServerError).

(** [GET], source lines 564-741. *)
Definition GET (request : Request) : M Response :=
  let icao24 := q_icao24 request in
  let registrationParam := q_registration request in
  if negb (truthy icao24) && negb (truthy registrationParam) then ret BadRequest else
  (* Check cache first *)
  let cacheKey := cacheKeyOf request in
  do cached <- cacheGet cacheKey;
  do hit <-
    match cached with
    | Some (data, timestamp) =>
        do now <- dateNow;
        ret (if (now - timestamp <? CACHE_DURATION)%Z then Some data else None)
    | None => ret None
    end;
  match hit with
  | Some data =>
      ret (Success data true
             {| src_opensky := truthy icao24;
                src_planespotters := truthy registrationParam;
                src_supabase := truthy registrationParam;
                src_flightaware := truthy (FLIGHTAWARE_API_KEY (env w));
                src_aviationstack := truthy (AVIATIONSTACK_API_KEY (env w)) |})
  | None => resolve request
  end.

End Route.

(** * Vocabulary of the properties *)

(** The predicates, the example worlds and the readings of the claims that the
    statements below use. *)

(** A run with one more invocation in front. *)
Definition cons_step {A} (st : Step) (r : Run A) : Run A :=
  mkRun (outcome r) (st :: calls r) (final r).

(** What [try_catch] does with the run of its body. *)
Definition catching {A} (h : Error -> M A) (r : Run A) : Run A :=
  match outcome r with
  | Returns _ => r
  | Throws e =>
      let r' := h e (final r) in
      mkRun (outcome r') (calls r ++ calls r') (final r')
  end.

(** What [bind] does with the run of its first part. *)
Definition and_then {A B} (k : A -> M B) (r : Run A) : Run B :=
  match outcome r with
  | Returns a =>
      let r' := k a (final r) in
      mkRun (outcome r') (calls r ++ calls r') (final r')
  | Throws e => mkRun (Throws e) (calls r) (final r)
  end.

(** A contribution that carries no photo and no category key. *)
Definition metadata_only (p : PartialInfo) : Prop :=
  p_photoUrl p = None /\ p_category p = None.

(** A photo URL handed out by the photo provider is never an empty string. *)
Definition photo_well_formed (p : PartialInfo) : Prop :=
  read (p_photoUrl p) = None \/ truthy (read (p_photoUrl p)) = true.

(** A reply that gives the adapter nothing to use: the request timed out or
    failed, the status is not a success, or the body cannot be read. *)
Definition failed {J} (r : HttpReply J) : bool :=
  match r with
  | Aborted | Failed => true
  | Replied status body =>
      negb (ok status) || match body with Some _ => false | None => true end
  end.

(** The same for the Supabase query: it throws or reports an error. *)
Definition query_failed (r : SupabaseReply) : bool :=
  match r with
  | QueryThrows => true
  | QueryResult error _ => error
  end.

(** Every provider fails whenever it is asked. *)
Definition unreachable (w : World) : Prop :=
  forall (k : string) (t : nat),
    failed (opensky_metadata w k t) = true
    /\ failed (planespotters_photos w k t) = true
    /\ failed (planespotters_aircraft w k t) = true
    /\ query_failed (supabase_aircraft_metadata w k t) = true
    /\ failed (flightaware_aircraft w k t) = true
    /\ failed (aviationstack_airplanes w k t) = true.

(** A request that passes the first check of the handler. *)
Definition supplied (request : Request) : bool :=
  truthy (q_icao24 request) || truthy (q_registration request).

(** The [sources] object of a response served from the cache. *)
Definition cachedSources (w : World) (request : Request) : Sources :=
  {| src_opensky := truthy (q_icao24 request);
     src_planespotters := truthy (q_registration request);
     src_supabase := truthy (q_registration request);
     src_flightaware := truthy (FLIGHTAWARE_API_KEY (env w));
     src_aviationstack := truthy (AVIATIONSTACK_API_KEY (env w)) |}.

(** How one provider invocation changes the fields other than the photo.
    Either its result is spread over the accumulator, so that every key the
    result carries overwrites the field, whatever it holds, or (for the lookups
    made for the photo only) no such field changes.  In both cases a field whose
    key the result lacks is left as it was. *)
Definition overwrites_only (st : Step) : Prop :=
  ((forall f, f <> FPhotoUrl ->
      get f (after st) = overwrite (key f (contribution st)) (get f (before st)))
   \/ (forall f, f <> FPhotoUrl -> get f (after st) = get f (before st)))
  /\ (forall f, f <> FPhotoUrl ->
        key f (contribution st) = None -> get f (after st) = get f (before st)).

(** The accumulator as the handler holds it around each provider invocation. *)
Definition snapshots (steps : list Step) : list AircraftInfo :=
  flat_map (fun st => [before st; after st]) steps.

(** The record carried by the response of a run (all [null] if there is
    none). *)
Definition response_data (r : Run Response) : AircraftInfo :=
  match outcome r with
  | Returns (Success data _ _) => data
  | _ => nullInfo
  end.

(** A photo held by [a] is the one held by [b]. *)
Definition keeps_photo (a b : AircraftInfo) : Prop :=
  forall u, photoUrl a = Some u -> photoUrl b = Some u.

(** [R] holds between each element of a list and the next one. *)
Fixpoint chain {A} (R : A -> A -> Prop) (l : list A) : Prop :=
  match l with
  | a :: l' =>
      match l' with
      | b :: _ => R a b /\ chain R l'
      | [] => True
      end
  | [] => True
  end.

(** An invocation of the photo provider. *)
Definition is_photo_call (st : Step) : bool :=
  match provider st with
  | Planespotters => true
  | _ => false
  end.

(** The photo provider is asked only while no photo is stored. *)
Definition photo_asked_when_unset (st : Step) : Prop :=
  is_photo_call st = true -> photoUrl (before st) = None.

(** The provider with which a resolution starts. *)
Definition firstProvider (request : Request) : Provider :=
  if truthy (q_icao24 request) then OpenSky else Planespotters.

(** The record of a resolution to which no provider contributes: only the
    category is set, and the registration when it is read off the callsign. *)
Definition worstRecord (request : Request) : AircraftInfo :=
  let extracted := extractRegistrationFromCallsign (q_callsign request) in
  {| registration :=
       if negb (truthy (q_registration request)) && truthy (q_callsign request)
          && truthy extracted
       then extracted else None;
     model := None;
     manufacturer := None;
     owner := None;
     operator := None;
     yearBuilt := None;
     engineType := None;
     category := Some "unknown";
     photoUrl := None |}.

(** Every adapter returns, whatever the world answers. *)
Definition adapters_never_throw (w : World) : Prop :=
  forall (id : string) (s : State),
    (exists p, outcome (getOpenSkyInfo w id s) = Returns p)
    /\ (exists p, outcome (getPlanespottersInfo w id s) = Returns p)
    /\ (exists p, outcome (getSupabaseAircraftInfo w id s) = Returns p)
    /\ (exists p, outcome (getFlightAwareInfo w id s) = Returns p)
    /\ (exists p, outcome (getAviationStackInfo w id s) = Returns p).

(** No credential is configured. *)
Definition noEnv : Env := mkEnv None None None None.

(** A clock on which every interaction with the outside takes one second. *)
Definition seconds (t : nat) : Z := 1000 * Z.of_nat t.

(** No provider can be reached and nothing is configured. *)
Definition offline : World :=
  mkWorld noEnv seconds
    (fun _ _ => Aborted) (fun _ _ => Replied 429 None) (fun _ _ => Failed)
    (fun _ _ => QueryThrows) (fun _ _ => Failed) (fun _ _ => Failed) (fun _ => Failed).

(** OpenSky knows the registration, the manufacturer and the owner of the
    aircraft but not its model; the Supabase table has a row for it with
    another owner and no manufacturer. *)
Definition twoSources : World :=
  mkWorld (mkEnv None None (Some "https://example.supabase.co") (Some "service-key")) seconds
    (fun _ _ =>
       Replied 200
         (Some (Some (mkOpenSkyData (Some "SP-LRD") None (Some "Boeing") (Some "LOT")
                                    None None None))))
    (fun _ _ => Failed) (fun _ _ => Failed)
    (fun _ _ =>
       QueryResult false
         (Some (mkSupabaseRow (Some "SP-LRD") None None None None (Some "PLL LOT")
                              None None None)))
    (fun _ _ => Failed) (fun _ _ => Failed) (fun _ => Failed).

(** Three requests: with a transponder code and a callsign, with a registration
    only, and with a callsign only. *)
Definition byTransponder : Request := mkRequest (Some "48AF01") None (Some "SPLRD").

Definition byRegistration : Request := mkRequest None (Some "SP-LRD") None.

Definition byCallsignOnly : Request := mkRequest None None (Some "SPLRD").

(** The claim: within the invocations of one resolution, a field other than
    the photo that holds a non-null value after one invocation holds the same
    value after every later one. *)
Definition first_non_null_wins (steps : list Step) : Prop :=
  forall i j si sj f v,
    f <> FPhotoUrl -> i < j ->
    steps !! i = Some si -> steps !! j = Some sj ->
    get f (after si) = Some v -> get f (after sj) = Some v.

(** Planespotters has a photo of the aircraft that OpenSky identifies. *)
Definition withPhoto : World :=
  mkWorld noEnv seconds
    (fun _ _ =>
       Replied 200
         (Some (Some (mkOpenSkyData (Some "SP-LRD") (Some "737-800") None None None None None))))
    (fun _ _ =>
       Replied 200 (Some [mkPhoto (Some "https://t.plnspttrs.net/large.jpg")
                                  (Some "https://t.plnspttrs.net/small.jpg")]))
    (fun _ _ => Failed) (fun _ _ => QueryThrows) (fun _ _ => Failed) (fun _ _ => Failed)
    (fun _ => Failed).

(** The claim: a provider that contributed nothing to a resolution is asked
    again by the next resolution of the same identifier. *)
Definition retried_after_failure (w : World) (request : Request) (s : State) : Prop :=
  forall st,
    In st (calls (GET w request s)) -> contribution st = emptyPartial ->
    exists st',
      In st' (calls (GET w request (final (GET w request s))))
      /\ provider st' = provider st.

(** The clock of [offline], ten minutes later. *)
Definition offlineLater : World :=
  mkWorld noEnv (fun t => 600000 + seconds t)%Z
    (fun _ _ => Aborted) (fun _ _ => Replied 429 None) (fun _ _ => Failed)
    (fun _ _ => QueryThrows) (fun _ _ => Failed) (fun _ _ => Failed) (fun _ => Failed).

(** The claim's reading of the function, in the words of the specification:
    among the table prefixes that the cleaned callsign starts with, the longest
    is chosen; the rest of the callsign must then be one to three characters of
    A-Z and 0-9. *)
Definition longestMatchingPrefix (clean : string) (prefixes : list string)
  : option string :=
  fold_left
    (fun best p =>
       if JS.startsWith p clean then
         match best with
         | Some b => if (String.length b <? String.length p)%nat then Some p else best
         | None => Some p
         end
       else best)
    prefixes None.

Definition deriveRegistrationFromCallsign_spec (callsign : value) : value :=
  match callsign with
  | None => None
  | Some c =>
      if negb (truthy callsign) then None else
      let clean := JS.toUpperCase (JS.trim c) in
      match longestMatchingPrefix clean registrationPrefixes with
      | None => None
      | Some p =>
          let suffix := JS.substringFrom (String.length p) clean in
          if (1 <=? String.length suffix)%nat && (String.length suffix <=? 3)%nat
             && upper_alnum suffix
          then Some (p +:+ "-" +:+ suffix)
          else None
      end
  end.

(** A table prefix that the loop accepts for a cleaned callsign. *)
Definition accepts (clean prefix : string) : bool :=
  JS.startsWith prefix clean
  && (1 <=? String.length (JS.substringFrom (String.length prefix) clean))%nat
  && (String.length (JS.substringFrom (String.length prefix) clean) <=? 3)%nat
  && upper_alnum (JS.substringFrom (String.length prefix) clean).

(** [lacks c s]: the character [c] does not occur in [s]. *)
Fixpoint lacks (c : ascii) (s : string) : bool :=
  match s with
  | EmptyString => true
  | String x s' => negb (Ascii.eqb x c) && lacks c s'
  end.

(** The line feed. *)
Definition newlineChar : ascii := "010"%char.

(** Fields joined by the separator, and a row of the dataset: every field
    quoted, the fields separated by commas. *)
Fixpoint joinFields (fields : list string) : string :=
  match fields with
  | [] => EmptyString
  | f :: rest =>
      match rest with
      | [] => f
      | _ :: _ => f +:+ quoteCommaQuote +:+ joinFields rest
      end
  end.

Definition csvRow (fields : list string) : string :=
  String JS.dquote (joinFields fields +:+ String JS.dquote EmptyString).

(** The lines [before], each ended by a line feed. *)
Definition linesOf (before : list string) : string :=
  fold_right (fun line text => line +:+ newline +:+ text) EmptyString before.

(** A dataset: the header line, then the rows [before], then [row], then the
    rest of the document. *)
Definition dataset (header : string) (before : list string) (row rest : string) : string :=
  header +:+ newline +:+ linesOf before +:+ row +:+ rest.

(** The test of the loop on one line: the line is not blank, it has at least
    twenty values, and the second one is the registration asked for. *)
Definition rowMatches (registration line : string) : bool :=
  negb (String.eqb (JS.trim line) "")
  && (20 <=? length (map JS.removeQuotes (JS.split quoteCommaQuote line)))%nat
  && String.eqb (at_index 1 (map JS.removeQuotes (JS.split quoteCommaQuote line)))
                registration.

(** A field that contains neither a double quote nor a line feed. *)
Definition plain (f : string) : bool := lacks JS.dquote f && lacks newlineChar f.

(** The row of the scenario: any identifier, then the registration SP-LRD, the
    manufacturer code BOE, the manufacturer name Boeing, the model 737-800, and
    whatever columns follow. *)
Definition scenarioFields (icao : string) (more : list string) : list string :=
  icao :: "SP-LRD" :: "BOE" :: "Boeing" :: "737-800" :: more.

(** A small dataset in the upstream format: a header, a row for another
    aircraft, and the row of the scenario with its twenty-seven columns. *)
Definition sampleHeader : string :=
  "icao24,registration,manufacturericao,manufacturername,model,typecode,serialnumber".

Definition otherRow : string :=
  csvRow ["4b1814"; "HB-JCS"; "BOMBARDIER"; "Bombardier"; "BD-500 1A11"; "BCS3"; "55012";
          ""; "L2J"; "Swiss"; "SWISS"; "SWR"; "LX"; "Swiss International Air Lines"; "";
          ""; ""; ""; "2017"; ""; ""; ""; "false"; "false"; "false"; ""; ""].

Definition sampleColumns : list string :=
  ["B738"; "62849"; ""; "L2J"; "LOT Polish Airlines"; "LOT"; "LOT"; "LO";
   "LOT Polish Airlines"; ""; ""; ""; ""; "2017"; ""; ""; ""; "false"; "false"; "false";
   ""; ""].

Definition sampleDataset : string :=
  dataset sampleHeader [otherRow] (csvRow (scenarioFields "48af01" sampleColumns)) "".

Definition datasetServer : World :=
  mkWorld noEnv seconds
    (fun _ _ => Failed) (fun _ _ => Failed) (fun _ _ => Failed) (fun _ _ => QueryThrows)
    (fun _ _ => Failed) (fun _ _ => Failed) (fun _ => Replied 200 (Some sampleDataset)).

(** The row as the scenario writes it: the identifier not quoted, the other
    fields quoted. *)
Definition literalRow : string :=
  "icao24," +:+ csvRow ("SP-LRD" :: "BOE" :: "Boeing" :: "737-800" :: sampleColumns).

Definition literalServer : World :=
  mkWorld noEnv seconds
    (fun _ _ => Failed) (fun _ _ => Failed) (fun _ _ => Failed) (fun _ _ => QueryThrows)
    (fun _ _ => Failed) (fun _ _ => Failed)
    (fun _ => Replied 200 (Some (dataset sampleHeader [] literalRow ""))).

(** ** The server action that calls the route *)

(** [AircraftMetadata], as [fetchAircraftMetadata] fills it. *)
Record AircraftMetadata : Type := mkAircraftMetadata {
  md_model : value;
  md_registration : value;
  md_imageUrl : value;
  md_manufacturer : value;
  md_owner : value;
  md_operator : value;
  md_yearBuilt : value;
  md_engineType : value;
  md_photoUrl : value
}.

(** The body of a response of the route as its callers read it:
    [result.success] and [result.data]. *)
Record ApiResult : Type := mkApiResult {
  r_success : bool;
  r_data : option AircraftInfo
}.

(** The query string that [fetchAircraftMetadata] builds, as the route reads it
    back: the transponder code in lower case, the callsign and the registration
    only when they are truthy. *)
Definition queryOf (icao24 : string) (callsign registration : value) : Request :=
  {| q_icao24 := Some (JS.toLowerCase icao24);
     q_registration := if truthy registration then registration else None;
     q_callsign := if truthy callsign then callsign else None |}.

(** The object built from [result.data], source lines 225-235 of
    [actions.ts]. *)
Definition metadataOf (aircraftData : AircraftInfo) : AircraftMetadata :=
  {| md_model := or_else (model aircraftData) (Some "Unknown");
     md_registration := or_else (registration aircraftData) (Some "Unknown");
     md_imageUrl := or_null (photoUrl aircraftData);
     md_manufacturer := or_null (manufacturer aircraftData);
     md_owner := or_null (owner aircraftData);
     md_operator := or_null (operator aircraftData);
     md_yearBuilt := or_null (yearBuilt aircraftData);
     md_engineType := or_null (engineType aircraftData);
     md_photoUrl := or_null (photoUrl aircraftData) |}.

(** [fetchAircraftMetadata], [actions.ts] lines 187-246; [api] is the endpoint
    [/api/aircraft-info]. *)
Definition fetchAircraftMetadata (api : Request -> nat -> HttpReply ApiResult)
    (icao24 : string) (callsign registration : value) : M (option AircraftMetadata) :=
  try_catch
    (do response <- fetch (api (queryOf icao24 callsign registration));
     if negb (ok (fst response)) then ret None else
     do result <- json (snd response);
     match r_data result with
     | Some aircraftData =>
         if r_success result then ret (Some (metadataOf aircraftData)) else ret None
     | None => ret None
     end)
    (fun error => ret None).

(** What the route puts on the wire: [NextResponse.json(body, { status })]. *)
Definition wire (r : Response) : HttpReply ApiResult :=
  match r with
  | BadRequest => Replied 400 (Some (mkApiResult false None))
  | ServerError => Replied 500 (Some (mkApiResult false None))
  | Success data _ _ => Replied 200 (Some (mkApiResult true (Some data)))
  end.

(** The endpoint served by the handler, whose module holds the caches
    [server], when the request is delivered and answered in time. *)
Definition route (w : World) (server : State) : Request -> nat -> HttpReply ApiResult :=
  fun request _ =>
    match outcome (GET w request server) with
    | Returns r => wire r
    | Throws _ => Replied 500 None
    end.

(** ** Vocabulary of the further properties *)

(** White space around a string. *)
Definition blank (s : string) : bool := forallb JS.is_white (list_ascii_of_string s).

(** The characters of a formatted registration: upper-case letters, digits and
    the dash. *)
Definition registrationChar (c : ascii) : bool :=
  JS.is_upper c || JS.is_digit c || Ascii.eqb c "-".

(** The rank of a category in the order in which the classifier tries its
    rules. *)
Definition priority (category : string) : nat :=
  if String.eqb category "A5" then 0
  else if String.eqb category "A3" then 1
  else if String.eqb category "A2" then 2
  else if String.eqb category "A1" then 3
  else if String.eqb category "B1" then 4
  else 5.

(** A token of the classifier: not empty and without white space. *)
Definition token (t : string) : bool :=
  negb (String.eqb t "") && forallb (fun c => negb (JS.is_white c)) (list_ascii_of_string t).

(** The photo endpoint of Planespotters times out; its aircraft endpoint would
    answer. *)
Definition photoTimeout : World :=
  mkWorld noEnv seconds
    (fun _ _ => Failed) (fun _ _ => Aborted)
    (fun _ _ =>
       Replied 200
         (Some (mkPlanespottersAircraftDoc false
                  [mkPlanespottersAircraft (Some "737-800") (Some "Boeing") None None None])))
    (fun _ _ => QueryThrows) (fun _ _ => Failed) (fun _ _ => Failed) (fun _ => Failed).

(** The providers in the order in which one resolution can ask them. *)
Definition schedule : list Provider :=
  [OpenSky; Supabase; Planespotters; Supabase; FlightAware; AviationStack].

Definition provider_eqb (a b : Provider) : bool :=
  match a, b with
  | OpenSky, OpenSky | Planespotters, Planespotters | Supabase, Supabase
  | FlightAware, FlightAware | AviationStack, AviationStack => true
  | _, _ => false
  end.

(** [asked] is obtained from [order] by leaving providers out. *)
Fixpoint follows (asked order : list Provider) : bool :=
  match asked, order with
  | [], _ => true
  | _ :: _, [] => false
  | a :: asked', o :: order' =>
      if provider_eqb a o then follows asked' order' else follows asked order'
  end.

(** An optional registry is asked only when its key is configured. *)
Definition configured (w : World) (st : Step) : Prop :=
  match provider st with
  | FlightAware => truthy (FLIGHTAWARE_API_KEY (env w)) = true
  | AviationStack => truthy (AVIATIONSTACK_API_KEY (env w)) = true
  | _ => True
  end.

(** Where the photo of a record comes from. *)
Definition photo_from (steps : list Step) (data : AircraftInfo) : Prop :=
  photoUrl data = None
  \/ exists st,
       In st steps
       /\ provider st = Planespotters
       /\ read (p_photoUrl (contribution st)) = photoUrl data
       /\ truthy (photoUrl data) = true.

(** A value that is [null] or a non-empty string. *)
Definition null_or_text (v : value) : Prop := v = None \/ truthy v = true.

(** Every key of a contribution other than the registration holds [null] or
    a non-empty string. *)
Definition normalised (p : PartialInfo) : Prop :=
  forall f, f <> FRegistration -> null_or_text (read (key f p)).

(** Every field of a record other than the registration holds [null] or a
    non-empty string. *)
Definition clean (a : AircraftInfo) : Prop :=
  forall f, f <> FRegistration -> null_or_text (get f a).

(** * Properties *)

(** ** Laws of the monad *)

Lemma run_eta {A} (r : Run A) : mkRun (outcome r) (calls r) (final r) = r.
Proof. now destruct r. Qed.

Section Laws.

Context {A B C : Type}.

Lemma ret_run (a : A) (s : State) : ret a s = mkRun (Returns a) [] s.
Proof. reflexivity. Qed.

Lemma bind_ret (a : A) (k : A -> M B) (s : State) : bind (ret a) k s = k a s.
Proof. unfold bind, ret. cbn. apply run_eta. Qed.

Lemma bind_throw (e : Error) (k : A -> M B) (s : State) :
  bind (throw e) k s = mkRun (Throws e) [] s.
Proof. reflexivity. Qed.

Lemma bind_returns (m : M A) (k : A -> M B) (s s' : State) (a : A) :
  m s = mkRun (Returns a) [] s' -> bind m k s = k a s'.
Proof. intros E. unfold bind. rewrite E. cbn. apply run_eta. Qed.

Lemma bind_assoc (m : M A) (k1 : A -> M B) (k2 : B -> M C) (s : State) :
  bind (bind m k1) k2 s = bind m (fun x => bind (k1 x) k2) s.
Proof.
  unfold bind. destruct (m s) as [[a | e] c s1]; cbn; [| reflexivity].
  destruct (k1 a s1) as [[b | e] c1 s2]; cbn; [| reflexivity].
  now rewrite app_assoc.
Qed.

Lemma bind_note (st : Step) (k : unit -> M B) (s : State) :
  bind (note st) k s = cons_step st (k tt s).
Proof. reflexivity. Qed.

Lemma try_catch_run (m : M A) (h : Error -> M A) (s : State) :
  try_catch m h s = catching h (m s).
Proof. reflexivity. Qed.

Lemma bind_try_catch (m : M A) (h : Error -> M A) (k : A -> M B) (s : State) :
  bind (try_catch m h) k s = and_then k (catching h (m s)).
Proof. reflexivity. Qed.

Lemma catching_returns (h : Error -> M A) (a : A) (c : list Step) (s : State) :
  catching h (mkRun (Returns a) c s) = mkRun (Returns a) c s.
Proof. reflexivity. Qed.

Lemma catching_throws (h : Error -> M A) (e : Error) (s : State) :
  catching h (mkRun (Throws e) [] s) = h e s.
Proof. unfold catching. cbn. apply run_eta. Qed.

Lemma and_then_returns (k : A -> M B) (a : A) (s : State) :
  and_then k (mkRun (Returns a) [] s) = k a s.
Proof. unfold and_then. cbn. apply run_eta. Qed.

Lemma cons_step_run (st : Step) (o : Outcome A) (c : list Step) (s : State) :
  cons_step st (mkRun o c s) = mkRun o (st :: c) s.
Proof. reflexivity. Qed.

Lemma bind_fetch {J} (endpoint : nat -> HttpReply J) (k : Z * option J -> M B) (s : State) :
  bind (fetch endpoint) k s =
  match endpoint (tick s) with
  | Aborted => mkRun (Throws AbortError) [] (advance 1 s)
  | Failed => mkRun (Throws OtherError) [] (advance 1 s)
  | Replied status body => k (status, body) (advance 1 s)
  end.
Proof.
  unfold bind, fetch. destruct (endpoint (tick s)); cbn; try reflexivity. apply run_eta.
Qed.

Lemma bind_json {J} (body : option J) (k : J -> M B) (s : State) :
  bind (json body) k s =
  match body with
  | Some j => k j s
  | None => mkRun (Throws OtherError) [] s
  end.
Proof.
  destruct body; [| reflexivity]. unfold bind, json, ret. cbn. apply run_eta.
Qed.

Lemma bind_cacheGet (cacheKey : string) (k : option (AircraftInfo * Z) -> M B) (s : State) :
  bind (cacheGet cacheKey) k s = k (apiCache s !! cacheKey) s.
Proof. unfold bind, cacheGet. cbn. apply run_eta. Qed.

End Laws.

Section WorldLaws.

Variable w : World.
Context {B : Type}.

Lemma bind_dateNow (k : Z -> M B) (s : State) :
  bind (dateNow w) k s = k (clock w (tick s)) (advance 1 s).
Proof. unfold bind, dateNow. cbn. apply run_eta. Qed.

Lemma bind_cacheSet (cacheKey : string) (a : AircraftInfo) (k : unit -> M B) (s : State) :
  bind (cacheSet w cacheKey a) k s =
  k tt (mkState (<[cacheKey := (a, clock w (tick s))]> (apiCache s))
                (openskyCSVCache s) (S (tick s))).
Proof. unfold bind, cacheSet, dateNow. cbn. apply run_eta. Qed.

Lemma bind_supabaseQuery (registration : string)
    (k : bool * option SupabaseRow -> M B) (s : State) :
  bind (supabaseQuery w registration) k s =
  match supabase_aircraft_metadata w registration (tick s) with
  | QueryThrows => mkRun (Throws OtherError) [] (advance 1 s)
  | QueryResult error data => k (error, data) (advance 1 s)
  end.
Proof.
  unfold bind, supabaseQuery.
  destruct (supabase_aircraft_metadata w registration (tick s)); cbn;
    [reflexivity | apply run_eta].
Qed.

End WorldLaws.

(** One step of evaluation of a computation applied to a state. *)
Ltac tidy :=
  cbv beta iota zeta delta [fst snd q_icao24 q_registration q_callsign];
  cbn [negb andb orb].

(** What the outcome of a test tells about the truthiness of the values it
    reads is used in the rest of the goal. *)
Ltac learn H :=
  lazymatch type of H with
  | andb _ _ = true =>
      let H1 := fresh H in
      let H2 := fresh H in
      apply andb_prop in H; destruct H as [H1 H2]; learn H1; learn H2
  | orb _ _ = false =>
      let H1 := fresh H in
      let H2 := fresh H in
      apply orb_false_elim in H; destruct H as [H1 H2]; learn H1; learn H2
  | negb _ = true => apply negb_true_iff in H; learn H
  | negb _ = false => apply negb_false_iff in H; learn H
  | truthy _ = _ => rewrite ?H
  | _ => idtac
  end.

Ltac branch :=
  match goal with
  | |- context [match ?e with _ => _ end] =>
      let H := fresh "Htest" in destruct e eqn:H; learn H
  end.

Ltac law :=
  first
    [ rewrite bind_assoc
    | rewrite bind_ret
    | rewrite bind_throw
    | rewrite bind_note
    | rewrite bind_fetch
    | rewrite bind_json
    | rewrite bind_supabaseQuery
    | rewrite bind_dateNow
    | rewrite bind_cacheGet
    | rewrite bind_cacheSet
    | rewrite bind_try_catch
    | rewrite try_catch_run
    | rewrite ret_run
    | rewrite catching_returns
    | rewrite catching_throws
    | rewrite and_then_returns
    | rewrite cons_step_run ].

(** ** Every adapter absorbs its own failures *)

Lemma or_else_truthy (a b : value) :
  or_else a (or_else b None) = None \/ truthy (or_else a (or_else b None)) = true.
Proof.
  unfold or_else. destruct (truthy a) eqn:Ha; [now right |].
  destruct (truthy b) eqn:Hb; [now right | now left].
Qed.

Section Adapters.

Variable w : World.

Ltac run_adapter := repeat (first [law | branch]; tidy).

Ltac returned :=
  eexists;
  first [ exists 0; split; [reflexivity |]
        | exists 1; split; [reflexivity |]
        | exists 2; split; [reflexivity |] ].

Lemma getOpenSkyInfo_run (icao24 : string) (s : State) :
  exists p n, getOpenSkyInfo w icao24 s = mkRun (Returns p) [] (advance n s)
              /\ metadata_only p.
Proof.
  destruct s as [api csv t]. unfold getOpenSkyInfo. run_adapter.
  all: returned; now split.
Qed.

Lemma getSupabaseAircraftInfo_run (registration : string) (s : State) :
  exists p n, getSupabaseAircraftInfo w registration s = mkRun (Returns p) [] (advance n s)
              /\ metadata_only p.
Proof.
  destruct s as [api csv t]. unfold getSupabaseAircraftInfo. run_adapter.
  all: returned; now split.
Qed.

Lemma getFlightAwareInfo_run (registration : string) (s : State) :
  exists p n, getFlightAwareInfo w registration s = mkRun (Returns p) [] (advance n s)
              /\ metadata_only p.
Proof.
  destruct s as [api csv t]. unfold getFlightAwareInfo. run_adapter.
  all: returned; now split.
Qed.

Lemma getAviationStackInfo_run (registration : string) (s : State) :
  exists p n, getAviationStackInfo w registration s = mkRun (Returns p) [] (advance n s)
              /\ metadata_only p.
Proof.
  destruct s as [api csv t]. unfold getAviationStackInfo. run_adapter.
  all: returned; now split.
Qed.

Lemma getPlanespottersInfo_run (registration : string) (s : State) :
  exists p n, getPlanespottersInfo w registration s = mkRun (Returns p) [] (advance n s)
              /\ p_category p = None /\ p_registration p = None /\ photo_well_formed p.
Proof.
  destruct s as [api csv t]. unfold getPlanespottersInfo. run_adapter.
  all: returned; (split; [reflexivity | split; [reflexivity |]]).
  all: unfold photo_well_formed; cbn; auto using or_else_truthy.
Qed.

(** *** When no provider can be reached *)

Hypothesis Hdown : unreachable w.

Ltac run_down := repeat (first [law | branch]; tidy; cbn [tick advance Nat.add]).

Ltac dead :=
  repeat match goal with
         | H : _ /\ _ |- _ => destruct H
         end;
  cbn [fst snd] in *;
  repeat match goal with
         | H : ?ep = Replied _ _, H' : context [failed ?ep] |- _ => rewrite H in H'
         | H : ?ep = QueryResult _ _, H' : context [query_failed ?ep] |- _ =>
             rewrite H in H'
         end;
  cbn [failed query_failed] in *;
  repeat match goal with
         | H : ?b = true, H' : context [?b] |- _ => rewrite H in H'
         | H : ?b = false, H' : context [?b] |- _ => rewrite H in H'
         end;
  cbn [negb orb] in *; try discriminate.

Lemma getOpenSkyInfo_down (icao24 : string) (s : State) :
  exists n, getOpenSkyInfo w icao24 s = mkRun (Returns emptyPartial) [] (advance n s).
Proof.
  destruct s as [api csv t]. pose proof (Hdown (JS.toLowerCase icao24) t).
  unfold getOpenSkyInfo. run_down; dead.
  all: now exists 1.
Qed.

Lemma getSupabaseAircraftInfo_down (registration : string) (s : State) :
  exists n,
    getSupabaseAircraftInfo w registration s = mkRun (Returns emptyPartial) [] (advance n s).
Proof.
  destruct s as [api csv t]. pose proof (Hdown registration t).
  unfold getSupabaseAircraftInfo. run_down; dead.
  all: first [now exists 0 | now exists 1].
Qed.

Lemma getFlightAwareInfo_down (registration : string) (s : State) :
  exists n,
    getFlightAwareInfo w registration s = mkRun (Returns emptyPartial) [] (advance n s).
Proof.
  destruct s as [api csv t]. pose proof (Hdown registration t).
  unfold getFlightAwareInfo. run_down; dead.
  all: first [now exists 0 | now exists 1].
Qed.

Lemma getAviationStackInfo_down (registration : string) (s : State) :
  exists n,
    getAviationStackInfo w registration s = mkRun (Returns emptyPartial) [] (advance n s).
Proof.
  destruct s as [api csv t]. pose proof (Hdown registration t).
  unfold getAviationStackInfo. run_down; dead.
  all: first [now exists 0 | now exists 1].
Qed.

Lemma getPlanespottersInfo_down (registration : string) (s : State) :
  exists p n,
    getPlanespottersInfo w registration s = mkRun (Returns p) [] (advance n s)
    /\ (p = emptyPartial \/ p = with_photoUrl None emptyPartial).
Proof.
  destruct s as [api csv t].
  pose proof (Hdown registration t). pose proof (Hdown registration (S t)).
  unfold getPlanespottersInfo. run_down; dead.
  all: eexists;
    first [ exists 1; split; [reflexivity |] | exists 2; split; [reflexivity |] ].
  all: first [now left | now right].
Qed.

End Adapters.

(** ** Running the handler symbolically *)

Ltac call_adapter :=
  match goal with
  | |- context [bind (getOpenSkyInfo ?w ?a) ?k ?s] =>
      let p := fresh "openskyInfo" in
      let E := fresh "E" in
      destruct (getOpenSkyInfo_run w a s) as (p & ? & E & ?);
      rewrite (bind_returns _ k _ _ _ E); clear E
  | |- context [bind (getSupabaseAircraftInfo ?w ?a) ?k ?s] =>
      let p := fresh "supabaseInfo" in
      let E := fresh "E" in
      destruct (getSupabaseAircraftInfo_run w a s) as (p & ? & E & ?);
      rewrite (bind_returns _ k _ _ _ E); clear E
  | |- context [bind (getFlightAwareInfo ?w ?a) ?k ?s] =>
      let p := fresh "flightAwareInfo" in
      let E := fresh "E" in
      destruct (getFlightAwareInfo_run w a s) as (p & ? & E & ?);
      rewrite (bind_returns _ k _ _ _ E); clear E
  | |- context [bind (getAviationStackInfo ?w ?a) ?k ?s] =>
      let p := fresh "aviationStackInfo" in
      let E := fresh "E" in
      destruct (getAviationStackInfo_run w a s) as (p & ? & E & ?);
      rewrite (bind_returns _ k _ _ _ E); clear E
  | |- context [bind (getPlanespottersInfo ?w ?a) ?k ?s] =>
      let p := fresh "planespottersInfo" in
      let E := fresh "E" in
      destruct (getPlanespottersInfo_run w a s) as (p & ? & E & ? & ? & ?);
      rewrite (bind_returns _ k _ _ _ E); clear E
  end.

Ltac step :=
  first
    [ law
    | call_adapter
    | progress unfold lookupByIcao24, lookupByRegistration
    | branch ];
  tidy.

Ltac exec := tidy; repeat step.

Section Handler.

Variable w : World.

Lemma supplied_check (request : Request) :
  negb (truthy (q_icao24 request)) && negb (truthy (q_registration request))
  = negb (supplied request).
Proof. unfold supplied. now rewrite negb_orb. Qed.

Lemma GET_rejects (request : Request) (s : State) :
  supplied request = false -> GET w request s = mkRun (Returns BadRequest) [] s.
Proof. intros H. unfold GET. cbv zeta. now rewrite supplied_check, H. Qed.

Lemma GET_absent (request : Request) (s : State) :
  supplied request = true ->
  apiCache s !! cacheKeyOf request = None ->
  GET w request s = resolve w request s.
Proof.
  intros H Hc. unfold GET. cbv zeta. rewrite supplied_check, H. cbn [negb].
  rewrite bind_cacheGet, Hc. now rewrite bind_ret.
Qed.

Lemma GET_fresh (request : Request) (s : State) (data : AircraftInfo) (timestamp : Z) :
  supplied request = true ->
  apiCache s !! cacheKeyOf request = Some (data, timestamp) ->
  (clock w (tick s) - timestamp < CACHE_DURATION)%Z ->
  GET w request s
  = mkRun (Returns (Success data true (cachedSources w request))) [] (advance 1 s).
Proof.
  intros H Hc Hage. unfold GET. cbv zeta. rewrite supplied_check, H. cbn [negb].
  rewrite bind_cacheGet, Hc. rewrite bind_assoc, bind_dateNow, bind_ret.
  apply Z.ltb_lt in Hage. now rewrite Hage.
Qed.

Lemma GET_stale (request : Request) (s : State) (data : AircraftInfo) (timestamp : Z) :
  supplied request = true ->
  apiCache s !! cacheKeyOf request = Some (data, timestamp) ->
  (CACHE_DURATION <= clock w (tick s) - timestamp)%Z ->
  GET w request s = resolve w request (advance 1 s).
Proof.
  intros H Hc Hage. unfold GET. cbv zeta. rewrite supplied_check, H. cbn [negb].
  rewrite bind_cacheGet, Hc. rewrite bind_assoc, bind_dateNow, bind_ret.
  apply Z.ltb_ge in Hage. now rewrite Hage.
Qed.

(** The handler either rejects the request, serves the cache, or resolves. *)
Lemma GET_cases (request : Request) (s : State) :
  (supplied request = false /\ GET w request s = mkRun (Returns BadRequest) [] s)
  \/ (supplied request = true /\
      exists data timestamp,
        apiCache s !! cacheKeyOf request = Some (data, timestamp) /\
        (clock w (tick s) - timestamp < CACHE_DURATION)%Z /\
        GET w request s
        = mkRun (Returns (Success data true (cachedSources w request))) [] (advance 1 s))
  \/ (supplied request = true /\
      exists s', apiCache s' = apiCache s /\ GET w request s = resolve w request s').
Proof.
  destruct (supplied request) eqn:H.
  - right. destruct (apiCache s !! cacheKeyOf request) as [[data timestamp] |] eqn:Hc.
    + destruct (Z.lt_ge_cases (clock w (tick s) - timestamp) CACHE_DURATION) as [Hage | Hage].
      * left. split; [reflexivity |]. exists data, timestamp. eauto using GET_fresh.
      * right. split; [reflexivity |]. exists (advance 1 s). eauto using GET_stale.
    + right. split; [reflexivity |]. exists s. eauto using GET_absent.
  - left. eauto using GET_rejects.
Qed.

End Handler.

(** ** The resolution, path by path *)

Lemma get_spread (f : Field) (a : AircraftInfo) (p : PartialInfo) :
  get f (spread a p) = overwrite (key f p) (get f a).
Proof. now destruct f. Qed.

Lemma get_takePhoto (f : Field) (a : AircraftInfo) (p : PartialInfo) :
  f <> FPhotoUrl -> get f (takePhoto p a) = get f a.
Proof. unfold takePhoto. destruct (truthy _); destruct f; cbn; congruence. Qed.

Lemma get_spreadKeepingPhoto (f : Field) (a : AircraftInfo) (p : PartialInfo) :
  f <> FPhotoUrl -> get f (spreadKeepingPhoto a p) = overwrite (key f p) (get f a).
Proof. destruct f; cbn; congruence. Qed.

Lemma photoUrl_takePhoto (a : AircraftInfo) (p : PartialInfo) :
  photoUrl (takePhoto p a)
  = if truthy (read (p_photoUrl p)) then read (p_photoUrl p) else photoUrl a.
Proof. unfold takePhoto. now destruct (truthy _). Qed.

Lemma overwrite_absent (o : option value) (old : value) :
  o = None -> overwrite o old = old.
Proof. now intros ->. Qed.

Section StepForms.

Variables (pr : Provider) (arg : string) (c : PartialInfo) (b : AircraftInfo).

Lemma overwrites_spread : overwrites_only (mkStep pr arg c b (spread b c)).
Proof.
  split; [left |]; intros f Hf; cbn; rewrite get_spread;
    [reflexivity | apply overwrite_absent].
Qed.

Lemma overwrites_takePhoto : overwrites_only (mkStep pr arg c b (takePhoto c b)).
Proof.
  split; [right |]; intros f Hf; cbn; rewrite get_takePhoto by assumption; reflexivity.
Qed.

Lemma overwrites_spreadKeepingPhoto :
  overwrites_only (mkStep pr arg c b (spreadKeepingPhoto b c)).
Proof.
  split; [left |]; intros f Hf; cbn; rewrite get_spreadKeepingPhoto by assumption;
    [reflexivity | apply overwrite_absent].
Qed.

Lemma overwrites_photo_then_spread :
  overwrites_only (mkStep pr arg c b (spreadKeepingPhoto (takePhoto c b) c)).
Proof.
  split; [left |]; intros f Hf; cbn;
    rewrite get_spreadKeepingPhoto, get_takePhoto by assumption;
    [reflexivity | apply overwrite_absent].
Qed.

End StepForms.

Section Resolution.

Variable w : World.

Ltac start request :=
  destruct request as [icao24 registrationParam callsign];
  unfold resolve, cacheKeyOf; exec.

Lemma resolve_returns (request : Request) (s : State) :
  exists data sources timestamp,
    outcome (resolve w request s) = Returns (Success data false sources)
    /\ apiCache (final (resolve w request s))
       = <[cacheKeyOf request := (data, timestamp)]> (apiCache s).
Proof.
  start request.
  all: cbn [outcome final apiCache advance].
  all: do 3 eexists; split; reflexivity.
Qed.

Lemma resolve_overwrites (request : Request) (s : State) :
  Forall overwrites_only (calls (resolve w request s)).
Proof.
  start request.
  all: cbn [calls].
  all: repeat match goal with
              | |- Forall _ [] => constructor
              | |- Forall _ (_ :: _) =>
                  constructor;
                  [ first [ apply overwrites_spread | apply overwrites_takePhoto
                          | apply overwrites_spreadKeepingPhoto
                          | apply overwrites_photo_then_spread ] |]
              end.
Qed.

End Resolution.

(** *** The photo within one resolution *)

Section Chain.

Context {A : Type} (R : A -> A -> Prop).
Hypothesis R_refl : forall a, R a a.
Hypothesis R_trans : forall a b c, R a b -> R b c -> R a c.

Lemma chain_tail (x : A) (l : list A) : chain R (x :: l) -> chain R l.
Proof. destruct l; [intros _; exact I | intros [_ H]; exact H]. Qed.

Lemma chain_head (l : list A) :
  forall x, chain R (x :: l) -> forall k y, l !! k = Some y -> R x y.
Proof.
  induction l as [| z l IH]; intros x Hc k y Hy; [discriminate |].
  destruct Hc as [Hxz Hc]. destruct k as [| k]; cbn in Hy.
  - injection Hy as <-. exact Hxz.
  - apply R_trans with z; [exact Hxz |]. now apply (IH z Hc k).
Qed.

Lemma chain_lookup (l : list A) :
  chain R l ->
  forall i j a b, i <= j -> l !! i = Some a -> l !! j = Some b -> R a b.
Proof.
  induction l as [| x l IH]; intros Hc i j a b Hij Hi Hj; [discriminate |].
  destruct i as [| i]; destruct j as [| j]; cbn in Hi, Hj.
  - injection Hi as <-. injection Hj as <-. apply R_refl.
  - injection Hi as <-. now apply (chain_head l x Hc j).
  - lia.
  - apply (IH (chain_tail x l Hc) i j); [lia | assumption | assumption].
Qed.

End Chain.

Lemma photoUrl_spread (a : AircraftInfo) (p : PartialInfo) :
  metadata_only p -> photoUrl (spread a p) = photoUrl a.
Proof. intros [H _]. cbn. now rewrite H. Qed.

Lemma photoUrl_spreadKeepingPhoto (a : AircraftInfo) (p : PartialInfo) :
  photoUrl (spreadKeepingPhoto a p) = photoUrl a.
Proof. reflexivity. Qed.

Lemma photoUrl_set_category (v : value) (a : AircraftInfo) :
  photoUrl (set_category v a) = photoUrl a.
Proof. reflexivity. Qed.

Lemma photoUrl_set_registration (v : value) (a : AircraftInfo) :
  photoUrl (set_registration v a) = photoUrl a.
Proof. reflexivity. Qed.

Lemma photoUrl_nullInfo : photoUrl nullInfo = None.
Proof. reflexivity. Qed.

Section Photo.

Variable w : World.

Ltac photo_facts :=
  repeat first
    [ rewrite photoUrl_spreadKeepingPhoto
    | rewrite photoUrl_set_category
    | rewrite photoUrl_set_registration
    | rewrite photoUrl_spread by assumption
    | rewrite photoUrl_nullInfo ].

Lemma resolve_photo (request : Request) (s : State) :
  chain keeps_photo
    (snapshots (calls (resolve w request s)) ++ [response_data (resolve w request s)])
  /\ Forall photo_asked_when_unset (calls (resolve w request s))
    /\ length (List.filter is_photo_call (calls (resolve w request s))) <= 1.
Proof.
  destruct request as [icao24 registrationParam callsign].
  unfold resolve, cacheKeyOf. exec.
  all: unfold response_data; cbn [outcome calls].
  all: split; [| split].
  all: try (cbn; lia).
  all: try (repeat match goal with
                   | |- Forall _ [] => constructor
                   | |- Forall _ (_ :: _) =>
                       constructor;
                       [ unfold photo_asked_when_unset; cbn [is_photo_call provider before];
                         intros Hp; try discriminate Hp; photo_facts; reflexivity |]
                   end).
  all: cbn [snapshots flat_map app chain before after].
  all: unfold keeps_photo.
  all: repeat split; intros u; photo_facts; try discriminate; try (intros Hu; exact Hu).
Qed.

End Photo.

(** *** The first provider asked *)

Lemma or_else_true (a b : value) : truthy a = true -> or_else a b = a.
Proof. unfold or_else. now intros ->. Qed.

Lemma or_else_false (a b : value) : truthy a = false -> or_else a b = b.
Proof. unfold or_else. now intros ->. Qed.

Lemma catching_cons_step {A} (h : Error -> M A) (st : Step) (r : Run A) :
  catching h (cons_step st r) = cons_step st (catching h r).
Proof. destruct r as [[a | e] c s]; reflexivity. Qed.

Lemma cacheKeyOf_icao24 (request : Request) :
  truthy (q_icao24 request) = true -> cacheKeyOf request = str (q_icao24 request).
Proof. intros H. unfold cacheKeyOf. now rewrite or_else_true by exact H. Qed.

Lemma cacheKeyOf_registration (request : Request) :
  truthy (q_icao24 request) = false -> truthy (q_registration request) = true ->
  cacheKeyOf request = str (q_registration request).
Proof.
  intros H1 H2. unfold cacheKeyOf.
  rewrite or_else_false by exact H1. now rewrite or_else_true by exact H2.
Qed.

Lemma resolve_first_call (w : World) (request : Request) (s : State) :
  supplied request = true ->
  exists st rest,
    calls (resolve w request s) = st :: rest
    /\ provider st = firstProvider request
    /\ argument st = cacheKeyOf request.
Proof.
  unfold supplied, firstProvider. intros Hs.
  destruct (truthy (q_icao24 request)) eqn:Hi.
  - rewrite (cacheKeyOf_icao24 request Hi).
    unfold resolve. cbv zeta. rewrite Hi, try_catch_run.
    unfold lookupByIcao24. rewrite !bind_assoc. call_adapter. cbv zeta.
    rewrite bind_assoc, bind_note, catching_cons_step. cbn [calls cons_step].
    eexists _, _. split; [reflexivity |]. now split.
  - cbn in Hs. rewrite (cacheKeyOf_registration request Hi Hs).
    unfold resolve. cbv zeta. rewrite Hi, try_catch_run, bind_ret.
    unfold lookupByRegistration. cbv zeta. cbn [registration nullInfo].
    rewrite (or_else_false None) by reflexivity. rewrite Hs. cbn [negb andb].
    rewrite bind_ret. cbn [fst snd]. rewrite Hs.
    rewrite !bind_assoc. call_adapter. cbv zeta.
    rewrite bind_assoc, bind_note, catching_cons_step. cbn [calls cons_step].
    eexists _, _. split; [reflexivity |]. now split.
Qed.

(** *** A resolution in which no provider can be reached *)

Section Unreachable.

Variable w : World.
Hypothesis Hdown : unreachable w.

Ltac call_down :=
  match goal with
  | |- context [bind (getOpenSkyInfo ?w ?a) ?k ?s] =>
      let E := fresh "E" in
      destruct (getOpenSkyInfo_down w Hdown a s) as (? & E);
      rewrite (bind_returns _ k _ _ _ E); clear E
  | |- context [bind (getSupabaseAircraftInfo ?w ?a) ?k ?s] =>
      let E := fresh "E" in
      destruct (getSupabaseAircraftInfo_down w Hdown a s) as (? & E);
      rewrite (bind_returns _ k _ _ _ E); clear E
  | |- context [bind (getFlightAwareInfo ?w ?a) ?k ?s] =>
      let E := fresh "E" in
      destruct (getFlightAwareInfo_down w Hdown a s) as (? & E);
      rewrite (bind_returns _ k _ _ _ E); clear E
  | |- context [bind (getAviationStackInfo ?w ?a) ?k ?s] =>
      let E := fresh "E" in
      destruct (getAviationStackInfo_down w Hdown a s) as (? & E);
      rewrite (bind_returns _ k _ _ _ E); clear E
  | |- context [bind (getPlanespottersInfo ?w ?a) ?k ?s] =>
      let E := fresh "E" in
      destruct (getPlanespottersInfo_down w Hdown a s) as (? & ? & E & [-> | ->]);
      rewrite (bind_returns _ k _ _ _ E); clear E
  end.

Ltac compute_data :=
  cbn [registration model manufacturer owner operator yearBuilt engineType category
       photoUrl p_registration p_model p_manufacturer p_owner p_operator p_yearBuilt
       p_engineType p_category p_photoUrl spread spreadKeepingPhoto takePhoto overwrite
       read set_registration set_category set_photoUrl with_photoUrl emptyPartial
       nullInfo truthy or_else strict_eq is_null negb andb orb getAircraftCategory].

Lemma resolve_unreachable (request : Request) (s : State) :
  response_data (resolve w request s) = worstRecord request.
Proof.
  destruct request as [icao24 registrationParam callsign].
  unfold worstRecord, resolve, cacheKeyOf. tidy.
  repeat (first [ law | call_down
                | progress unfold lookupByIcao24, lookupByRegistration
                | branch ];
          tidy; compute_data).
  all: reflexivity.
Qed.

End Unreachable.

(** ** The handler as a whole *)

Lemma GET_succeeds (w : World) (request : Request) (s : State) :
  supplied request = true ->
  exists data cached sources timestamp,
    outcome (GET w request s) = Returns (Success data cached sources)
    /\ apiCache (final (GET w request s)) !! cacheKeyOf request = Some (data, timestamp).
Proof.
  intros Hs.
  destruct (GET_cases w request s) as [[Hn _] | [(_ & data & ts & Hc & _ & E) | (_ & s' & Hs' & E)]].
  - congruence.
  - rewrite E. cbn. now exists data, true, (cachedSources w request), ts.
  - rewrite E. destruct (resolve_returns w request s') as (data & sources & ts & Ho & Hf).
    exists data, false, sources, ts. split; [exact Ho |].
    rewrite Hf. apply lookup_insert_eq.
Qed.

Lemma resolve_ignores_callsign (w : World) (icao24 registrationParam c1 c2 : value)
    (s : State) :
  truthy icao24 = false -> truthy registrationParam = true ->
  resolve w (mkRequest icao24 registrationParam c1) s
  = resolve w (mkRequest icao24 registrationParam c2) s.
Proof.
  intros Hi Hr. unfold resolve, cacheKeyOf. tidy. rewrite Hi, !try_catch_run, !bind_ret.
  unfold lookupByRegistration. cbv zeta. cbn [registration nullInfo].
  rewrite (or_else_false None) by reflexivity. rewrite Hr. reflexivity.
Qed.

Lemma adapters_total (w : World) : adapters_never_throw w.
Proof.
  intros id s. repeat split.
  - destruct (getOpenSkyInfo_run w id s) as (p & n & -> & _). now exists p.
  - destruct (getPlanespottersInfo_run w id s) as (p & n & -> & _). now exists p.
  - destruct (getSupabaseAircraftInfo_run w id s) as (p & n & -> & _). now exists p.
  - destruct (getFlightAwareInfo_run w id s) as (p & n & -> & _). now exists p.
  - destruct (getAviationStackInfo_run w id s) as (p & n & -> & _). now exists p.
Qed.

(** ** Facts about the example worlds *)

Lemma offline_unreachable : unreachable offline.
Proof. intros k t. repeat split. Qed.

(** * The claims *)

(** ** C1: merging provider results *)



(** ** C2: the photo *)

Lemma keeps_photo_refl (a : AircraftInfo) : keeps_photo a a.
Proof. now intros u. Qed.

Lemma keeps_photo_trans (a b c : AircraftInfo) :
  keeps_photo a b -> keeps_photo b c -> keeps_photo a c.
Proof. unfold keeps_photo. auto. Qed.

(** C2.  In every run of the handler, a photo URL held by the accumulator at
    some point of the resolution is still the one held at every later point and
    in the record returned; the photo provider is asked only while no photo is
    stored, and at most once per resolution, so a stored photo is never
    replaced. *)
Theorem C2_photo_set_once (w : World) (request : Request) (s : State) :
  (forall i j a b u,
      i <= j ->
      (snapshots (calls (GET w request s)) ++ [response_data (GET w request s)]) !! i = Some a ->
      (snapshots (calls (GET w request s)) ++ [response_data (GET w request s)]) !! j = Some b ->
      photoUrl a = Some u -> photoUrl b = Some u)
  /\ Forall photo_asked_when_unset (calls (GET w request s))
  /\ length (List.filter is_photo_call (calls (GET w request s))) <= 1.
Proof.
  assert (Hchain : chain keeps_photo
                     (snapshots (calls (GET w request s)) ++ [response_data (GET w request s)])
                   /\ Forall photo_asked_when_unset (calls (GET w request s))
                   /\ length (List.filter is_photo_call (calls (GET w request s))) <= 1).
  { destruct (GET_cases w request s) as [[_ E] | [(_ & d & ts & _ & _ & E) | (_ & s' & _ & E)]];
      rewrite E.
    - cbn. repeat split; [constructor | lia].
    - cbn. repeat split; [constructor | lia].
    - apply resolve_photo. }
  destruct Hchain as (Hc & Hasked & Honce). split; [| now split].
  intros i j a b u Hij Hi Hj.
  exact (chain_lookup keeps_photo keeps_photo_refl keeps_photo_trans _ Hc i j a b Hij Hi Hj u).
Qed.

Lemma C2_photo_set_once_witness :
  photoUrl (response_data (GET withPhoto byTransponder initial))
  = Some "https://t.plnspttrs.net/large.jpg".
Proof.
  apply (proj1 (C2_photo_set_once withPhoto byTransponder initial) 3 4
               (response_data (GET withPhoto byTransponder initial))
               (response_data (GET withPhoto byTransponder initial))).
  - lia.
  - vm_compute. reflexivity.
  - vm_compute. reflexivity.
  - vm_compute. reflexivity.
Defined.

(** ** C3: the classifier on the scenarios of the specification *)

(** C3, counterexample.  No token of any rule occurs in BOEING 777-300ER: the
    Heavy rule looks for the designator B777. *)
Lemma C3_boeing_777_is_not_heavy :
  getAircraftCategory (Some "Boeing 777-300ER") <> "A5".
Proof. vm_compute. discriminate. Qed.

(** C3, as amended.  The classifier returns "unknown" for "Boeing 777-300ER"
    and the Heavy code A5 for the designator form "B777-300ER"; it returns A2 for
    "ATR 72-600", A1 for "Cessna 172", B1 for "AW139" and "unknown" for null. *)
Theorem C3_classifier_scenarios :
  getAircraftCategory (Some "Boeing 777-300ER") = "unknown"
  /\ getAircraftCategory (Some "B777-300ER") = "A5"
  /\ getAircraftCategory (Some "ATR 72-600") = "A2"
  /\ getAircraftCategory (Some "Cessna 172") = "A1"
  /\ getAircraftCategory (Some "AW139") = "B1"
  /\ getAircraftCategory None = "unknown".
Proof. repeat split; vm_compute; reflexivity. Qed.

(** ** C4: the registration read off a callsign *)

Lemma scanPrefixes_find (clean : string) (prefixes : list string) :
  scanPrefixes clean prefixes
  = match find (accepts clean) prefixes with
    | Some p => Some (p +:+ "-" +:+ JS.substringFrom (String.length p) clean)
    | None => None
    end.
Proof.
  induction prefixes as [| p rest IH]; [reflexivity |].
  cbn [scanPrefixes find]. unfold accepts at 1.
  destruct (JS.startsWith p clean); [| exact IH]. cbn [andb].
  destruct (1 <=? String.length _)%nat; [| exact IH]. cbn [andb].
  destruct (String.length _ <=? 3)%nat; [| exact IH]. cbn [andb].
  destruct (upper_alnum _); [reflexivity | exact IH].
Qed.

(** C4, counterexample.  For DABC the table holds both D and DA; the loop
    stops at D, the first of them in table order, and answers D-ABC, where the
    longest matching prefix would give DA-BC. *)
Lemma C4_first_prefix_not_longest :
  extractRegistrationFromCallsign (Some "DABC") = Some "D-ABC"
  /\ deriveRegistrationFromCallsign_spec (Some "DABC") = Some "DA-BC"
  /\ extractRegistrationFromCallsign (Some "DABC")
     <> deriveRegistrationFromCallsign_spec (Some "DABC").
Proof. split; [| split]; vm_compute; first [reflexivity | discriminate]. Qed.

(** C4, as amended.  The function trims and upper-cases its input and answers
    with the FIRST prefix, in table order, that the callsign starts with and
    that leaves a rest of one to three characters of A-Z and 0-9, formatted
    PREFIX-REST; it answers null when no prefix of the table does (and for a
    null or empty callsign).  So "SPLRD" gives "SP-LRD", "SPLRD1" gives null,
    and "DABC" gives "D-ABC". *)
Theorem C4_first_accepting_prefix :
  (forall callsign : value,
      extractRegistrationFromCallsign callsign
      = match find (accepts (JS.toUpperCase (JS.trim (str callsign)))) registrationPrefixes with
        | Some p =>
            Some (p +:+ "-"
                  +:+ JS.substringFrom (String.length p)
                        (JS.toUpperCase (JS.trim (str callsign))))
        | None => None
        end)
  /\ extractRegistrationFromCallsign (Some " splrd ") = Some "SP-LRD"
  /\ extractRegistrationFromCallsign (Some "SPLRD") = Some "SP-LRD"
  /\ extractRegistrationFromCallsign (Some "SPLRD1") = None
  /\ extractRegistrationFromCallsign (Some "DABC") = Some "D-ABC".
Proof.
  split; [| repeat split; vm_compute; reflexivity].
  intros [c |].
  - unfold extractRegistrationFromCallsign. cbn [str].
    destruct (truthy (Some c)) eqn:Ht; cbn [negb].
    + apply scanPrefixes_find.
    + destruct c; [| discriminate Ht]. vm_compute. reflexivity.
  - vm_compute. reflexivity.
Qed.

(** ** C5: the identifier check *)

(** C5.  A request with neither a transponder code nor a registration (and a
    callsign from which none can be derived) is answered 400 without any
    provider invocation and without touching the module state; a request that
    supplies one of the two is never answered 400. *)
Theorem C5_insufficient_identifier (w : World) (request : Request) (s : State) :
  (truthy (q_icao24 request) = false ->
   truthy (q_registration request) = false ->
   extractRegistrationFromCallsign (q_callsign request) = None ->
   GET w request s = mkRun (Returns BadRequest) [] s)
  /\ (supplied request = true -> outcome (GET w request s) <> Returns BadRequest).
Proof.
  split.
  - intros Hi Hr _. apply GET_rejects. unfold supplied. now rewrite Hi, Hr.
  - intros Hs. destruct (GET_succeeds w request s Hs) as (d & c & src & ts & -> & _).
    discriminate.
Qed.

Lemma C5_insufficient_identifier_witness :
  GET offline (mkRequest None (Some "") (Some "RYR12AB")) initial
  = mkRun (Returns BadRequest) [] initial
  /\ outcome (GET offline byRegistration initial) <> Returns BadRequest.
Proof.
  split.
  - apply (proj1 (C5_insufficient_identifier offline
                    (mkRequest None (Some "") (Some "RYR12AB")) initial));
      vm_compute; reflexivity.
  - apply (proj2 (C5_insufficient_identifier offline byRegistration initial)).
    vm_compute. reflexivity.
Defined.

(** ** C6: the pipeline never fails *)



(** ** C7: the response cache *)



(** ** C8: failed contributions and the cache *)




(** ** C9: the bulk dataset *)

Section Strings.

Lemma append_cons (c : ascii) (s t : string) : String c s +:+ t = String c (s +:+ t).
Proof. reflexivity. Qed.

Lemma append_empty_l (t : string) : "" +:+ t = t.
Proof. reflexivity. Qed.

Lemma append_empty_r (s : string) : s +:+ "" = s.
Proof.
  induction s as [| c s IH]; [reflexivity |]. now rewrite append_cons, IH.
Qed.

Lemma append_assoc (a b c : string) : (a +:+ b) +:+ c = a +:+ (b +:+ c).
Proof.
  induction a as [| x a IH]; [reflexivity |]. now rewrite !append_cons, IH.
Qed.

Lemma lacks_append (c : ascii) (a b : string) :
  lacks c (a +:+ b) = lacks c a && lacks c b.
Proof.
  induction a as [| x a IH]; [reflexivity |].
  rewrite append_cons. cbn [lacks]. rewrite IH. now rewrite andb_assoc.
Qed.

Lemma lacks_cons (c x : ascii) (s : string) :
  lacks c (String x s) = true -> x <> c /\ lacks c s = true.
Proof.
  cbn [lacks]. intros H. apply andb_prop in H as [Hx Hs]. split; [| exact Hs].
  apply negb_true_iff, Ascii.eqb_neq in Hx. exact Hx.
Qed.

Lemma prefix_other_head (x y : ascii) (p s : string) :
  y <> x -> JS.startsWith (String x p) (String y s) = false.
Proof.
  intros H. unfold JS.startsWith. cbn [String.prefix].
  destruct (ascii_dec x y); [congruence | reflexivity].
Qed.

Lemma newline_append (t : string) : newline +:+ t = String newlineChar t.
Proof. reflexivity. Qed.

Lemma quoteCommaQuote_append (t : string) :
  quoteCommaQuote +:+ t = String JS.dquote (String ","%char (String JS.dquote t)).
Proof. reflexivity. Qed.

Lemma prefix_empty (t : string) : String.prefix "" t = true.
Proof. now destruct t. Qed.

Lemma split_at_newline (cur t : string) :
  JS.splitFrom newline 0 cur (String newlineChar t) = cur :: JS.splitFrom newline 0 "" t.
Proof.
  cbn [JS.splitFrom]. unfold JS.startsWith, newline. cbn [String.prefix].
  destruct (ascii_dec _ _) as [_ | n]; [| exfalso; apply n; reflexivity].
  now rewrite prefix_empty.
Qed.

Lemma split_at_separator (cur t : string) :
  JS.splitFrom quoteCommaQuote 0 cur
    (String JS.dquote (String ","%char (String JS.dquote t)))
  = cur :: JS.splitFrom quoteCommaQuote 0 "" t.
Proof.
  cbn [JS.splitFrom]. unfold JS.startsWith, quoteCommaQuote. cbn [String.prefix].
  repeat (destruct (ascii_dec _ _) as [_ | n]; [| exfalso; apply n; reflexivity]).
  now rewrite prefix_empty.
Qed.

(** Splitting at line feeds. *)
Lemma split_line (h : string) :
  lacks newlineChar h = true ->
  forall cur t,
    JS.splitFrom newline 0 cur (h +:+ newline +:+ t)
    = (cur +:+ h) :: JS.splitFrom newline 0 "" t.
Proof.
  induction h as [| c h IH]; intros Hh cur t.
  - now rewrite append_empty_l, append_empty_r, newline_append, split_at_newline.
  - apply lacks_cons in Hh as [Hc Hh]. rewrite append_cons. cbn [JS.splitFrom].
    unfold newline at 1. rewrite prefix_other_head by exact Hc.
    rewrite (IH Hh). now rewrite append_assoc.
Qed.

Lemma split_last_line (h : string) :
  lacks newlineChar h = true ->
  forall cur, JS.splitFrom newline 0 cur h = [cur +:+ h].
Proof.
  induction h as [| c h IH]; intros Hh cur.
  - now rewrite append_empty_r.
  - apply lacks_cons in Hh as [Hc Hh]. cbn [JS.splitFrom].
    unfold newline at 1. rewrite prefix_other_head by exact Hc.
    rewrite (IH Hh). now rewrite append_assoc.
Qed.

(** Splitting a row at the separator. *)
Lemma split_field (f : string) :
  lacks JS.dquote f = true ->
  forall cur t,
    JS.splitFrom quoteCommaQuote 0 cur (f +:+ quoteCommaQuote +:+ t)
    = (cur +:+ f) :: JS.splitFrom quoteCommaQuote 0 "" t.
Proof.
  induction f as [| c f IH]; intros Hf cur t.
  - now rewrite append_empty_l, append_empty_r, quoteCommaQuote_append, split_at_separator.
  - apply lacks_cons in Hf as [Hc Hf]. rewrite append_cons. cbn [JS.splitFrom].
    unfold quoteCommaQuote at 1. rewrite prefix_other_head by exact Hc.
    rewrite (IH Hf). now rewrite append_assoc.
Qed.

Lemma split_last_field (f : string) :
  lacks JS.dquote f = true ->
  forall cur,
    JS.splitFrom quoteCommaQuote 0 cur (f +:+ String JS.dquote "")
    = [cur +:+ f +:+ String JS.dquote ""].
Proof.
  induction f as [| c f IH]; intros Hf cur.
  - reflexivity.
  - apply lacks_cons in Hf as [Hc Hf]. rewrite append_cons. cbn [JS.splitFrom].
    unfold quoteCommaQuote at 1. rewrite prefix_other_head by exact Hc.
    rewrite (IH Hf). now rewrite append_assoc.
Qed.

Lemma removeQuotes_lacks (f : string) :
  lacks JS.dquote f = true -> JS.removeQuotes f = f.
Proof.
  induction f as [| c f IH]; [reflexivity |]. intros Hf.
  apply lacks_cons in Hf as [Hc Hf]. cbn [JS.removeQuotes].
  apply Ascii.eqb_neq in Hc. rewrite Hc. now rewrite IH.
Qed.

Lemma removeQuotes_append (a b : string) :
  JS.removeQuotes (a +:+ b) = JS.removeQuotes a +:+ JS.removeQuotes b.
Proof.
  induction a as [| c a IH]; [reflexivity |]. rewrite append_cons. cbn [JS.removeQuotes].
  destruct (Ascii.eqb c JS.dquote); [exact IH | now rewrite append_cons, IH].
Qed.

(** The values read from the fields of a row once its opening quote has been
    passed: [cur] holds what was read of the first field. *)
Lemma values_of_fields (fields : list string) :
  Forall (fun f => lacks JS.dquote f = true) fields ->
  fields <> [] ->
  forall cur,
    map JS.removeQuotes
      (JS.splitFrom quoteCommaQuote 0 cur (joinFields fields +:+ String JS.dquote ""))
    = match fields with
      | f :: rest => (JS.removeQuotes cur +:+ f) :: rest
      | [] => []
      end.
Proof.
  induction fields as [| f rest IH]; intros Hq Hne cur; [congruence |].
  inversion Hq as [| ? ? Hf Hrest]; subst.
  destruct rest as [| g rest].
  - cbn [joinFields]. rewrite split_last_field by exact Hf. cbn [map].
    rewrite !removeQuotes_append, (removeQuotes_lacks f Hf).
    change (JS.removeQuotes (String JS.dquote "")) with "".
    now rewrite append_empty_r.
  - change (joinFields (f :: g :: rest))
      with (f +:+ quoteCommaQuote +:+ joinFields (g :: rest)).
    rewrite !append_assoc. rewrite split_field by exact Hf.
    cbn [map]. rewrite removeQuotes_append, (removeQuotes_lacks f Hf).
    f_equal. rewrite (IH Hrest ltac:(discriminate) ""). reflexivity.
Qed.

Lemma row_start (f : string) (rest : list string) :
  lacks JS.dquote f = true -> lacks ","%char f = true ->
  JS.startsWith quoteCommaQuote
    (String JS.dquote (joinFields (f :: rest) +:+ String JS.dquote "")) = false.
Proof.
  intros Hq Hc. unfold JS.startsWith, quoteCommaQuote. cbn [String.prefix].
  destruct (ascii_dec _ _) as [_ | n]; [| reflexivity].
  destruct f as [| c f].
  - assert (E : exists t, joinFields ("" :: rest) +:+ String JS.dquote ""
                          = String JS.dquote t).
    { destruct rest; cbn [joinFields]; rewrite ?append_empty_l;
        rewrite ?quoteCommaQuote_append, ?append_cons; eauto. }
    destruct E as [t ->]. cbn [String.prefix].
    destruct (ascii_dec _ _) as [e | _]; [| reflexivity].
    exfalso. revert e. vm_compute. discriminate.
  - apply lacks_cons in Hc as [Hc _].
    assert (E : exists t, joinFields (String c f :: rest) +:+ String JS.dquote ""
                          = String c t).
    { destruct rest; cbn [joinFields]; rewrite append_cons; eauto. }
    destruct E as [t ->]. cbn [String.prefix].
    destruct (ascii_dec _ _) as [e | _]; [congruence | reflexivity].
Qed.

(** The values read from a row are its fields. *)
Lemma values_of_row (f : string) (rest : list string) :
  Forall (fun f => lacks JS.dquote f = true) (f :: rest) ->
  lacks ","%char f = true ->
  map JS.removeQuotes (JS.split quoteCommaQuote (csvRow (f :: rest))) = f :: rest.
Proof.
  intros Hq Hc. unfold JS.split, csvRow. cbn [JS.splitFrom].
  rewrite row_start by (try exact Hc; now inversion Hq).
  rewrite append_empty_l.
  now rewrite (values_of_fields (f :: rest) Hq ltac:(discriminate)).
Qed.

Lemma row_not_blank (t : string) : String.eqb (JS.trim (String JS.dquote t)) "" = false.
Proof.
  unfold JS.trim. cbn [JS.trimStart].
  change (JS.is_white JS.dquote) with false. cbn [JS.trimEnd].
  now destruct (JS.trimEnd t).
Qed.

(** The lines of a dataset. *)
Lemma lines_of_dataset (header row rest : string) (before : list string) :
  lacks newlineChar header = true ->
  Forall (fun line => lacks newlineChar line = true) before ->
  lacks newlineChar row = true ->
  (rest = "" \/ exists t, rest = newline +:+ t) ->
  exists more, JS.split newline (dataset header before row rest)
               = header :: before ++ row :: more.
Proof.
  intros Hh Hb Hr Hrest. unfold JS.split, dataset.
  rewrite split_line by exact Hh. rewrite append_empty_l.
  assert (E : exists more,
             JS.splitFrom newline 0 "" (linesOf before +:+ row +:+ rest)
             = before ++ row :: more).
  { induction Hb as [| line before Hl Hb IH].
    - cbn [linesOf fold_right]. rewrite append_empty_l.
      destruct Hrest as [-> | [t ->]].
      + rewrite append_empty_r, split_last_line by exact Hr. now exists [].
      + rewrite split_line by exact Hr. rewrite append_empty_l. eauto.
    - destruct IH as [more IH]. exists more.
      change (linesOf (line :: before)) with (line +:+ newline +:+ linesOf before).
      rewrite !append_assoc. rewrite split_line by exact Hl.
      rewrite append_empty_l. cbn [app]. now rewrite IH. }
  destruct E as [more ->]. now exists more.
Qed.

End Strings.

(** *** Scanning the lines *)

Section Scan.

Variable w : World.

Lemma scanLines_skips (registration : string) (before lines : list string) :
  Forall (fun line => rowMatches registration line = false) before ->
  scanLines w registration (before ++ lines) = scanLines w registration lines.
Proof.
  induction 1 as [| line before Hl Hb IH]; [reflexivity |].
  cbn [app scanLines]. unfold rowMatches in Hl.
  destruct (String.eqb (JS.trim line) ""); [exact IH |]. cbn [negb andb] in Hl.
  destruct (20 <=? _)%nat; [| exact IH]. cbn [andb] in Hl.
  now rewrite Hl.
Qed.

Lemma scanLines_finds (registration line : string) (lines : list string) (s : State) :
  rowMatches registration line = true ->
  exists s',
    scanLines w registration (line :: lines) s
    = mkRun (Returns (csvAircraftInfo
                        (map JS.removeQuotes (JS.split quoteCommaQuote line)))) [] s'
    /\ exists timestamp,
         openskyCSVCache s' !! registration
         = Some (csvAircraftInfo (map JS.removeQuotes (JS.split quoteCommaQuote line)),
                 timestamp).
Proof.
  intros H. unfold rowMatches in H.
  apply andb_prop in H as [H H3]. apply andb_prop in H as [H1 H2].
  apply negb_true_iff in H1.
  cbn [scanLines]. rewrite H1, H2, H3. cbv zeta.
  rewrite bind_dateNow. eexists. split.
  - unfold bind. cbn. reflexivity.
  - cbn. eexists. apply lookup_insert_eq.
Qed.

End Scan.

Lemma plain_quote (f : string) : plain f = true -> lacks JS.dquote f = true.
Proof. unfold plain. intros H. now apply andb_prop in H. Qed.

Lemma plain_newline (f : string) : plain f = true -> lacks newlineChar f = true.
Proof. unfold plain. intros H. now apply andb_prop in H. Qed.

Lemma lacks_newline_joinFields (fields : list string) :
  Forall (fun f => plain f = true) fields ->
  lacks newlineChar (joinFields fields) = true.
Proof.
  induction 1 as [| f rest Hf Hrest IH]; [reflexivity |].
  destruct rest as [| g rest]; [now apply plain_newline |].
  change (joinFields (f :: g :: rest))
    with (f +:+ quoteCommaQuote +:+ joinFields (g :: rest)).
  rewrite !lacks_append, IH, (plain_newline f Hf). reflexivity.
Qed.

Lemma lacks_newline_csvRow (fields : list string) :
  Forall (fun f => plain f = true) fields ->
  lacks newlineChar (csvRow fields) = true.
Proof.
  intros H. unfold csvRow. cbn [lacks]. rewrite lacks_append.
  rewrite (lacks_newline_joinFields fields H). reflexivity.
Qed.

Lemma scenario_row_matches (icao : string) (more : list string) :
  plain icao = true -> lacks ","%char icao = true ->
  Forall (fun f => plain f = true) more -> 15 <= length more ->
  map JS.removeQuotes (JS.split quoteCommaQuote (csvRow (scenarioFields icao more)))
  = scenarioFields icao more
  /\ rowMatches "SP-LRD" (csvRow (scenarioFields icao more)) = true.
Proof.
  intros Hi Hc Hm Hlen.
  assert (Hv : map JS.removeQuotes
                 (JS.split quoteCommaQuote (csvRow (scenarioFields icao more)))
               = scenarioFields icao more).
  { apply values_of_row; [| exact Hc].
    repeat (constructor; [first [now apply plain_quote | reflexivity] |]).
    eapply Forall_impl; [exact Hm |]. intros f. apply plain_quote. }
  split; [exact Hv |]. unfold rowMatches. rewrite Hv.
  unfold csvRow at 1. rewrite row_not_blank. cbn [negb andb].
  apply andb_true_intro. split; [| reflexivity].
  apply Nat.leb_le. cbn [scenarioFields length]. lia.
Qed.




(** ** C10: the callsign alone is not an identifier *)

(** C10.  A request with a callsign but neither a transponder code nor a
    registration is answered 400 at once, whatever the callsign, also when a
    registration could be derived from it (as for SPLRD).  Without a
    transponder code the callsign has no influence on the run of the handler at
    all; with one, the derivation is reached (offline, SPLRD yields the
    registration SP-LRD). *)
Theorem C10_callsign_needs_transponder (w : World) (request : Request) (s : State) :
  (truthy (q_icao24 request) = false -> truthy (q_registration request) = false ->
   GET w request s = mkRun (Returns BadRequest) [] s)
  /\ (truthy (q_icao24 request) = false ->
      forall callsign,
        GET w (mkRequest (q_icao24 request) (q_registration request) callsign) s
        = GET w request s)
  /\ (extractRegistrationFromCallsign (q_callsign byCallsignOnly) = Some "SP-LRD"
      /\ GET w byCallsignOnly s = mkRun (Returns BadRequest) [] s
      /\ registration (response_data (GET offline byTransponder initial)) = Some "SP-LRD").
Proof.
  split; [| split].
  - intros Hi Hr. apply GET_rejects. unfold supplied. now rewrite Hi, Hr.
  - intros Hi callsign. destruct request as [icao24 registrationParam c0].
    cbn [q_icao24 q_registration] in *.
    destruct (truthy registrationParam) eqn:Hr.
    + assert (Hs : forall c, supplied (mkRequest icao24 registrationParam c) = true)
        by (intros c; unfold supplied; cbn; now rewrite Hi, Hr).
      destruct (apiCache s !! cacheKeyOf (mkRequest icao24 registrationParam c0))
        as [[d ts] |] eqn:Hc.
      * destruct (Z.lt_ge_cases (clock w (tick s) - ts) CACHE_DURATION) as [Hage | Hage].
        -- now rewrite (GET_fresh w _ s d ts (Hs callsign) Hc Hage),
             (GET_fresh w _ s d ts (Hs c0) Hc Hage).
        -- rewrite (GET_stale w _ s d ts (Hs callsign) Hc Hage),
             (GET_stale w _ s d ts (Hs c0) Hc Hage).
           now apply resolve_ignores_callsign.
      * rewrite (GET_absent w _ s (Hs callsign) Hc), (GET_absent w _ s (Hs c0) Hc).
        now apply resolve_ignores_callsign.
    + rewrite !GET_rejects; [reflexivity | |]; unfold supplied; cbn; now rewrite Hi, Hr.
  - split; [vm_compute; reflexivity | split].
    + now apply GET_rejects.
    + vm_compute. reflexivity.
Qed.

Lemma C10_callsign_needs_transponder_witness :
  GET offline byCallsignOnly initial = mkRun (Returns BadRequest) [] initial
  /\ GET offline (mkRequest None (Some "SP-LRD") (Some "SPLRD")) initial
     = GET offline byRegistration initial.
Proof.
  split.
  - apply (proj1 (C10_callsign_needs_transponder offline byCallsignOnly initial));
      reflexivity.
  - apply (proj1 (proj2 (C10_callsign_needs_transponder offline byRegistration initial))).
    reflexivity.
Defined.

(** * Further properties *)

(** ** Letter case and white space *)

Section Characters.

Lemma upper_lower_char (c : ascii) : JS.upper_char (JS.lower_char c) = JS.upper_char c.
Proof. destruct c as [[] [] [] [] [] [] [] []]; reflexivity. Qed.

Lemma upper_upper_char (c : ascii) : JS.upper_char (JS.upper_char c) = JS.upper_char c.
Proof. destruct c as [[] [] [] [] [] [] [] []]; reflexivity. Qed.

Lemma lower_upper_char (c : ascii) : JS.lower_char (JS.upper_char c) = JS.lower_char c.
Proof. destruct c as [[] [] [] [] [] [] [] []]; reflexivity. Qed.

Lemma white_upper_char (c : ascii) : JS.is_white (JS.upper_char c) = JS.is_white c.
Proof. destruct c as [[] [] [] [] [] [] [] []]; reflexivity. Qed.

Lemma white_lower_char (c : ascii) : JS.is_white (JS.lower_char c) = JS.is_white c.
Proof. destruct c as [[] [] [] [] [] [] [] []]; reflexivity. Qed.

Lemma map_chars_compose (f g h : ascii -> ascii) (s : string) :
  (forall c, f (g c) = h c) ->
  JS.map_chars f (JS.map_chars g s) = JS.map_chars h s.
Proof.
  intros H. induction s as [| c s IH]; [reflexivity |]. cbn. now rewrite H, IH.
Qed.

Lemma toUpperCase_toLowerCase (s : string) :
  JS.toUpperCase (JS.toLowerCase s) = JS.toUpperCase s.
Proof. apply map_chars_compose, upper_lower_char. Qed.

Lemma toUpperCase_idempotent (s : string) :
  JS.toUpperCase (JS.toUpperCase s) = JS.toUpperCase s.
Proof. apply map_chars_compose, upper_upper_char. Qed.

Lemma toLowerCase_toUpperCase (s : string) :
  JS.toLowerCase (JS.toUpperCase s) = JS.toLowerCase s.
Proof. apply map_chars_compose, lower_upper_char. Qed.

Lemma map_chars_empty (f : ascii -> ascii) (s : string) :
  String.eqb (JS.map_chars f s) "" = String.eqb s "".
Proof. now destruct s. Qed.

Lemma truthy_map_chars (f : ascii -> ascii) (s : string) :
  truthy (Some (JS.map_chars f s)) = truthy (Some s).
Proof. unfold truthy. now rewrite map_chars_empty. Qed.

Variable f : ascii -> ascii.
Hypothesis f_white : forall c, JS.is_white (f c) = JS.is_white c.

Lemma trimStart_map_chars (s : string) :
  JS.trimStart (JS.map_chars f s) = JS.map_chars f (JS.trimStart s).
Proof.
  induction s as [| c s IH]; [reflexivity |]. cbn. rewrite f_white.
  now destruct (JS.is_white c).
Qed.

Lemma trimEnd_map_chars (s : string) :
  JS.trimEnd (JS.map_chars f s) = JS.map_chars f (JS.trimEnd s).
Proof.
  induction s as [| c s IH]; [reflexivity |]. cbn. rewrite IH, f_white.
  destruct (JS.trimEnd s); cbn; [now destruct (JS.is_white c) | reflexivity].
Qed.

Lemma trim_map_chars (s : string) :
  JS.trim (JS.map_chars f s) = JS.map_chars f (JS.trim s).
Proof. unfold JS.trim. now rewrite trimStart_map_chars, trimEnd_map_chars. Qed.

End Characters.

Lemma trim_toLowerCase (s : string) : JS.trim (JS.toLowerCase s) = JS.toLowerCase (JS.trim s).
Proof. apply trim_map_chars, white_lower_char. Qed.

Lemma trim_toUpperCase (s : string) : JS.trim (JS.toUpperCase s) = JS.toUpperCase (JS.trim s).
Proof. apply trim_map_chars, white_upper_char. Qed.

Lemma trimStart_blank (pad s : string) :
  blank pad = true -> JS.trimStart (pad +:+ s) = JS.trimStart s.
Proof.
  induction pad as [| c pad IH]; [reflexivity |]. unfold blank. cbn [list_ascii_of_string forallb].
  intros H. apply andb_prop in H as [Hc Hp]. rewrite append_cons. cbn [JS.trimStart].
  rewrite Hc. now apply IH.
Qed.

Lemma trimEnd_all_blank (pad : string) : blank pad = true -> JS.trimEnd pad = "".
Proof.
  induction pad as [| c pad IH]; [reflexivity |]. unfold blank. cbn [list_ascii_of_string forallb].
  intros H. apply andb_prop in H as [Hc Hp]. cbn [JS.trimEnd]. rewrite (IH Hp). now rewrite Hc.
Qed.

Lemma trimEnd_blank (s pad : string) :
  blank pad = true -> JS.trimEnd (s +:+ pad) = JS.trimEnd s.
Proof.
  intros H. induction s as [| c s IH].
  - rewrite append_empty_l. now apply trimEnd_all_blank.
  - rewrite append_cons. cbn [JS.trimEnd]. now rewrite IH.
Qed.

Lemma trim_blank_end (s pad : string) :
  blank pad = true -> JS.trim (s +:+ pad) = JS.trim s.
Proof.
  intros H. unfold JS.trim. induction s as [| c s IH].
  - rewrite append_empty_l. cbn [JS.trimStart].
    assert (E : JS.trimStart pad = "").
    { induction pad as [| x pad IHp]; [reflexivity |].
      unfold blank in H. cbn [list_ascii_of_string forallb] in H.
      apply andb_prop in H as [Hx Hp]. cbn [JS.trimStart]. rewrite Hx. now apply IHp. }
    now rewrite E.
  - rewrite append_cons. cbn [JS.trimStart]. destruct (JS.is_white c); [exact IH |].
    rewrite <- append_cons. now apply trimEnd_blank.
Qed.

(** Padding with white space on both sides does not change what [trim] gives. *)
Lemma trim_padded (before s after_ : string) :
  blank before = true -> blank after_ = true ->
  JS.trim (before +:+ s +:+ after_) = JS.trim s.
Proof.
  intros Hb Ha. rewrite <- (trim_blank_end s after_ Ha).
  unfold JS.trim. now rewrite trimStart_blank.
Qed.

Lemma truthy_toLowerCase (s : string) : truthy (Some (JS.toLowerCase s)) = truthy (Some s).
Proof. apply truthy_map_chars. Qed.

Lemma truthy_toUpperCase (s : string) : truthy (Some (JS.toUpperCase s)) = truthy (Some s).
Proof. apply truthy_map_chars. Qed.

(** ** The classifier *)


(** ** Registrations derived from callsigns *)

Lemma prefix_split (p s : string) :
  String.prefix p s = true -> s = p +:+ JS.substringFrom (String.length p) s.
Proof.
  revert s. induction p as [| a p IH]; intros s H; [reflexivity |].
  destruct s as [| b s]; [discriminate |]. cbn [String.prefix] in H.
  destruct (ascii_dec a b) as [-> | _]; [| discriminate].
  rewrite append_cons. cbn [String.length JS.substringFrom]. now rewrite <- IH.
Qed.

Lemma length_append (a b : string) :
  String.length (a +:+ b) = (String.length a + String.length b)%nat.
Proof.
  induction a as [| x a IH]; [reflexivity |]. rewrite append_cons. cbn [String.length].
  now rewrite IH.
Qed.

Lemma prefixes_short_alnum (p : string) :
  In p registrationPrefixes ->
  (1 <= String.length p <= 2)%nat /\ upper_alnum p = true.
Proof.
  assert (H : forallb (fun p => (1 <=? String.length p)%nat && (String.length p <=? 2)%nat
                                && upper_alnum p) registrationPrefixes = true)
    by (vm_compute; reflexivity).
  intros Hin. rewrite forallb_forall in H. specialize (H p Hin).
  apply andb_prop in H as [H Ha]. apply andb_prop in H as [H1 H2].
  apply Nat.leb_le in H1, H2. now repeat split.
Qed.

Lemma accepts_facts (clean p : string) :
  accepts clean p = true ->
  clean = p +:+ JS.substringFrom (String.length p) clean
  /\ (1 <= String.length (JS.substringFrom (String.length p) clean) <= 3)%nat
  /\ upper_alnum (JS.substringFrom (String.length p) clean) = true.
Proof.
  unfold accepts, JS.startsWith. intros H.
  apply andb_prop in H as [H Ha]. apply andb_prop in H as [H H3].
  apply andb_prop in H as [Hp H1]. apply Nat.leb_le in H1, H3.
  split; [now apply prefix_split | now repeat split].
Qed.

(** What a derived registration looks like. *)
Lemma scanPrefixes_shape (clean r : string) :
  scanPrefixes clean registrationPrefixes = Some r ->
  exists p suffix,
    In p registrationPrefixes
    /\ clean = p +:+ suffix
    /\ r = p +:+ "-" +:+ suffix
    /\ (1 <= String.length suffix <= 3)%nat
    /\ upper_alnum suffix = true.
Proof.
  rewrite scanPrefixes_find.
  destruct (find (accepts clean) registrationPrefixes) as [p |] eqn:Hf; [| discriminate].
  intros [= <-]. apply find_some in Hf as [Hin Hacc].
  apply accepts_facts in Hacc as (Hc & Hlen & Ha).
  exists p, (JS.substringFrom (String.length p) clean). repeat split; try assumption; lia.
Qed.

(** X2.  A registration derived from a callsign is a prefix of the table, a
    dash, and one to three upper-case letters or digits; prefix and suffix
    together are the whole cleaned callsign.  So only callsigns of two to five
    characters (trimmed) can give one. *)
Theorem X2_derived_registration_shape (callsign : value) (r : string) :
  extractRegistrationFromCallsign callsign = Some r ->
  exists c p suffix,
    callsign = Some c
    /\ In p registrationPrefixes
    /\ JS.toUpperCase (JS.trim c) = p +:+ suffix
    /\ r = p +:+ "-" +:+ suffix
    /\ (1 <= String.length suffix <= 3)%nat
    /\ upper_alnum suffix = true
    /\ (2 <= String.length (JS.toUpperCase (JS.trim c)) <= 5)%nat.
Proof.
  destruct callsign as [c |]; [| discriminate]. unfold extractRegistrationFromCallsign.
  destruct (negb (truthy (Some c))); [discriminate |].
  intros H. apply scanPrefixes_shape in H as (p & suffix & Hin & Hc & Hr & Hlen & Ha).
  exists c, p, suffix. repeat split; try assumption; try lia.
  - rewrite Hc, length_append. destruct (prefixes_short_alnum p Hin). lia.
  - rewrite Hc, length_append. destruct (prefixes_short_alnum p Hin). lia.
Qed.

Lemma X2_derived_registration_shape_witness :
  extractRegistrationFromCallsign (Some "splrd   ") = Some "SP-LRD"
  /\ exists c p suffix,
       Some "splrd   " = Some c
       /\ In p registrationPrefixes
       /\ JS.toUpperCase (JS.trim c) = p +:+ suffix
       /\ "SP-LRD" = p +:+ "-" +:+ suffix
       /\ (1 <= String.length suffix <= 3)%nat
       /\ upper_alnum suffix = true
       /\ (2 <= String.length (JS.toUpperCase (JS.trim c)) <= 5)%nat.
Proof.
  split; [vm_compute; reflexivity |].
  apply (X2_derived_registration_shape (Some "splrd   ") "SP-LRD"). vm_compute. reflexivity.
Defined.



Lemma registrationChar_facts (c : ascii) :
  registrationChar c = true -> JS.is_white c = false /\ JS.upper_char c = c.
Proof. destruct c as [[] [] [] [] [] [] [] []]; cbv; intros H; try discriminate; now split. Qed.

Lemma alnum_not_dash (c : ascii) :
  JS.is_upper c || JS.is_digit c = true -> negb (Ascii.eqb c "-") = true.
Proof. destruct c as [[] [] [] [] [] [] [] []]; cbv; intros H; try discriminate; reflexivity. Qed.

Lemma chars_append (a b : string) :
  list_ascii_of_string (a +:+ b) = list_ascii_of_string a ++ list_ascii_of_string b.
Proof.
  induction a as [| x a IH]; [reflexivity |]. rewrite append_cons. cbn. now rewrite IH.
Qed.

Lemma toUpperCase_registration (s : string) :
  forallb registrationChar (list_ascii_of_string s) = true -> JS.toUpperCase s = s.
Proof.
  induction s as [| c s IH]; [reflexivity |]. cbn [list_ascii_of_string forallb].
  intros H. apply andb_prop in H as [Hc Hs]. apply registrationChar_facts in Hc as [_ Hc].
  unfold JS.toUpperCase in *. cbn [JS.map_chars]. now rewrite Hc, IH.
Qed.

Lemma trimEnd_registration (s : string) :
  forallb registrationChar (list_ascii_of_string s) = true -> JS.trimEnd s = s.
Proof.
  induction s as [| c s IH]; [reflexivity |]. cbn [list_ascii_of_string forallb].
  intros H. apply andb_prop in H as [Hc Hs]. apply registrationChar_facts in Hc as [Hc _].
  cbn [JS.trimEnd]. rewrite (IH Hs). destruct s; [now rewrite Hc | reflexivity].
Qed.

Lemma trim_registration (s : string) :
  forallb registrationChar (list_ascii_of_string s) = true -> JS.trim s = s.
Proof.
  intros H. unfold JS.trim.
  assert (E : JS.trimStart s = s).
  { destruct s as [| c s]; [reflexivity |]. cbn [list_ascii_of_string forallb] in H.
    apply andb_prop in H as [Hc _]. apply registrationChar_facts in Hc as [Hc _].
    cbn [JS.trimStart]. now rewrite Hc. }
  rewrite E. now apply trimEnd_registration.
Qed.

Lemma alnum_registration (s : string) :
  upper_alnum s = true -> forallb registrationChar (list_ascii_of_string s) = true.
Proof.
  unfold upper_alnum. intros H. apply andb_prop in H as [_ H].
  induction (list_ascii_of_string s) as [| c l IH]; [reflexivity |].
  cbn [forallb] in *. apply andb_prop in H as [Hc Hl].
  rewrite (IH Hl). unfold registrationChar. now rewrite Hc.
Qed.

Lemma alnum_lacks_dash (s : string) : upper_alnum s = true -> lacks "-" s = true.
Proof.
  unfold upper_alnum. intros H. apply andb_prop in H as [_ H].
  induction s as [| c s IH]; [reflexivity |].
  cbn [list_ascii_of_string forallb lacks] in *. apply andb_prop in H as [Hc Hs].
  now rewrite (alnum_not_dash c Hc), (IH Hs).
Qed.

Lemma find_none_all {A : Type} (f : A -> bool) (l : list A) :
  (forall x, In x l -> f x = false) -> find f l = None.
Proof.
  induction l as [| x l IH]; [reflexivity |]. intros H. cbn [find].
  rewrite (H x (or_introl eq_refl)). apply IH. intros y Hy. apply H. now right.
Qed.

(** X4.  A registration that the derivation produced is never taken for a
    callsign again: deriving from a derived registration gives nothing. *)
Theorem X4_derived_registration_is_not_a_callsign (callsign : value) :
  extractRegistrationFromCallsign (extractRegistrationFromCallsign callsign) = None.
Proof.
  destruct (extractRegistrationFromCallsign callsign) as [r |] eqn:Hr; [| reflexivity].
  destruct callsign as [c |]; [| discriminate]. unfold extractRegistrationFromCallsign in Hr.
  destruct (negb (truthy (Some c))); [discriminate |].
  apply scanPrefixes_shape in Hr as (p & suffix & Hin & _ & -> & _ & Ha).
  destruct (prefixes_short_alnum p Hin) as [Hlen Hp].
  assert (Hchars : forallb registrationChar
                     (list_ascii_of_string (p +:+ "-" +:+ suffix)) = true).
  { rewrite !chars_append, !forallb_app, (alnum_registration p Hp),
      (alnum_registration suffix Ha). reflexivity. }
  unfold extractRegistrationFromCallsign.
  destruct (negb (truthy (Some (p +:+ "-" +:+ suffix)))); [reflexivity |].
  rewrite (trim_registration _ Hchars), (toUpperCase_registration _ Hchars), scanPrefixes_find.
  rewrite find_none_all; [reflexivity |].
  intros q Hq. destruct (accepts (p +:+ "-" +:+ suffix) q) eqn:Hacc; [| reflexivity].
  exfalso. apply accepts_facts in Hacc as (Hsplit & _ & Hrest).
  apply alnum_lacks_dash in Hrest.
  destruct (prefixes_short_alnum q Hq) as [_ Hqa]. apply alnum_lacks_dash in Hqa.
  assert (Hno : lacks "-" (p +:+ "-" +:+ suffix) = true)
    by (rewrite Hsplit, lacks_append, Hqa, Hrest; reflexivity).
  rewrite !lacks_append in Hno. cbn in Hno. rewrite andb_false_r in Hno. discriminate.
Qed.

(** ** Substring matching in the classifier *)

Lemma prefix_append (t s b : string) :
  String.prefix t s = true -> String.prefix t (s +:+ b) = true.
Proof.
  revert s. induction t as [| x t IH]; intros s H; [apply prefix_empty |].
  destruct s as [| c s]; [discriminate |]. rewrite append_cons. cbn [String.prefix] in *.
  destruct (ascii_dec x c); [now apply IH | discriminate].
Qed.

Lemma includes_append_l (t a s : string) :
  JS.includes t s = true -> JS.includes t (a +:+ s) = true.
Proof.
  intros H. induction a as [| x a IH]; [exact H |].
  rewrite append_cons. cbn [JS.includes]. rewrite IH. apply orb_true_r.
Qed.

Lemma includes_append_r (t s b : string) :
  JS.includes t s = true -> JS.includes t (s +:+ b) = true.
Proof.
  induction s as [| c s IH]; intros H.
  - cbn [JS.includes] in H. rewrite orb_false_r in H.
    destruct t as [| x t]; [| discriminate].
    rewrite append_empty_l.
    destruct b; cbn [JS.includes]; unfold JS.startsWith; now rewrite prefix_empty.
  - rewrite append_cons. cbn [JS.includes] in *. apply orb_true_iff in H as [H | H].
    + unfold JS.startsWith in *. rewrite <- append_cons, (prefix_append _ _ _ H). reflexivity.
    + rewrite (IH H). apply orb_true_r.
Qed.

Lemma trimStart_decompose (s : string) : exists pad, s = pad +:+ JS.trimStart s.
Proof.
  induction s as [| c s [pad IH]]; [now exists "" |]. cbn [JS.trimStart].
  destruct (JS.is_white c); [| now exists ""].
  exists (String c pad). rewrite append_cons. now rewrite <- IH.
Qed.

Lemma trimEnd_decompose (s : string) : exists pad, s = JS.trimEnd s +:+ pad.
Proof.
  induction s as [| c s [pad IH]]; [now exists "" |]. cbn [JS.trimEnd].
  destruct (JS.trimEnd s) as [| a r] eqn:E.
  - destruct (JS.is_white c).
    + exists (String c s). now rewrite append_empty_l.
    + exists pad. rewrite append_cons, append_empty_l.
      rewrite append_empty_l in IH. now rewrite <- IH.
  - exists pad. rewrite append_cons. now rewrite <- IH.
Qed.

Lemma includes_of_trim (t s : string) :
  JS.includes t (JS.trim s) = true -> JS.includes t s = true.
Proof.
  unfold JS.trim. intros H.
  destruct (trimStart_decompose s) as [pre Hs].
  destruct (trimEnd_decompose (JS.trimStart s)) as [post Hm].
  rewrite Hs. apply includes_append_l. rewrite Hm. now apply includes_append_r.
Qed.

Lemma includes_empty (t : string) : token t = true -> JS.includes t "" = false.
Proof. destruct t; [discriminate | reflexivity]. Qed.

Lemma includes_trimStart (t s : string) :
  token t = true -> JS.includes t s = true -> JS.includes t (JS.trimStart s) = true.
Proof.
  intros Ht. induction s as [| c s IH]; intros H; [exact H |].
  cbn [JS.trimStart]. destruct (JS.is_white c) eqn:Hc; [| exact H].
  apply IH. cbn [JS.includes] in H. apply orb_true_iff in H as [H | H]; [| exact H].
  exfalso. destruct t as [| x t]; [discriminate |].
  unfold token in Ht. cbn [list_ascii_of_string forallb] in Ht.
  apply andb_prop in Ht as [_ Ht]. apply andb_prop in Ht as [Hx _].
  unfold JS.startsWith in H. cbn [String.prefix] in H.
  destruct (ascii_dec x c) as [-> | _]; [| discriminate].
  rewrite Hc in Hx. discriminate.
Qed.

Lemma prefix_trimEnd (t s : string) :
  forallb (fun c => negb (JS.is_white c)) (list_ascii_of_string t) = true ->
  String.prefix t s = true -> String.prefix t (JS.trimEnd s) = true.
Proof.
  revert t. induction s as [| c s IH]; intros t Ht H.
  - exact H.
  - destruct t as [| x t]; [apply prefix_empty |].
    cbn [list_ascii_of_string forallb] in Ht. apply andb_prop in Ht as [Hx Ht].
    cbn [String.prefix] in H. destruct (ascii_dec x c) as [-> | _]; [| discriminate].
    specialize (IH t Ht H). cbn [JS.trimEnd].
    destruct (JS.trimEnd s) as [| a r].
    + destruct t as [| y t]; [| discriminate].
      apply negb_true_iff in Hx. rewrite Hx. cbn [String.prefix].
      destruct (ascii_dec c c); [reflexivity | congruence].
    + cbn [String.prefix]. destruct (ascii_dec c c); [exact IH | congruence].
Qed.

Lemma includes_trimEnd (t s : string) :
  token t = true -> JS.includes t s = true -> JS.includes t (JS.trimEnd s) = true.
Proof.
  intros Ht. induction s as [| c s IH]; intros H; [exact H |].
  assert (Hw : forallb (fun c => negb (JS.is_white c)) (list_ascii_of_string t) = true)
    by (unfold token in Ht; now apply andb_prop in Ht as [_ Ht]).
  cbn [JS.includes] in H. apply orb_true_iff in H as [H | H].
  - apply (prefix_trimEnd t _ Hw) in H.
    destruct (JS.trimEnd (String c s)); cbn [JS.includes]; unfold JS.startsWith;
      now rewrite H.
  - specialize (IH H). cbn [JS.trimEnd].
    destruct (JS.trimEnd s) as [| a r]; [now rewrite includes_empty in IH |].
    cbn [JS.includes] in *. rewrite IH. apply orb_true_r.
Qed.

Lemma includes_trim (t s : string) :
  token t = true -> JS.includes t s = true -> JS.includes t (JS.trim s) = true.
Proof.
  intros Ht H. unfold JS.trim. now apply includes_trimEnd, includes_trimStart.
Qed.

Lemma map_chars_append (f : ascii -> ascii) (a b : string) :
  JS.map_chars f (a +:+ b) = JS.map_chars f a +:+ JS.map_chars f b.
Proof.
  induction a as [| x a IH]; [reflexivity |].
  rewrite append_cons. cbn [JS.map_chars]. now rewrite IH, append_cons.
Qed.

(** A token found in a model is found in any text that contains the model. *)
Lemma any_included_decorated (tokens : list string) (before m after_ : string) :
  forallb token tokens = true ->
  any_included tokens (JS.trim (JS.toUpperCase m)) = true ->
  any_included tokens (JS.trim (JS.toUpperCase (before +:+ m +:+ after_))) = true.
Proof.
  unfold any_included. intros Ht H.
  apply existsb_exists in H as (t & Hin & H). apply existsb_exists. exists t. split; [exact Hin |].
  rewrite forallb_forall in Ht. apply includes_trim; [now apply Ht |].
  unfold JS.toUpperCase. rewrite !map_chars_append.
  apply includes_append_l, includes_append_r. now apply includes_of_trim.
Qed.

(** X5.  Text added before or after a model never moves it to a later rule of
    the classifier: a model classified Heavy stays Heavy, one classified Medium
    stays Medium or becomes Heavy, and so on. *)
Theorem X5_decoration_never_demotes (before m after_ : string) :
  (priority (getAircraftCategory (Some (before +:+ m +:+ after_)))
   <= priority (getAircraftCategory (Some m)))%nat.
Proof.
  unfold getAircraftCategory.
  destruct m as [| x m].
  { cbn [truthy String.eqb negb].
    repeat match goal with |- context [if ?b then _ else _] => destruct b end;
      vm_compute; lia. }
  assert (E : truthy (Some (before +:+ String x m +:+ after_)) = true).
  { unfold truthy. apply negb_true_iff, String.eqb_neq.
    destruct before; [rewrite append_empty_l, append_cons | rewrite append_cons];
      discriminate. }
  rewrite E. cbn [truthy String.eqb negb]. cbv zeta.
  repeat match goal with
  | |- context [any_included ?ts (JS.trim (JS.toUpperCase (String x m)))] =>
      let H := fresh "H" in
      destruct (any_included ts (JS.trim (JS.toUpperCase (String x m)))) eqn:H;
      [apply (any_included_decorated ts before _ after_ eq_refl) in H; rewrite ?H |]
  end;
  repeat match goal with |- context [if ?b then _ else _] => destruct b end;
  vm_compute; lia.
Qed.

(** ** The adapters *)

Ltac run_all := repeat (first [law | branch]; tidy).

(** X6.  A registry that is not configured is not contacted: without its API
    key FlightAware, and likewise Aviation Stack, answers with the empty object
    at once, and so does the Supabase adapter when the URL or the service key is
    missing.  No interaction with the outside takes place. *)
Theorem X6_unconfigured_registries_are_silent (w : World) (registration : string) (s : State) :
  (truthy (FLIGHTAWARE_API_KEY (env w)) = false ->
   getFlightAwareInfo w registration s = mkRun (Returns emptyPartial) [] s)
  /\ (truthy (AVIATIONSTACK_API_KEY (env w)) = false ->
      getAviationStackInfo w registration s = mkRun (Returns emptyPartial) [] s)
  /\ (truthy (NEXT_PUBLIC_SUPABASE_URL (env w)) = false
      \/ truthy (SUPABASE_SERVICE_ROLE_KEY (env w)) = false ->
      getSupabaseAircraftInfo w registration s = mkRun (Returns emptyPartial) [] s).
Proof.
  repeat split.
  - intros H. unfold getFlightAwareInfo. cbv zeta. now rewrite H.
  - intros H. unfold getAviationStackInfo. cbv zeta. now rewrite H.
  - intros H. unfold getSupabaseAircraftInfo. cbv zeta.
    destruct H as [H | H]; rewrite H; [reflexivity |].
    now rewrite orb_true_r.
Qed.

Lemma X6_unconfigured_registries_are_silent_witness :
  getFlightAwareInfo offline "SP-LRD" initial = mkRun (Returns emptyPartial) [] initial
  /\ getAviationStackInfo offline "SP-LRD" initial = mkRun (Returns emptyPartial) [] initial
  /\ getSupabaseAircraftInfo offline "SP-LRD" initial = mkRun (Returns emptyPartial) [] initial.
Proof.
  destruct (X6_unconfigured_registries_are_silent offline "SP-LRD" initial) as (F & A & S).
  split; [apply F; reflexivity |]. split; [apply A; reflexivity |].
  apply S. left. reflexivity.
Defined.

(** X7.  When the photo endpoint of Planespotters answers with a photo, the
    adapter returns its large thumbnail, or else its small one, whatever the
    aircraft endpoint does afterwards (it may time out, fail or answer
    anything): both endpoints are asked and the photo is kept. *)
Theorem X7_photo_survives_aircraft_failure
    (w : World) (registration : string) (s : State)
    (status : Z) (firstPhoto : Photo) (others : list Photo) :
  planespotters_photos w registration (tick s) = Replied status (Some (firstPhoto :: others)) ->
  ok status = true ->
  exists p,
    outcome (getPlanespottersInfo w registration s) = Returns p
    /\ p_photoUrl p
       = Some (or_else (thumbnail_large_src firstPhoto)
                       (or_else (thumbnail_src firstPhoto) None))
    /\ p_registration p = None
    /\ final (getPlanespottersInfo w registration s) = advance 2 s.
Proof.
  intros Hphotos Hok. destruct s as [api csv t]. cbn [tick] in Hphotos.
  unfold getPlanespottersInfo.
  rewrite try_catch_run, bind_fetch. cbn [tick]. rewrite Hphotos. tidy. rewrite Hok.
  run_all; eexists; repeat split.
Qed.

Lemma X7_photo_survives_aircraft_failure_witness :
  exists p,
    outcome (getPlanespottersInfo withPhoto "SP-LRD" initial) = Returns p
    /\ p_photoUrl p
       = Some (or_else (Some "https://t.plnspttrs.net/large.jpg")
                       (or_else (Some "https://t.plnspttrs.net/small.jpg") None))
    /\ p_registration p = None
    /\ final (getPlanespottersInfo withPhoto "SP-LRD" initial) = advance 2 initial.
Proof.
  apply (X7_photo_survives_aircraft_failure withPhoto "SP-LRD" initial 200
           (mkPhoto (Some "https://t.plnspttrs.net/large.jpg")
                    (Some "https://t.plnspttrs.net/small.jpg")) []);
    reflexivity.
Defined.



(** ** The handler *)

(** The ways in which the handler runs: it rejects the request, serves a fresh
    cache entry, or resolves (after reading the clock when the entry is
    stale). *)
Lemma GET_runs (w : World) (request : Request) (s : State) :
  (supplied request = false /\ GET w request s = mkRun (Returns BadRequest) [] s)
  \/ (supplied request = true /\
      exists data timestamp,
        apiCache s !! cacheKeyOf request = Some (data, timestamp)
        /\ GET w request s
           = mkRun (Returns (Success data true (cachedSources w request))) [] (advance 1 s))
  \/ (supplied request = true /\
      (GET w request s = resolve w request s
       \/ GET w request s = resolve w request (advance 1 s))).
Proof.
  destruct (supplied request) eqn:Hs; [| left; split; [reflexivity | now apply GET_rejects]].
  right. destruct (apiCache s !! cacheKeyOf request) as [[data ts] |] eqn:Hc.
  - destruct (Z_lt_le_dec (clock w (tick s) - ts) CACHE_DURATION) as [Hf | Hf].
    + left. split; [reflexivity |]. exists data, ts. split; [reflexivity |].
      now apply (GET_fresh w request s data ts).
    + right. split; [reflexivity |]. right. now apply (GET_stale w request s data ts).
  - right. split; [reflexivity |]. left. now apply GET_absent.
Qed.

Section Resolving.

Variable w : World.

Ltac impossible :=
  match goal with
  | H : true = false |- _ => discriminate H
  | H : false = true |- _ => discriminate H
  end.

Ltac start request :=
  destruct request as [icao24 registrationParam callsign];
  unfold resolve, cacheKeyOf; exec; try impossible.

Lemma resolve_schedule (request : Request) (s : State) :
  follows (map provider (calls (resolve w request s))) schedule = true
  /\ Forall (configured w) (calls (resolve w request s)).
Proof.
  start request.
  all: cbn [calls map provider]; split; [reflexivity |].
  all: repeat match goal with
              | |- Forall _ [] => constructor
              | |- Forall _ (_ :: _) =>
                  constructor; [unfold configured; cbn [provider]; first [exact I | assumption] |]
              end.
Qed.

Lemma resolve_state (request : Request) (s : State) :
  (exists entry,
     apiCache (final (resolve w request s)) = <[cacheKeyOf request := entry]> (apiCache s))
  /\ openskyCSVCache (final (resolve w request s)) = openskyCSVCache s
  /\ tick s < tick (final (resolve w request s)).
Proof.
  destruct s as [api csv t]. start request.
  all: cbn [final advance apiCache openskyCSVCache tick].
  all: split; [eexists; reflexivity | split; [reflexivity | lia]].
Qed.

Lemma category_takePhoto (p : PartialInfo) (a : AircraftInfo) :
  category (takePhoto p a) = category a.
Proof. unfold takePhoto. now destruct (truthy _). Qed.

Lemma model_takePhoto (p : PartialInfo) (a : AircraftInfo) :
  model (takePhoto p a) = model a.
Proof. unfold takePhoto. now destruct (truthy _). Qed.

Lemma category_set_category (v : value) (a : AircraftInfo) :
  category (set_category v a) = v.
Proof. reflexivity. Qed.

Lemma model_set_category (v : value) (a : AircraftInfo) :
  model (set_category v a) = model a.
Proof. reflexivity. Qed.

Lemma resolve_category (request : Request) (s : State) :
  category (response_data (resolve w request s))
  = Some (getAircraftCategory (model (response_data (resolve w request s)))).
Proof.
  start request.
  all: unfold response_data; cbn [outcome].
  all: repeat first [ rewrite category_takePhoto | rewrite model_takePhoto
                    | rewrite category_set_category | rewrite model_set_category ].
  all: reflexivity.
Qed.

Ltac photo_facts :=
  repeat first
    [ rewrite photoUrl_spreadKeepingPhoto
    | rewrite photoUrl_set_category
    | rewrite photoUrl_set_registration
    | rewrite photoUrl_spread by assumption
    | rewrite photoUrl_nullInfo ].

Lemma resolve_photo_from (request : Request) (s : State) :
  photo_from (calls (resolve w request s)) (response_data (resolve w request s)).
Proof.
  start request.
  all: unfold response_data, photo_from; cbn [outcome calls].
  all: photo_facts; try (left; reflexivity).
  all: rewrite photoUrl_takePhoto.
  all: match goal with
       | |- context [if truthy ?v then _ else _] =>
           let H := fresh "Hphoto" in destruct (truthy v) eqn:H
       end.
  all: photo_facts; try (left; reflexivity).
  all: right.
  all: match goal with
       | |- context [mkStep Planespotters ?a ?c ?b ?r] => exists (mkStep Planespotters a c b r)
       end.
  all: split; [cbn [In]; tauto | cbn [provider contribution]; repeat split; assumption].
Qed.

End Resolving.

(** X9.  Whatever the request and the state of the cache, the providers that
    one run of the handler asks are taken, in this order, from: OpenSky,
    Supabase, Planespotters, Supabase, FlightAware, Aviation Stack.  So there
    are at most six invocations, OpenSky is only asked first, and FlightAware
    and Aviation Stack are asked last, at most once and only when their API key
    is configured. *)
Theorem X9_providers_follow_the_schedule (w : World) (request : Request) (s : State) :
  follows (map provider (calls (GET w request s))) schedule = true
  /\ Forall (configured w) (calls (GET w request s))
  /\ length (calls (GET w request s)) <= 6.
Proof.
  assert (Hlen : forall asked order, follows asked order = true -> length asked <= length order).
  { intros asked order. revert asked.
    induction order as [| o order IH]; intros [| a asked] H; cbn in *; try lia; try discriminate.
    destruct (provider_eqb a o).
    - apply IH in H. lia.
    - apply IH in H. cbn in H. lia. }
  assert (H : follows (map provider (calls (GET w request s))) schedule = true
              /\ Forall (configured w) (calls (GET w request s))).
  { destruct (GET_runs w request s) as [[_ E] | [(_ & data & ts & _ & E) | [_ [E | E]]]];
      rewrite E; try (split; [reflexivity | constructor]); apply resolve_schedule. }
  destruct H as [H1 H2]. repeat split; try assumption.
  apply Hlen in H1. now rewrite length_map in H1.
Qed.

(** X10.  A run of the handler leaves every cache entry other than the one of
    its own key as it was, and never touches the cache of the bulk dataset: the
    handler does not consult the OpenSky CSV dump at all. *)
Theorem X10_only_own_cache_entry_changes
    (w : World) (request : Request) (s : State) (other : string) :
  other <> cacheKeyOf request ->
  apiCache (final (GET w request s)) !! other = apiCache s !! other
  /\ openskyCSVCache (final (GET w request s)) = openskyCSVCache s.
Proof.
  intros Hother.
  destruct (GET_runs w request s) as [[_ E] | [(_ & data & ts & _ & E) | [_ [E | E]]]];
    rewrite E; cbn [final advance apiCache openskyCSVCache]; try (split; reflexivity).
  - destruct (resolve_state w request s) as ([entry ->] & -> & _).
    split; [| reflexivity]. now apply lookup_insert_ne.
  - destruct (resolve_state w request (advance 1 s)) as ([entry ->] & -> & _).
    split; [| reflexivity]. cbn [advance apiCache]. now apply lookup_insert_ne.
Qed.

Lemma X10_only_own_cache_entry_changes_witness :
  apiCache (final (GET twoSources byTransponder initial)) !! "SP-LRD"
  = apiCache initial !! "SP-LRD"
  /\ openskyCSVCache (final (GET twoSources byTransponder initial)) = openskyCSVCache initial.
Proof.
  apply (X10_only_own_cache_entry_changes twoSources byTransponder initial "SP-LRD").
  vm_compute. discriminate.
Defined.

(** X11.  The category of a record that the handler has just resolved (not
    taken from the cache) is what the classifier gives for the model of that
    record; it is never null. *)
Theorem X11_category_is_classified_model
    (w : World) (request : Request) (s : State) (data : AircraftInfo) (sources : Sources) :
  outcome (GET w request s) = Returns (Success data false sources) ->
  category data = Some (getAircraftCategory (model data)).
Proof.
  intros H.
  destruct (GET_runs w request s) as [[_ E] | [(_ & d & ts & _ & E) | [_ [E | E]]]];
    rewrite E in H; try discriminate H.
  - pose proof (resolve_category w request s) as Hc. unfold response_data in Hc.
    now rewrite H in Hc.
  - pose proof (resolve_category w request (advance 1 s)) as Hc. unfold response_data in Hc.
    now rewrite H in Hc.
Qed.

Lemma X11_category_is_classified_model_witness :
  exists data sources,
    outcome (GET withPhoto byTransponder initial) = Returns (Success data false sources)
    /\ category data = Some (getAircraftCategory (model data)).
Proof.
  eexists; eexists. split; [vm_compute; reflexivity |].
  eapply (X11_category_is_classified_model withPhoto byTransponder initial).
  vm_compute. reflexivity.
Defined.

(** X12.  The photo of a record that the handler has just resolved is null, or
    it is the non-empty URL that a Planespotters invocation of this very run
    returned: no other provider and no request parameter can set it. *)
Theorem X12_photo_comes_from_planespotters
    (w : World) (request : Request) (s : State) (data : AircraftInfo) (sources : Sources) :
  outcome (GET w request s) = Returns (Success data false sources) ->
  photo_from (calls (GET w request s)) data.
Proof.
  intros H.
  destruct (GET_runs w request s) as [[_ E] | [(_ & d & ts & _ & E) | [_ [E | E]]]];
    rewrite E in H |- *; try discriminate H.
  - pose proof (resolve_photo_from w request s) as Hc. unfold response_data in Hc.
    now rewrite H in Hc.
  - pose proof (resolve_photo_from w request (advance 1 s)) as Hc. unfold response_data in Hc.
    now rewrite H in Hc.
Qed.

Lemma X12_photo_comes_from_planespotters_witness :
  exists data sources,
    outcome (GET withPhoto byTransponder initial) = Returns (Success data false sources)
    /\ photoUrl data = Some "https://t.plnspttrs.net/large.jpg"
    /\ photo_from (calls (GET withPhoto byTransponder initial)) data.
Proof.
  eexists; eexists. split; [vm_compute; reflexivity |]. split; [reflexivity |].
  eapply (X12_photo_comes_from_planespotters withPhoto byTransponder initial).
  vm_compute. reflexivity.
Defined.

(** ** The early return of the handler *)

Lemma get_spread_nullInfo (f : Field) (p : PartialInfo) :
  get f (spread nullInfo p) = read (key f p).
Proof. rewrite get_spread. destruct f; cbn; now destruct (_ p). Qed.

Lemma get_set_category (f : Field) (v : value) (a : AircraftInfo) :
  f <> FCategory -> get f (set_category v a) = get f a.
Proof. destruct f; intros H; try reflexivity. congruence. Qed.

Section EarlyReturn.

Variable w : World.

Ltac impossible :=
  match goal with
  | H : true = false |- _ => discriminate H
  | H : false = true |- _ => discriminate H
  end.

(** The handler asks Supabase, or goes on to the search by registration, only
    when OpenSky gave no model. *)
Ltac model_known :=
  match goal with
  | Hm : truthy ?m = true,
    H : negb (truthy ?m) || strict_eq ?m "" || is_null ?m = true |- _ =>
      exfalso; rewrite Hm in H; revert Hm H; generalize m; intros [? |] Hm H; cbn in Hm, H;
      [apply negb_true_iff in Hm; rewrite Hm in H; discriminate H | discriminate Hm]
  | Hm : truthy (read (p_model ?p)) = true,
    H : truthy (model (spread nullInfo ?p)) = false |- _ =>
      exfalso; change (model (spread nullInfo p)) with (get FModel (spread nullInfo p)) in H;
      rewrite get_spread_nullInfo in H; cbn [key] in H; congruence
  end.

Lemma resolve_known_model (request : Request) (s : State) (st : Step) (rest : list Step) :
  calls (resolve w request s) = st :: rest ->
  provider st = OpenSky ->
  truthy (read (p_model (contribution st))) = true ->
  (rest = [] \/ exists next, rest = [next] /\ provider next = Planespotters)
  /\ forall f, f <> FPhotoUrl -> f <> FCategory ->
       get f (response_data (resolve w request s)) = read (key f (contribution st)).
Proof.
  revert st rest.
  destruct request as [icao24 registrationParam callsign].
  unfold resolve, cacheKeyOf. exec; try impossible.
  all: unfold response_data; cbn [calls outcome].
  all: intros st rest Hc Hp Hm; try discriminate Hc.
  all: injection Hc as <- <-; cbn [provider contribution] in Hp, Hm; try discriminate Hp.
  all: try model_known.
  all: split; [first [left; reflexivity | right; eexists; split; reflexivity] |].
  all: intros f Hf Hcat; cbn [contribution].
  all: rewrite ?get_takePhoto by assumption.
  all: rewrite get_set_category by assumption.
  all: apply get_spread_nullInfo.
Qed.

End EarlyReturn.

(** X13.  When OpenSky knows the model of the aircraft, the handler stops
    searching: nobody else is asked, except Planespotters once for the photo if
    OpenSky also gave a registration, and every field of the record other than
    the photo and the category is what OpenSky sent.  The registration and the
    callsign of the request, Supabase, FlightAware and Aviation Stack play no
    part. *)
Theorem X13_known_model_ends_the_search
    (w : World) (request : Request) (s : State) (st : Step) (rest : list Step) :
  calls (GET w request s) = st :: rest ->
  provider st = OpenSky ->
  truthy (read (p_model (contribution st))) = true ->
  (rest = [] \/ exists next, rest = [next] /\ provider next = Planespotters)
  /\ forall f, f <> FPhotoUrl -> f <> FCategory ->
       get f (response_data (GET w request s)) = read (key f (contribution st)).
Proof.
  destruct (GET_runs w request s) as [[_ E] | [(_ & d & ts & _ & E) | [_ [E | E]]]];
    rewrite E; try discriminate; apply resolve_known_model.
Qed.

Lemma X13_known_model_ends_the_search_witness :
  exists st rest,
    calls (GET withPhoto byTransponder initial) = st :: rest
    /\ (rest = [] \/ exists next, rest = [next] /\ provider next = Planespotters)
    /\ forall f, f <> FPhotoUrl -> f <> FCategory ->
         get f (response_data (GET withPhoto byTransponder initial))
         = read (key f (contribution st)).
Proof.
  eexists; eexists. split; [vm_compute; reflexivity |].
  apply (X13_known_model_ends_the_search withPhoto byTransponder initial);
    vm_compute; reflexivity.
Defined.

(** ** The cache key *)



(** ** Empty parameters *)

Lemma bind_ext {A B} (m : M A) (k1 k2 : A -> M B) (s : State) :
  (forall a s', k1 a s' = k2 a s') -> bind m k1 s = bind m k2 s.
Proof.
  intros H. unfold bind. destruct (m s) as [[a | e] c s1]; cbn; [| reflexivity].
  now rewrite H.
Qed.

(** Running both sides of an equation between two runs: the result of an
    adapter is named once and used on both sides. *)
Ltac settle E :=
  repeat match goal with
         | |- context [bind ?m ?k ?s] =>
             match type of E with
             | m s = _ => rewrite (bind_returns m k _ _ _ E)
             end
         end.

Ltac call_both :=
  match goal with
  | |- context [bind (getOpenSkyInfo ?w ?a) _ ?s] =>
      let p := fresh "openskyInfo" in
      let E := fresh "E" in
      destruct (getOpenSkyInfo_run w a s) as (p & ? & E & ?); settle E; clear E
  | |- context [bind (getSupabaseAircraftInfo ?w ?a) _ ?s] =>
      let p := fresh "supabaseInfo" in
      let E := fresh "E" in
      destruct (getSupabaseAircraftInfo_run w a s) as (p & ? & E & ?); settle E; clear E
  | |- context [bind (getFlightAwareInfo ?w ?a) _ ?s] =>
      let p := fresh "flightAwareInfo" in
      let E := fresh "E" in
      destruct (getFlightAwareInfo_run w a s) as (p & ? & E & ?); settle E; clear E
  | |- context [bind (getAviationStackInfo ?w ?a) _ ?s] =>
      let p := fresh "aviationStackInfo" in
      let E := fresh "E" in
      destruct (getAviationStackInfo_run w a s) as (p & ? & E & ?); settle E; clear E
  | |- context [bind (getPlanespottersInfo ?w ?a) _ ?s] =>
      let p := fresh "planespottersInfo" in
      let E := fresh "E" in
      destruct (getPlanespottersInfo_run w a s) as (p & ? & E & ? & ? & ?); settle E; clear E
  end.

Ltac known_values :=
  change (truthy (Some "")) with false; change (truthy None) with false.

Ltac step_both :=
  first
    [ law
    | call_both
    | progress unfold lookupByIcao24, lookupByRegistration
    | branch ];
  known_values; tidy.

Ltac exec_both := tidy; repeat step_both.

Section EmptyParameters.

Variable w : World.

Lemma lookupByRegistration_empty_registration
    (icao24 callsign : value) (cacheKey : string) (a : AircraftInfo) (s : State) :
  lookupByRegistration w icao24 (Some "") callsign cacheKey a s
  = lookupByRegistration w icao24 None callsign cacheKey a s.
Proof.
  unfold lookupByRegistration.
  destruct (truthy (registration a)) eqn:Ht.
  - now rewrite !(or_else_true _ _ Ht).
  - rewrite !(or_else_false _ _ Ht).
    known_values. exec_both; reflexivity.
Qed.

(** The handler, from the moment the cache has been consulted. *)
Lemma GET_congruence (first second : Request) (s : State) :
  supplied first = supplied second ->
  cacheKeyOf first = cacheKeyOf second ->
  cachedSources w first = cachedSources w second ->
  (forall s', resolve w first s' = resolve w second s') ->
  GET w first s = GET w second s.
Proof.
  intros Hs Hk Hc Hr. unfold GET. cbv zeta.
  rewrite !supplied_check, Hs, Hk.
  destruct (negb (supplied second)); [reflexivity |].
  apply bind_ext. intros cached s1. apply bind_ext. intros [data |] s2; [| apply Hr].
  fold (cachedSources w first). fold (cachedSources w second). now rewrite Hc.
Qed.

End EmptyParameters.

(** X15.  A parameter given as the empty string is treated exactly as a
    parameter that is absent, for each of the three parameters: the run of the
    handler (response, invocations and caches) is the same. *)
Theorem X15_empty_parameter_is_absent
    (w : World) (icao24 registration callsign : value) (s : State) :
  GET w (mkRequest (Some "") registration callsign) s
  = GET w (mkRequest None registration callsign) s
  /\ GET w (mkRequest icao24 (Some "") callsign) s
     = GET w (mkRequest icao24 None callsign) s
  /\ GET w (mkRequest icao24 registration (Some "")) s
     = GET w (mkRequest icao24 registration None) s.
Proof.
  split; [| split].
  - apply GET_congruence; reflexivity.
  - assert (Hk : cacheKeyOf (mkRequest icao24 (Some "") callsign)
                 = cacheKeyOf (mkRequest icao24 None callsign)) by reflexivity.
    apply GET_congruence; try reflexivity.
    intros s'. unfold resolve. cbv zeta. rewrite Hk. cbn [q_icao24 q_registration q_callsign].
    rewrite !try_catch_run. f_equal. apply bind_ext. intros [a | r] s''; [| reflexivity].
    apply lookupByRegistration_empty_registration.
  - apply GET_congruence; reflexivity.
Qed.

(** ** The letter case of the transponder code *)

Lemma getOpenSkyInfo_case (w : World) (a b : string) :
  JS.toLowerCase a = JS.toLowerCase b -> getOpenSkyInfo w a = getOpenSkyInfo w b.
Proof. intros H. unfold getOpenSkyInfo. now rewrite H. Qed.

Lemma resolve_case (w : World) (a b : string) (registration callsign : value) (s : State) :
  JS.toLowerCase a = JS.toLowerCase b ->
  outcome (resolve w (mkRequest (Some a) registration callsign) s)
  = outcome (resolve w (mkRequest (Some b) registration callsign) s).
Proof.
  intros H.
  destruct a as [| x a], b as [| y b]; try discriminate H; [reflexivity |].
  unfold resolve, cacheKeyOf. cbv zeta. cbn [q_icao24 q_registration q_callsign].
  rewrite !or_else_true by reflexivity.
  change (truthy (Some (String x a))) with true.
  change (truthy (Some (String y b))) with true.
  cbn [str]. unfold lookupByIcao24. rewrite (getOpenSkyInfo_case w _ _ H).
  exec_both; reflexivity.
Qed.

(** X16.  OpenSky is asked with the transponder code in lower case, so two
    spellings of a code that differ in letter case only resolve to the same
    response.  The cache, however, is keyed by the code as it was written: after
    the first spelling has been resolved, nothing is cached for the other
    one. *)
Theorem X16_letter_case_of_the_transponder_code
    (w : World) (a b : string) (registration callsign : value) (s : State) :
  JS.toLowerCase a = JS.toLowerCase b ->
  a <> b ->
  apiCache s !! a = None ->
  apiCache s !! b = None ->
  outcome (GET w (mkRequest (Some a) registration callsign) s)
  = outcome (GET w (mkRequest (Some b) registration callsign) s)
  /\ apiCache (final (GET w (mkRequest (Some a) registration callsign) s)) !! b = None.
Proof.
  intros H Hab Ha Hb.
  destruct a as [| x a], b as [| y b]; try discriminate H; [congruence |].
  assert (Hka : cacheKeyOf (mkRequest (Some (String x a)) registration callsign) = String x a)
    by reflexivity.
  assert (Hkb : cacheKeyOf (mkRequest (Some (String y b)) registration callsign) = String y b)
    by reflexivity.
  rewrite !GET_absent by (rewrite ?Hka, ?Hkb; first [reflexivity | assumption]).
  split; [now apply resolve_case |].
  destruct (resolve_state w (mkRequest (Some (String x a)) registration callsign) s)
    as ([entry ->] & _).
  rewrite Hka, lookup_insert_ne by congruence. exact Hb.
Qed.

Lemma X16_letter_case_of_the_transponder_code_witness :
  outcome (GET withPhoto (mkRequest (Some "48AF01") None (Some "SPLRD")) initial)
  = outcome (GET withPhoto (mkRequest (Some "48af01") None (Some "SPLRD")) initial)
  /\ apiCache (final (GET withPhoto (mkRequest (Some "48AF01") None (Some "SPLRD")) initial))
     !! "48af01" = None.
Proof.
  apply (X16_letter_case_of_the_transponder_code withPhoto "48AF01" "48af01" None
           (Some "SPLRD") initial);
    [reflexivity | discriminate | reflexivity | reflexivity].
Defined.

(** ** The adapter of the bulk dataset *)

Section Csv.

Variable w : World.

(** What the scan of the lines gives: nothing, with the state untouched, or
    the record of a row that has at least twenty values and the registration
    asked for, stored in the cache with the time of the clock. *)
Lemma scanLines_result (registration : string) (lines : list string) (s : State) :
  scanLines w registration lines s = mkRun (Returns emptyPartial) [] s
  \/ exists values,
       20 <= length values
       /\ at_index 1 values = registration
       /\ scanLines w registration lines s
          = mkRun (Returns (csvAircraftInfo values)) []
              (mkState (apiCache s)
                       (<[registration := (csvAircraftInfo values, clock w (tick s))]>
                          (openskyCSVCache s))
                       (S (tick s))).
Proof.
  induction lines as [| line lines IH]; [now left |].
  cbn [scanLines]. destruct (String.eqb (JS.trim line) ""); [exact IH |]. cbv zeta.
  destruct (20 <=? _)%nat eqn:Hlen; [| exact IH].
  destruct (String.eqb _ registration) eqn:Hreg; [| exact IH].
  right. exists (map JS.removeQuotes (JS.split quoteCommaQuote line)).
  apply Nat.leb_le in Hlen. apply String.eqb_eq in Hreg.
  split; [exact Hlen |]. split; [exact Hreg |].
  rewrite bind_dateNow. unfold bind. cbn. reflexivity.
Qed.

Lemma scanLines_none (registration : string) (lines : list string) (s : State) :
  Forall (fun line => rowMatches registration line = false) lines ->
  scanLines w registration lines s = mkRun (Returns emptyPartial) [] s.
Proof.
  intros H. rewrite <- (app_nil_r lines). now rewrite scanLines_skips.
Qed.

(** With nothing cached for the registration, the adapter downloads the
    dataset. *)
Lemma csv_download (registration : string) (s : State) :
  openskyCSVCache s !! registration = None ->
  getOpenSkyCSVInfo w registration s
  = catching (fun _ => ret emptyPartial)
      (match opensky_csv w (tick s) with
       | Aborted => mkRun (Throws AbortError) [] (advance 1 s)
       | Failed => mkRun (Throws OtherError) [] (advance 1 s)
       | Replied status body =>
           if negb (ok status) then mkRun (Returns emptyPartial) [] (advance 1 s)
           else match body with
                | Some csvText =>
                    scanLines w registration (tail (JS.split newline csvText)) (advance 1 s)
                | None => mkRun (Throws OtherError) [] (advance 1 s)
                end
       end).
Proof.
  intros Hcache. unfold getOpenSkyCSVInfo. rewrite try_catch_run.
  rewrite (bind_returns
             (fun s0 => mkRun (Returns (openskyCSVCache s0 !! registration)) [] s0)
             _ s s _ eq_refl).
  rewrite Hcache, bind_ret, bind_fetch.
  destruct (opensky_csv w (tick s)) as [| | status body]; try reflexivity.
  tidy. destruct (ok status); cbn [negb]; [| reflexivity].
  now rewrite bind_json.
Qed.

(** With a fresh entry for the registration, the adapter reads the clock and
    returns the entry. *)
Lemma csv_cached (registration : string) (s : State) (data : PartialInfo) (timestamp : Z) :
  openskyCSVCache s !! registration = Some (data, timestamp) ->
  (clock w (tick s) - timestamp < OPENSKY_CSV_CACHE_DURATION)%Z ->
  getOpenSkyCSVInfo w registration s = mkRun (Returns data) [] (advance 1 s).
Proof.
  intros Hcache Hfresh. unfold getOpenSkyCSVInfo. rewrite try_catch_run.
  rewrite (bind_returns
             (fun s0 => mkRun (Returns (openskyCSVCache s0 !! registration)) [] s0)
             _ s s _ eq_refl).
  rewrite Hcache, bind_assoc, bind_dateNow, bind_ret.
  apply Z.ltb_lt in Hfresh. rewrite Hfresh. reflexivity.
Qed.

(** The runs of the adapter on a cold cache. *)
Lemma csv_cold (registration : string) (s : State) :
  openskyCSVCache s !! registration = None ->
  getOpenSkyCSVInfo w registration s = mkRun (Returns emptyPartial) [] (advance 1 s)
  \/ exists values,
       20 <= length values
       /\ at_index 1 values = registration
       /\ getOpenSkyCSVInfo w registration s
          = mkRun (Returns (csvAircraftInfo values)) []
              (mkState (apiCache s)
                       (<[registration := (csvAircraftInfo values, clock w (S (tick s)))]>
                          (openskyCSVCache s))
                       (S (S (tick s)))).
Proof.
  intros Hcache. rewrite (csv_download registration s Hcache).
  destruct (opensky_csv w (tick s)) as [| | status body]; try (left; reflexivity).
  destruct (negb (ok status)); [left; reflexivity |].
  destruct body as [csvText |]; [| left; reflexivity].
  destruct (scanLines_result registration (tail (JS.split newline csvText)) (advance 1 s))
    as [E | (values & Hlen & Hreg & E)]; rewrite E.
  - left. reflexivity.
  - right. exists values. split; [exact Hlen |]. split; [exact Hreg |]. reflexivity.
Qed.

End Csv.

(** X17.  On a cold cache the bulk-dataset adapter never throws.  It returns
    the empty object and stores nothing (a failed download and a registration
    that is not found are not remembered), or it returns the record of a row
    with at least twenty values whose second value is the registration asked
    for, and stores exactly that record under that registration.  The cache of
    the handler is never touched. *)
Theorem X17_bulk_lookup_outcomes (w : World) (registration : string) (s : State) :
  openskyCSVCache s !! registration = None ->
  exists p,
    outcome (getOpenSkyCSVInfo w registration s) = Returns p
    /\ calls (getOpenSkyCSVInfo w registration s) = []
    /\ apiCache (final (getOpenSkyCSVInfo w registration s)) = apiCache s
    /\ ((p = emptyPartial
         /\ openskyCSVCache (final (getOpenSkyCSVInfo w registration s)) = openskyCSVCache s)
        \/ (p_registration p = Some (Some registration)
            /\ p_engineType p = Some None /\ p_category p = Some None
            /\ p_photoUrl p = Some None
            /\ exists timestamp,
                 openskyCSVCache (final (getOpenSkyCSVInfo w registration s))
                 = <[registration := (p, timestamp)]> (openskyCSVCache s))).
Proof.
  intros Hcache.
  destruct (csv_cold w registration s Hcache) as [E | (values & Hlen & Hreg & E)]; rewrite E.
  - exists emptyPartial. repeat split. left. split; reflexivity.
  - exists (csvAircraftInfo values). cbn [outcome calls final apiCache openskyCSVCache].
    split; [reflexivity |]. split; [reflexivity |]. split; [reflexivity |].
    right. split; [cbn; now rewrite Hreg |]. repeat split. eexists. reflexivity.
Qed.

Lemma X17_bulk_lookup_outcomes_witness :
  exists p,
    outcome (getOpenSkyCSVInfo datasetServer "SP-LRD" initial) = Returns p
    /\ calls (getOpenSkyCSVInfo datasetServer "SP-LRD" initial) = []
    /\ apiCache (final (getOpenSkyCSVInfo datasetServer "SP-LRD" initial)) = apiCache initial
    /\ ((p = emptyPartial
         /\ openskyCSVCache (final (getOpenSkyCSVInfo datasetServer "SP-LRD" initial))
            = openskyCSVCache initial)
        \/ (p_registration p = Some (Some "SP-LRD")
            /\ p_engineType p = Some None /\ p_category p = Some None
            /\ p_photoUrl p = Some None
            /\ exists timestamp,
                 openskyCSVCache (final (getOpenSkyCSVInfo datasetServer "SP-LRD" initial))
                 = <[ "SP-LRD" := (p, timestamp)]> (openskyCSVCache initial))).
Proof.
  apply (X17_bulk_lookup_outcomes datasetServer "SP-LRD" initial). reflexivity.
Defined.

(** X18.  Round trip through the cache of the bulk dataset: a record found by
    a lookup on a cold cache is served again, unchanged, by every lookup of the
    same registration made while the entry is less than twenty-four hours old,
    and such a lookup only reads the clock: the dataset is not downloaded
    again. *)
Theorem X18_bulk_lookup_round_trip
    (w : World) (registration : string) (s : State) (p : PartialInfo) :
  openskyCSVCache s !! registration = None ->
  outcome (getOpenSkyCSVInfo w registration s) = Returns p ->
  p <> emptyPartial ->
  exists timestamp,
    openskyCSVCache (final (getOpenSkyCSVInfo w registration s)) !! registration
    = Some (p, timestamp)
    /\ forall s2,
         openskyCSVCache s2 !! registration = Some (p, timestamp) ->
         (clock w (tick s2) - timestamp < OPENSKY_CSV_CACHE_DURATION)%Z ->
         getOpenSkyCSVInfo w registration s2 = mkRun (Returns p) [] (advance 1 s2).
Proof.
  intros Hcache Hout Hp.
  destruct (csv_cold w registration s Hcache) as [E | (values & Hlen & Hreg & E)];
    rewrite E in Hout |- *; injection Hout as <-; [congruence |].
  eexists. split; [cbn [final openskyCSVCache]; apply lookup_insert_eq |].
  intros s2 Hs2 Hfresh. now apply (csv_cached w registration s2 _ _ Hs2).
Qed.

Lemma X18_bulk_lookup_round_trip_witness :
  exists timestamp,
    openskyCSVCache (final (getOpenSkyCSVInfo datasetServer "SP-LRD" initial)) !! "SP-LRD"
    = Some (csvAircraftInfo (scenarioFields "48af01" sampleColumns), timestamp)
    /\ forall s2,
         openskyCSVCache s2 !! "SP-LRD"
         = Some (csvAircraftInfo (scenarioFields "48af01" sampleColumns), timestamp) ->
         (clock datasetServer (tick s2) - timestamp < OPENSKY_CSV_CACHE_DURATION)%Z ->
         getOpenSkyCSVInfo datasetServer "SP-LRD" s2
         = mkRun (Returns (csvAircraftInfo (scenarioFields "48af01" sampleColumns))) []
             (advance 1 s2).
Proof.
  apply (X18_bulk_lookup_round_trip datasetServer "SP-LRD" initial
           (csvAircraftInfo (scenarioFields "48af01" sampleColumns))).
  - reflexivity.
  - vm_compute. reflexivity.
  - vm_compute. discriminate.
Defined.

Lemma lines_of_dataset_exact (header row : string) (before : list string) :
  lacks newlineChar header = true ->
  Forall (fun line => lacks newlineChar line = true) before ->
  lacks newlineChar row = true ->
  JS.split newline (dataset header before row "") = header :: before ++ [row].
Proof.
  intros Hh Hb Hr. unfold JS.split, dataset.
  rewrite split_line by exact Hh. rewrite append_empty_l. f_equal.
  induction Hb as [| line before Hl Hb IH].
  - cbn [linesOf fold_right app]. rewrite append_empty_l, append_empty_r.
    now rewrite split_last_line, append_empty_l by exact Hr.
  - change (linesOf (line :: before)) with (line +:+ newline +:+ linesOf before).
    rewrite !append_assoc. rewrite split_line by exact Hl.
    rewrite append_empty_l. cbn [app]. now rewrite IH.
Qed.

(** X19.  When the download of the dataset fails (time-out, network failure,
    error status, unreadable body) or no line after the header has at least
    twenty values with the registration as the second one, the adapter returns
    the empty object after that one download and leaves both caches as they
    were: the next lookup downloads the dataset again. *)
Theorem X19_fruitless_download_is_not_cached (w : World) (registration : string) (s : State) :
  openskyCSVCache s !! registration = None ->
  (failed (opensky_csv w (tick s)) = true
   \/ exists status text,
        opensky_csv w (tick s) = Replied status (Some text)
        /\ Forall (fun line => rowMatches registration line = false)
                  (tail (JS.split newline text))) ->
  getOpenSkyCSVInfo w registration s = mkRun (Returns emptyPartial) [] (advance 1 s).
Proof.
  intros Hcache H. rewrite (csv_download w registration s Hcache).
  destruct H as [H | (status & text & -> & H)].
  - destruct (opensky_csv w (tick s)) as [| | status body]; try reflexivity.
    cbn [failed] in H. destruct (negb (ok status)); [reflexivity |].
    destruct body; [discriminate H | reflexivity].
  - destruct (negb (ok status)); [reflexivity |].
    now rewrite scanLines_none.
Qed.

Lemma X19_fruitless_download_is_not_cached_witness :
  getOpenSkyCSVInfo offline "SP-LRD" initial = mkRun (Returns emptyPartial) [] (advance 1 initial).
Proof.
  apply (X19_fruitless_download_is_not_cached offline "SP-LRD" initial);
    [reflexivity | left; reflexivity].
Defined.

(** X20.  A row of the dataset in which every field is quoted is read by
    position: when it is the first line after the header that matches, the
    record returned is built from its fields (the registration from the second
    one, the model from the fifth or else the type code in the sixth, the
    manufacturer from the fourth or else the third, and so on), commas inside
    the fields included.  A row with fewer than twenty fields is never used,
    even when its second field is the registration asked for. *)
Theorem X20_quoted_rows_are_read_by_position
    (w : World) (registration : string) (s : State) (status : Z)
    (header f rest : string) (before more : list string) :
  openskyCSVCache s !! registration = None ->
  ok status = true ->
  lacks newlineChar header = true ->
  Forall (fun line => lacks newlineChar line = true) before ->
  Forall (fun line => rowMatches registration line = false) before ->
  Forall (fun f => plain f = true) (f :: more) ->
  lacks ","%char f = true ->
  (20 <= length (f :: more) ->
   at_index 1 (f :: more) = registration ->
   (rest = "" \/ exists t, rest = newline +:+ t) ->
   opensky_csv w (tick s)
   = Replied status (Some (dataset header before (csvRow (f :: more)) rest)) ->
   outcome (getOpenSkyCSVInfo w registration s) = Returns (csvAircraftInfo (f :: more)))
  /\ (length (f :: more) < 20 ->
      opensky_csv w (tick s)
      = Replied status (Some (dataset header before (csvRow (f :: more)) "")) ->
      outcome (getOpenSkyCSVInfo w registration s) = Returns emptyPartial).
Proof.
  intros Hcache Hok Hh Hb Hskip Hplain Hcomma.
  assert (Hquote : Forall (fun f => lacks JS.dquote f = true) (f :: more)).
  { eapply Forall_impl; [exact Hplain |]. apply plain_quote. }
  pose proof (values_of_row f more Hquote Hcomma) as Hvalues.
  pose proof (lacks_newline_csvRow _ Hplain) as Hrow.
  split.
  - intros Hlen Hreg Hrest Hreply.
    rewrite (csv_download w registration s Hcache), Hreply, Hok. cbn [negb].
    destruct (lines_of_dataset header (csvRow (f :: more)) rest before Hh Hb Hrow Hrest)
      as [tl ->].
    cbn [tail]. rewrite scanLines_skips by exact Hskip.
    assert (Hmatch : rowMatches registration (csvRow (f :: more)) = true).
    { unfold rowMatches. rewrite Hvalues. unfold csvRow at 1. rewrite row_not_blank.
      apply Nat.leb_le in Hlen. rewrite Hlen. apply String.eqb_eq in Hreg. now rewrite Hreg. }
    destruct (scanLines_finds w registration _ tl (advance 1 s) Hmatch) as (s' & -> & _).
    now rewrite catching_returns, Hvalues.
  - intros Hlen Hreply.
    rewrite (csv_download w registration s Hcache), Hreply, Hok. cbn [negb].
    rewrite (lines_of_dataset_exact header _ before Hh Hb Hrow). cbn [tail].
    rewrite scanLines_none; [reflexivity |].
    apply Forall_app. split; [exact Hskip |]. constructor; [| constructor].
    unfold rowMatches. rewrite Hvalues.
    apply Nat.ltb_lt in Hlen. rewrite Nat.ltb_antisym in Hlen.
    apply negb_true_iff in Hlen. rewrite Hlen. now rewrite andb_false_r.
Qed.

Lemma X20_quoted_rows_are_read_by_position_witness :
  outcome (getOpenSkyCSVInfo datasetServer "SP-LRD" initial)
  = Returns (csvAircraftInfo (scenarioFields "48af01" sampleColumns)).
Proof.
  apply (proj1 (X20_quoted_rows_are_read_by_position datasetServer "SP-LRD" initial 200
                  sampleHeader "48af01" "" [otherRow]
                  ("SP-LRD" :: "BOE" :: "Boeing" :: "737-800" :: sampleColumns)
                  eq_refl eq_refl eq_refl
                  ltac:(repeat constructor)
                  ltac:(repeat constructor; vm_compute; reflexivity)
                  ltac:(repeat constructor)
                  eq_refl));
    [cbn; lia | reflexivity | left; reflexivity | reflexivity].
Defined.

(** ** The server action that calls the route *)

Lemma or_null_text (v : value) : null_or_text (or_null v).
Proof.
  unfold null_or_text, or_null, or_else. destruct (truthy v) eqn:H; [now right | now left].
Qed.

Lemma or_else_text (v : value) (s : string) :
  s <> "" -> truthy (or_else v (Some s)) = true.
Proof.
  intros Hs. unfold or_else. destruct (truthy v) eqn:H; [exact H |].
  cbn. now apply negb_true_iff, String.eqb_neq.
Qed.


Lemma fetch_through_route
    (w : World) (server : State) (icao24 : string) (callsign registrationParam : value)
    (s : State) :
  icao24 <> "" ->
  cacheKeyOf (queryOf icao24 callsign registrationParam) = JS.toLowerCase icao24
  /\ supplied (queryOf icao24 callsign registrationParam) = true
  /\ exists data cached sources,
       outcome (GET w (queryOf icao24 callsign registrationParam) server)
       = Returns (Success data cached sources)
       /\ fetchAircraftMetadata (route w server) icao24 callsign registrationParam s
          = mkRun (Returns (Some (metadataOf data))) [] (advance 1 s).
Proof.
  intros Hi.
  assert (Ht : truthy (q_icao24 (queryOf icao24 callsign registrationParam)) = true).
  { cbn [queryOf q_icao24]. rewrite truthy_toLowerCase.
    unfold truthy. now apply negb_true_iff, String.eqb_neq. }
  split; [now rewrite cacheKeyOf_icao24 |].
  assert (Hs : supplied (queryOf icao24 callsign registrationParam) = true)
    by (unfold supplied; now rewrite Ht).
  split; [exact Hs |].
  destruct (GET_succeeds w _ server Hs) as (data & cached & sources & ts & Hout & _).
  exists data, cached, sources. split; [exact Hout |].
  unfold fetchAircraftMetadata. rewrite try_catch_run, bind_fetch.
  unfold route at 1. rewrite Hout. cbn [wire]. tidy.
  change (ok 200) with true. cbn [negb]. now rewrite bind_json.
Qed.





(** ** What the providers are asked *)

Lemma truthy_str (v : value) : truthy v = true -> str v <> "".
Proof.
  destruct v as [x |]; [| discriminate]. cbn. intros H.
  now apply String.eqb_neq, negb_true_iff.
Qed.

Section Arguments.

Variable w : World.

Ltac impossible :=
  match goal with
  | H : true = false |- _ => discriminate H
  | H : false = true |- _ => discriminate H
  end.

Lemma resolve_arguments (request : Request) (s : State) :
  Forall (fun st => argument st <> "") (calls (resolve w request s)).
Proof.
  destruct request as [icao24 registrationParam callsign].
  unfold resolve, cacheKeyOf. exec; try impossible.
  all: cbn [calls].
  all: repeat match goal with
              | |- Forall _ [] => constructor
              | |- Forall _ (_ :: _) =>
                  constructor;
                  [ cbn [argument];
                    match goal with
                    | H : truthy _ = true |- _ => exact (truthy_str _ H)
                    end |]
              end.
Qed.

End Arguments.

(** X24.  No provider is ever asked about an empty identifier: in every run
    of the handler, each invocation carries a non-empty transponder code,
    registration or callsign. *)
Theorem X24_no_empty_identifier_is_looked_up (w : World) (request : Request) (s : State) :
  Forall (fun st => argument st <> "") (calls (GET w request s)).
Proof.
  destruct (GET_runs w request s) as [[_ E] | [(_ & data & ts & _ & E) | [_ [E | E]]]];
    rewrite E; try constructor; apply resolve_arguments.
Qed.

(** ** Empty strings *)

Lemma null_text : null_or_text None.
Proof. now left. Qed.

Lemma or_else_null_text (a b : value) : null_or_text (or_else a (or_else b None)).
Proof. exact (or_else_truthy a b). Qed.

Ltac normal :=
  let field := fresh "field" in
  let Hfield := fresh "Hfield" in
  intros field Hfield; destruct field; cbn [key read with_photoUrl emptyPartial
    p_registration p_model p_manufacturer p_owner p_operator p_yearBuilt p_engineType
    p_category p_photoUrl];
  first [ congruence | apply null_text | apply or_null_text | apply or_else_null_text ].

Section Normalised.

Variable w : World.

Ltac run_adapter := repeat (first [law | branch]; tidy).

Ltac returned :=
  eexists;
  first [ exists 0; split; [reflexivity |]
        | exists 1; split; [reflexivity |]
        | exists 2; split; [reflexivity |] ].

Lemma getOpenSkyInfo_normalised (icao24 : string) (s : State) :
  exists p n, getOpenSkyInfo w icao24 s = mkRun (Returns p) [] (advance n s)
              /\ normalised p.
Proof.
  destruct s as [api csv t]. unfold getOpenSkyInfo. run_adapter; returned; normal.
Qed.

Lemma getSupabaseAircraftInfo_normalised (registration : string) (s : State) :
  exists p n, getSupabaseAircraftInfo w registration s = mkRun (Returns p) [] (advance n s)
              /\ normalised p.
Proof.
  destruct s as [api csv t]. unfold getSupabaseAircraftInfo. run_adapter; returned; normal.
Qed.

Lemma getFlightAwareInfo_normalised (registration : string) (s : State) :
  exists p n, getFlightAwareInfo w registration s = mkRun (Returns p) [] (advance n s)
              /\ normalised p.
Proof.
  destruct s as [api csv t]. unfold getFlightAwareInfo. run_adapter; returned; normal.
Qed.

Lemma getAviationStackInfo_normalised (registration : string) (s : State) :
  exists p n, getAviationStackInfo w registration s = mkRun (Returns p) [] (advance n s)
              /\ normalised p.
Proof.
  destruct s as [api csv t]. unfold getAviationStackInfo. run_adapter; returned; normal.
Qed.

Lemma getPlanespottersInfo_normalised (registration : string) (s : State) :
  exists p n, getPlanespottersInfo w registration s = mkRun (Returns p) [] (advance n s)
              /\ normalised p.
Proof.
  destruct s as [api csv t]. unfold getPlanespottersInfo. run_adapter; returned; normal.
Qed.

End Normalised.

Lemma category_text (m : value) : truthy (Some (getAircraftCategory m)) = true.
Proof.
  unfold getAircraftCategory.
  repeat match goal with
         | |- context [if ?b then _ else _] => destruct b
         | |- context [match ?v with Some _ => _ | None => _ end] => destruct v
         end; reflexivity.
Qed.

Lemma clean_nullInfo : clean nullInfo.
Proof. intros f _. left. now destruct f. Qed.

Lemma clean_spread (a : AircraftInfo) (p : PartialInfo) :
  clean a -> normalised p -> clean (spread a p).
Proof.
  intros Ha Hp f Hf. rewrite get_spread. specialize (Ha f Hf). specialize (Hp f Hf).
  now destruct (key f p).
Qed.

Lemma clean_takePhoto (p : PartialInfo) (a : AircraftInfo) :
  clean a -> clean (takePhoto p a).
Proof.
  intros Ha f Hf. destruct f; try (rewrite get_takePhoto by discriminate; now apply Ha).
  cbn [get]. rewrite photoUrl_takePhoto.
  destruct (truthy (read (p_photoUrl p))) eqn:H; [now right | now apply (Ha FPhotoUrl)].
Qed.

Lemma clean_spreadKeepingPhoto (a : AircraftInfo) (p : PartialInfo) :
  clean a -> normalised p -> clean (spreadKeepingPhoto a p).
Proof.
  intros Ha Hp f Hf. destruct f;
    try (rewrite get_spreadKeepingPhoto by discriminate;
         specialize (Ha _ Hf); specialize (Hp _ Hf); cbn [key] in *;
         match goal with |- null_or_text (overwrite ?o _) => now destruct o end).
  exact (Ha FPhotoUrl Hf).
Qed.

Lemma clean_set_category (m : value) (a : AircraftInfo) :
  clean a -> clean (set_category (Some (getAircraftCategory m)) a).
Proof.
  intros Ha f Hf. destruct f; try exact (Ha _ Hf).
  right. apply category_text.
Qed.

Lemma clean_set_registration (v : value) (a : AircraftInfo) :
  clean a -> clean (set_registration v a).
Proof. intros Ha f Hf. destruct f; try exact (Ha _ Hf). congruence. Qed.

Ltac call_normalised :=
  match goal with
  | |- context [bind (getOpenSkyInfo ?w ?a) ?k ?s] =>
      let p := fresh "openskyInfo" in
      let E := fresh "E" in
      destruct (getOpenSkyInfo_normalised w a s) as (p & ? & E & ?);
      rewrite (bind_returns _ k _ _ _ E); clear E
  | |- context [bind (getSupabaseAircraftInfo ?w ?a) ?k ?s] =>
      let p := fresh "supabaseInfo" in
      let E := fresh "E" in
      destruct (getSupabaseAircraftInfo_normalised w a s) as (p & ? & E & ?);
      rewrite (bind_returns _ k _ _ _ E); clear E
  | |- context [bind (getFlightAwareInfo ?w ?a) ?k ?s] =>
      let p := fresh "flightAwareInfo" in
      let E := fresh "E" in
      destruct (getFlightAwareInfo_normalised w a s) as (p & ? & E & ?);
      rewrite (bind_returns _ k _ _ _ E); clear E
  | |- context [bind (getAviationStackInfo ?w ?a) ?k ?s] =>
      let p := fresh "aviationStackInfo" in
      let E := fresh "E" in
      destruct (getAviationStackInfo_normalised w a s) as (p & ? & E & ?);
      rewrite (bind_returns _ k _ _ _ E); clear E
  | |- context [bind (getPlanespottersInfo ?w ?a) ?k ?s] =>
      let p := fresh "planespottersInfo" in
      let E := fresh "E" in
      destruct (getPlanespottersInfo_normalised w a s) as (p & ? & E & ?);
      rewrite (bind_returns _ k _ _ _ E); clear E
  end.

Ltac step_normalised :=
  first
    [ law
    | call_normalised
    | progress unfold lookupByIcao24, lookupByRegistration
    | branch ];
  tidy.

Ltac cleaning :=
  repeat lazymatch goal with
         | |- clean nullInfo => apply clean_nullInfo
         | |- clean (set_category _ _) => apply clean_set_category
         | |- clean (set_registration _ _) => apply clean_set_registration
         | |- clean (takePhoto _ _) => apply clean_takePhoto
         | |- clean (spreadKeepingPhoto _ _) => apply clean_spreadKeepingPhoto; [| assumption]
         | |- clean (spread _ _) => apply clean_spread; [| assumption]
         end.

Lemma resolve_clean (w : World) (request : Request) (s : State) :
  clean (response_data (resolve w request s)).
Proof.
  destruct request as [icao24 registrationParam callsign].
  unfold resolve, cacheKeyOf. tidy.
  repeat step_normalised; unfold response_data; cbn [outcome]; cleaning.
Qed.



(** ** The work of one request *)

Section Bounded.

Variable w : World.

Ltac run_adapter := repeat (first [law | branch]; tidy).

Ltac within :=
  eexists;
  first [ exists 0; split; [reflexivity | lia]
        | exists 1; split; [reflexivity | lia]
        | exists 2; split; [reflexivity | lia] ].

Lemma getOpenSkyInfo_bounded (icao24 : string) (s : State) :
  exists p n, getOpenSkyInfo w icao24 s = mkRun (Returns p) [] (advance n s) /\ n <= 1.
Proof. destruct s as [api csv t]. unfold getOpenSkyInfo. run_adapter; within. Qed.

Lemma getSupabaseAircraftInfo_bounded (registration : string) (s : State) :
  exists p n,
    getSupabaseAircraftInfo w registration s = mkRun (Returns p) [] (advance n s) /\ n <= 1.
Proof. destruct s as [api csv t]. unfold getSupabaseAircraftInfo. run_adapter; within. Qed.

Lemma getFlightAwareInfo_bounded (registration : string) (s : State) :
  exists p n,
    getFlightAwareInfo w registration s = mkRun (Returns p) [] (advance n s) /\ n <= 1.
Proof. destruct s as [api csv t]. unfold getFlightAwareInfo. run_adapter; within. Qed.

Lemma getAviationStackInfo_bounded (registration : string) (s : State) :
  exists p n,
    getAviationStackInfo w registration s = mkRun (Returns p) [] (advance n s) /\ n <= 1.
Proof. destruct s as [api csv t]. unfold getAviationStackInfo. run_adapter; within. Qed.

Lemma getPlanespottersInfo_bounded (registration : string) (s : State) :
  exists p n,
    getPlanespottersInfo w registration s = mkRun (Returns p) [] (advance n s) /\ n <= 2.
Proof. destruct s as [api csv t]. unfold getPlanespottersInfo. run_adapter; within. Qed.

End Bounded.

Ltac call_bounded :=
  match goal with
  | |- context [bind (getOpenSkyInfo ?w ?a) ?k ?s] =>
      let p := fresh "openskyInfo" in
      let E := fresh "E" in
      destruct (getOpenSkyInfo_bounded w a s) as (p & ? & E & ?);
      rewrite (bind_returns _ k _ _ _ E); clear E
  | |- context [bind (getSupabaseAircraftInfo ?w ?a) ?k ?s] =>
      let p := fresh "supabaseInfo" in
      let E := fresh "E" in
      destruct (getSupabaseAircraftInfo_bounded w a s) as (p & ? & E & ?);
      rewrite (bind_returns _ k _ _ _ E); clear E
  | |- context [bind (getFlightAwareInfo ?w ?a) ?k ?s] =>
      let p := fresh "flightAwareInfo" in
      let E := fresh "E" in
      destruct (getFlightAwareInfo_bounded w a s) as (p & ? & E & ?);
      rewrite (bind_returns _ k _ _ _ E); clear E
  | |- context [bind (getAviationStackInfo ?w ?a) ?k ?s] =>
      let p := fresh "aviationStackInfo" in
      let E := fresh "E" in
      destruct (getAviationStackInfo_bounded w a s) as (p & ? & E & ?);
      rewrite (bind_returns _ k _ _ _ E); clear E
  | |- context [bind (getPlanespottersInfo ?w ?a) ?k ?s] =>
      let p := fresh "planespottersInfo" in
      let E := fresh "E" in
      destruct (getPlanespottersInfo_bounded w a s) as (p & ? & E & ?);
      rewrite (bind_returns _ k _ _ _ E); clear E
  end.

Ltac step_bounded :=
  first
    [ law
    | call_bounded
    | progress unfold lookupByIcao24, lookupByRegistration
    | branch ];
  tidy.

Lemma resolve_bounded (w : World) (request : Request) (s : State) :
  tick s < tick (final (resolve w request s)) <= tick s + 8.
Proof.
  destruct s as [api csv t].
  destruct request as [icao24 registrationParam callsign].
  unfold resolve, cacheKeyOf. tidy.
  repeat step_bounded;
    try match goal with
        | H : true = false |- _ => discriminate H
        | H : false = true |- _ => discriminate H
        end;
    cbn [final advance tick apiCache openskyCSVCache]; lia.
Qed.


